(** * PDP tracker: ingestion, aggregation, comparison and reporting

    A shallow embedding of [pdp_tracker.py] (class [PDPTracker]) and the
    properties of its import pipeline, comparator and report generator.

    Conventions of the embedding
    - Python [float] and SQLite [REAL] are IEEE binary64: Rocq's primitive
      [float].  [INTEGER] columns and Python [int] are [Z].  A REAL column
      is written down as the float that was bound to it; SQLite stores a
      NaN as NULL, so a NaN in a table stands for NULL and a SELECT gives
      it back as [None] (see [fetched]).
    - Text is ASCII [string]; [str.lower] and [str.strip] act on the ASCII
      letters and ASCII white space.
    - A raised Python exception is a value of [exn] carried by [outcome];
      code that touches the database runs in the monad [M], whose state is
      the sqlite3 connection.  A raise keeps the state reached so far.
    - Console output ([print]) is not part of the model. *)

From Stdlib Require Import ZArith List String Ascii Bool Lia DecimalString.
From Stdlib Require Import DecimalPos.
From Stdlib Require Uint63.
From Stdlib Require Import Floats.
Import ListNotations.

(* Decimal float literals below denote the nearest binary64 value, as the
   same literals do in Python. *)
Set Warnings "-inexact-float".

Local Open Scope string_scope.
Local Open Scope Z_scope.

(** ** Python values and exceptions *)

Inductive exn : Type :=
| TypeError
| ValueError
| ZeroDivisionError
| OperationalError.

Inductive outcome (A : Type) : Type :=
| Return (a : A)
| Raise (e : exn).
Arguments Return {A} a.
Arguments Raise {A} e.

(** [try: body except: handler] on a computation without state. *)
Definition try_except {A} (body : outcome A) (handler : exn -> outcome A)
  : outcome A :=
  match body with
  | Return a => Return a
  | Raise e => handler e
  end.

(** ** Text *)

Module Text.

Definition is_upper (c : ascii) : bool :=
  let n := nat_of_ascii c in (Nat.leb 65 n && Nat.leb n 90)%bool.

Definition lower_char (c : ascii) : ascii :=
  if is_upper c then ascii_of_nat (nat_of_ascii c + 32) else c.

(** [s.lower()] *)
Fixpoint lower (s : string) : string :=
  match s with
  | EmptyString => EmptyString
  | String c r => String (lower_char c) (lower r)
  end.

(** The ASCII characters for which [str.isspace] holds. *)
Definition is_space (c : ascii) : bool :=
  let n := nat_of_ascii c in
  ((Nat.leb 9 n && Nat.leb n 13) || (Nat.leb 28 n && Nat.leb n 32))%bool.

Fixpoint lstrip (s : string) : string :=
  match s with
  | EmptyString => EmptyString
  | String c r => if is_space c then lstrip r else s
  end.

Fixpoint rstrip (s : string) : string :=
  match s with
  | EmptyString => EmptyString
  | String c r =>
      match rstrip r with
      | EmptyString => if is_space c then EmptyString else String c EmptyString
      | r' => String c r'
      end
  end.

(** [s.strip()] *)
Definition strip (s : string) : string := rstrip (lstrip s).

(** [p in s] for strings: [p] occurs in [s] as a substring. *)
Fixpoint contains (p s : string) : bool :=
  if String.prefix p s then true
  else match s with
       | EmptyString => false
       | String _ r => contains p r
       end.

(** [s.replace(c, '')] for a one-character [c]. *)
Fixpoint remove_char (c : ascii) (s : string) : string :=
  match s with
  | EmptyString => EmptyString
  | String d r =>
      if Ascii.eqb c d then remove_char c r else String d (remove_char c r)
  end.

(** [x in l] for a list of strings. *)
Definition mem (x : string) (l : list string) : bool :=
  existsb (String.eqb x) l.

Definition is_digit (c : ascii) : bool :=
  let n := nat_of_ascii c in (Nat.leb 48 n && Nat.leb n 57)%bool.

Definition digit_val (c : ascii) : Z := Z.of_nat (nat_of_ascii c) - 48.

End Text.

(** ** [float(s)]: Python's text to binary64 conversion *)

Module PyFloat.

Import Text.

(** A decimal numeral read so far: the digits as one integer and the number
    of digits read. *)
Record digits := { dval : Z; dlen : Z }.

(** [digitpart ::= digit (["_"] digit)*], read greedily.  [after_digit]
    says whether the previous character was a digit (an underscore is
    accepted only between two digits).  Returns the numeral and the rest. *)
Fixpoint read_digits (s : string) (acc : digits) (after_digit : bool)
  : digits * string :=
  match s with
  | String c r =>
      if is_digit c then
        read_digits r {| dval := 10 * dval acc + digit_val c;
                         dlen := dlen acc + 1 |} true
      else if (after_digit && Ascii.eqb c "_")%bool then
        match r with
        | String d _ =>
            if is_digit d then read_digits r acc false else (acc, s)
        | EmptyString => (acc, s)
        end
      else (acc, s)
  | EmptyString => (acc, s)
  end.

Definition no_digits : digits := {| dval := 0; dlen := 0 |}.

(** [Py_ISSPACE]: the white space of the C locale, which is what [float]
    trims from an ASCII text (tab, line feed, vertical tab, form feed,
    carriage return and space; not the separators 28-31 that [str.strip]
    also removes). *)
Definition isspace (c : ascii) : bool :=
  let n := nat_of_ascii c in
  ((Nat.leb 9 n && Nat.leb n 13) || Nat.eqb n 32)%bool.

Fixpoint ltrim (s : string) : string :=
  match s with
  | EmptyString => EmptyString
  | String c r => if isspace c then ltrim r else s
  end.

Fixpoint rtrim (s : string) : string :=
  match s with
  | EmptyString => EmptyString
  | String c r =>
      match rtrim r with
      | EmptyString => if isspace c then EmptyString else String c EmptyString
      | r' => String c r'
      end
  end.

Definition trim (s : string) : string := rtrim (ltrim s).

Definition read_sign (s : string) : bool * string :=
  match s with
  | String "-" r => (true, r)
  | String "+" r => (false, r)
  | _ => (false, s)
  end.

(** [exponent ::= ("e" | "E") [sign] digitpart]; an absent exponent is 0,
    a malformed one is rejected. *)
Definition read_exponent (s : string) : option Z :=
  match s with
  | EmptyString => Some 0
  | String c r =>
      if Ascii.eqb (lower_char c) "e" then
        let (neg, r1) := read_sign r in
        match read_digits r1 no_digits false with
        | (d, EmptyString) =>
            if dlen d =? 0 then None
            else Some (if neg then - dval d else dval d)
        | _ => None
        end
      else None
  end.

(** [floatnumber ::= ([digitpart] "." digitpart | digitpart ["."]) [exponent]]
    as a pair (m, e) standing for m * 10^e. *)
Definition read_floatnumber (s : string) : option (Z * Z) :=
  let (ip, r) := read_digits s no_digits false in
  let (fp, r') :=
    match r with
    | String "." r1 =>
        let (fp, r2) := read_digits r1 no_digits false in (fp, r2)
    | _ => (no_digits, r)
    end in
  if ((dlen ip =? 0) && (dlen fp =? 0))%bool then None
  else
    match read_exponent r' with
    | Some e => Some (dval ip * 10 ^ dlen fp + dval fp, e - dlen fp)
    | None => None
    end.

(** The binary64 value nearest to m * 10^e for m > 0 (ties to even),
    infinite on overflow. *)
Definition round_decimal (m : positive) (e : Z) : spec_float :=
  if 0 <=? e then
    binary_normalize prec emax (Zpos m * 10 ^ e) 0 false
  else
    SFdiv prec emax
      (S754_finite false m 0)
      (S754_finite false (Z.to_pos (10 ^ (- e))) 0).

Definition of_decimal (neg : bool) (m e : Z) : float :=
  match m with
  | Zpos p =>
      let f := SF2Prim (round_decimal p e) in
      if neg then (- f)%float else f
  | _ => if neg then neg_zero else zero
  end.

(** [float(s)] for a string [s]; [ValueError] when [s] is not a
    [floatvalue]. *)
Definition float_of_str (s : string) : outcome float :=
  let (neg, body) := read_sign (trim s) in
  let low := lower body in
  if (String.eqb low "inf" || String.eqb low "infinity")%bool then
    Return (if neg then neg_infinity else infinity)
  else if String.eqb low "nan" then Return nan
  else
    match read_floatnumber body with
    | Some (m, e) => Return (of_decimal neg m e)
    | None => Raise ValueError
    end.

End PyFloat.

(** ** Services of the Python runtime and of the SQLite engine

    Functions the program calls but does not define, and the clock. *)

Class PyRuntime : Type := {
  (** [str(x)] for a float [x] that is not NaN *)
  float_repr : float -> string;
  (** [format(x, ',.2f')] *)
  format_money : float -> string;
  (** [date.today()], as the text sqlite3 stores *)
  date_today : string;
  (** SQLite's [CURRENT_TIMESTAMP] *)
  current_timestamp : string;
  (** [datetime.now().strftime('%Y%m%d_%H%M%S')] *)
  now_stamp : string;
  (** [os.path.basename] *)
  basename : string -> string
}.

(** [float(n)] for an integer [n] within the binary64 range. *)
Definition float_of_Z (n : Z) : float :=
  SF2Prim (binary_normalize prec emax n 0 false).

(** [x / y] on floats: Python raises on a zero divisor. *)
Definition truediv (x y : float) : outcome float :=
  if (y =? 0)%float then Raise ZeroDivisionError else Return (x / y)%float.

(** [sum(xs)]: the additions run left to right from the integer 0, which
    float addition treats as 0.0. *)
Definition py_sum (xs : list float) : float :=
  fold_left PrimFloat.add xs 0%float.

(** [o[i]] where [o] is a fetched row or [None]. *)
Definition subscript {A} (o : option A) : outcome A :=
  match o with
  | Some r => Return r
  | None => Raise TypeError
  end.

(** ** Cells and data frames *)

Inductive cell : Type :=
| CNone
| CFloat (f : float)
| CInt (z : Z)
| CStr (s : string).

(** A frame as [pd.read_excel] gives it: a header of distinct labels and
    rows holding one cell per label. *)
Record dataframe : Type := {
  columns : list string;
  rows : list (list cell)
}.

(** [pd.isna(value)] on a scalar *)
Definition isna (value : cell) : bool :=
  match value with
  | CNone => true
  | CFloat f => is_nan f
  | CInt _ | CStr _ => false
  end.

Definition str_of_Z (z : Z) : string := NilZero.string_of_int (Z.to_int z).

(** The text of [value]: what [str(value)] returns when it returns. *)
Definition py_str `{PyRuntime} (value : cell) : string :=
  match value with
  | CNone => "None"
  | CFloat f => if is_nan f then "nan" else float_repr f
  | CInt z => str_of_Z z
  | CStr s => s
  end.

(** [sys.int_info.default_max_str_digits]: CPython 3.11 and later, in
    their default setting, refuse to print an [int] of more decimal
    digits than this and raise [ValueError]. *)
Definition int_max_str_digits : Z := 4300.

(** The number of decimal digits of an integer, its sign left out. *)
Definition int_digits (z : Z) : Z :=
  Z.of_nat (String.length (str_of_Z (Z.abs z))).

(** [str(value)], the call. *)
Definition str `{PyRuntime} (value : cell) : outcome string :=
  match value with
  | CInt z =>
      if int_max_str_digits <? int_digits z then Raise ValueError
      else Return (py_str value)
  | _ => Return (py_str value)
  end.

(** [row[col]]: the cell under the label [col]. *)
Fixpoint row_get (cols : list string) (row : list cell) (col : string)
  : cell :=
  match cols, row with
  | c :: cols', v :: row' =>
      if String.eqb c col then v else row_get cols' row' col
  | _, _ => CFloat nan
  end.

(** ** The four tables *)

Module Baseline.
Record row : Type := {
  id : Z;
  baseline_date : string;
  baseline_name : string;
  description : string;
  created_at : string
}.
End Baseline.

Module Agent.
Record row : Type := {
  id : Z;
  baseline_id : Z;
  agent_name : string;
  office : string;
  current_month_promised : float;
  following_month_promised : float;
  total_promised : float;
  import_date : string;
  created_at : string
}.
End Agent.

Module Office.
Record row : Type := {
  id : Z;
  baseline_id : Z;
  office : string;
  current_month_total : float;
  following_month_total : float;
  grand_total : float;
  agent_count : Z;
  import_date : string;
  created_at : string
}.
End Office.

Module Company.
Record row : Type := {
  id : Z;
  baseline_id : Z;
  total_current_month : float;
  total_following_month : float;
  grand_total : float;
  total_agents : Z;
  total_offices : Z;
  import_date : string;
  created_at : string
}.
End Company.

Record tables : Type := {
  baselines : list Baseline.row;
  agent_performance : list Agent.row;
  office_totals : list Office.row;
  company_totals : list Company.row
}.

Definition empty_tables : tables :=
  {| baselines := []; agent_performance := [];
     office_totals := []; company_totals := [] |}.

(** [INTEGER PRIMARY KEY AUTOINCREMENT] in a table from which nothing is
    ever deleted: the rows are numbered 1, 2, 3, ... *)
Definition next_id {A} (rows : list A) : Z := Z.of_nat (List.length rows) + 1.

(** ** The connection

    [view] is the database as statements on this connection see it,
    pending changes included; [durable] is what has been committed.
    [oracle] scripts the engine's faults: the head says whether the next
    INSERT or COMMIT raises [sqlite3.OperationalError] (locked database,
    full disk, ...); an exhausted script means no more faults.  SELECTs do
    not consult it. *)
Record conn : Type := {
  view : tables;
  durable : tables;
  oracle : list bool
}.

Definition connect (o : list bool) : conn :=
  {| view := empty_tables; durable := empty_tables; oracle := o |}.

(** ** The monad of database code: state with exceptions that keep it *)

Definition M (A : Type) : Type := conn -> outcome A * conn.

Definition ret {A} (a : A) : M A := fun c => (Return a, c).

Definition bind {A B} (m : M A) (k : A -> M B) : M B :=
  fun c =>
    match m c with
    | (Return a, c') => k a c'
    | (Raise e, c') => (Raise e, c')
    end.

Definition lift {A} (o : outcome A) : M A := fun c => (o, c).

(** [try: body except Exception: handler] *)
Definition try_catch {A} (body : M A) (handler : exn -> M A) : M A :=
  fun c =>
    match body c with
    | (Return a, c') => (Return a, c')
    | (Raise e, c') => handler e c'
    end.

Declare Scope pdp_scope.
Delimit Scope pdp_scope with pdp.
Notation "x <- m ;; k" := (bind m (fun x => k))
  (at level 61, m at next level, right associativity) : pdp_scope.
Notation "m ;;; k" := (bind m (fun _ => k))
  (at level 61, right associativity) : pdp_scope.
Local Open Scope pdp_scope.

(** A SELECT: reads the view. *)
Definition query {A} (q : tables -> A) : M A :=
  fun c => (Return (q (view c)), c).

(** [cursor.execute] of an INSERT, given as its effect on the tables. *)
Definition execute (stmt : tables -> tables) : M unit :=
  fun c =>
    match oracle c with
    | true :: o =>
        (Raise OperationalError,
         {| view := view c; durable := durable c; oracle := o |})
    | _ =>
        (Return tt,
         {| view := stmt (view c); durable := durable c;
            oracle := tl (oracle c) |})
    end.

(** [self.conn.commit()] *)
Definition commit : M unit :=
  fun c =>
    match oracle c with
    | true :: o =>
        (Raise OperationalError,
         {| view := view c; durable := durable c; oracle := o |})
    | _ =>
        (Return tt,
         {| view := view c; durable := view c; oracle := tl (oracle c) |})
    end.

(** [for x in xs: body(x)] *)
Fixpoint for_each {A} (xs : list A) (body : A -> M unit) : M unit :=
  match xs with
  | [] => ret tt
  | x :: rest => body x ;;; for_each rest body
  end.

(** *** Statements *)

Section Statements.

Context `{PyRuntime}.

Definition insert_baseline (date name descr : string) (t : tables) : tables :=
  {| baselines :=
       baselines t ++
       [{| Baseline.id := next_id (baselines t);
           Baseline.baseline_date := date;
           Baseline.baseline_name := name;
           Baseline.description := descr;
           Baseline.created_at := current_timestamp |}];
     agent_performance := agent_performance t;
     office_totals := office_totals t;
     company_totals := company_totals t |}.

Definition insert_agent (bid : Z) (name off : string) (cur fol tot : float)
  (date : string) (t : tables) : tables :=
  {| baselines := baselines t;
     agent_performance :=
       agent_performance t ++
       [{| Agent.id := next_id (agent_performance t);
           Agent.baseline_id := bid;
           Agent.agent_name := name;
           Agent.office := off;
           Agent.current_month_promised := cur;
           Agent.following_month_promised := fol;
           Agent.total_promised := tot;
           Agent.import_date := date;
           Agent.created_at := current_timestamp |}];
     office_totals := office_totals t;
     company_totals := company_totals t |}.

Definition insert_office (bid : Z) (off : string) (cur fol grand : float)
  (agents : Z) (date : string) (t : tables) : tables :=
  {| baselines := baselines t;
     agent_performance := agent_performance t;
     office_totals :=
       office_totals t ++
       [{| Office.id := next_id (office_totals t);
           Office.baseline_id := bid;
           Office.office := off;
           Office.current_month_total := cur;
           Office.following_month_total := fol;
           Office.grand_total := grand;
           Office.agent_count := agents;
           Office.import_date := date;
           Office.created_at := current_timestamp |}];
     company_totals := company_totals t |}.

Definition insert_company (bid : Z) (cur fol grand : float)
  (agents offices : Z) (date : string) (t : tables) : tables :=
  {| baselines := baselines t;
     agent_performance := agent_performance t;
     office_totals := office_totals t;
     company_totals :=
       company_totals t ++
       [{| Company.id := next_id (company_totals t);
           Company.baseline_id := bid;
           Company.total_current_month := cur;
           Company.total_following_month := fol;
           Company.grand_total := grand;
           Company.total_agents := agents;
           Company.total_offices := offices;
           Company.import_date := date;
           Company.created_at := current_timestamp |}] |}.

End Statements.

(** [SELECT * FROM baselines WHERE id = ?] then [fetchone()] *)
Definition select_baseline (bid : Z) (t : tables) : option Baseline.row :=
  find (fun b => Baseline.id b =? bid) (baselines t).

(** [SELECT * FROM company_totals WHERE baseline_id = ?] then [fetchone()] *)
Definition select_company (bid : Z) (t : tables) : option Company.row :=
  find (fun r => Company.baseline_id r =? bid) (company_totals t).

(** [SELECT id FROM baselines ORDER BY created_at DESC LIMIT 1]: a row
    with the greatest time stamp (the earliest such row when several
    share it; SQL leaves that choice open). *)
Fixpoint latest_baseline (bs : list Baseline.row) : option Baseline.row :=
  match bs with
  | [] => None
  | b :: rest =>
      match latest_baseline rest with
      | Some b' =>
          if String.ltb (Baseline.created_at b) (Baseline.created_at b')
          then Some b' else Some b
      | None => Some b
      end
  end.

(** A REAL column as a SELECT returns it: SQLite has stored a NaN as
    NULL, which comes back as [None]. *)
Definition fetched (x : float) : option float :=
  if is_nan x then None else Some x.

(** The order of SQLite on a REAL column: NULL is below every number. *)
Definition real_below (x y : float) : bool :=
  match fetched x, fetched y with
  | Some a, Some b => (a <? b)%float
  | None, Some _ => true
  | _, None => false
  end.

(** Insertion into a list ordered by [grand_total] descending, in front
    of the rows with the same total. *)
Fixpoint insert_desc (r : Office.row) (sorted : list Office.row)
  : list Office.row :=
  match sorted with
  | [] => [r]
  | x :: rest =>
      if real_below (Office.grand_total r) (Office.grand_total x)
      then x :: insert_desc r rest
      else r :: sorted
  end.

(** [SELECT ... FROM office_totals WHERE baseline_id = ?
     ORDER BY grand_total DESC]: every row is inserted in front of the
    sorted later rows, so rows with equal totals come in table order. *)
Definition select_offices (bid : Z) (t : tables) : list Office.row :=
  fold_right insert_desc []
    (filter (fun r => Office.baseline_id r =? bid) (office_totals t)).

(** ** Results handed to callers *)

(** A number in a result dictionary: Python keeps [0] and [0.0] apart. *)
Inductive pynum : Type :=
| PyInt (z : Z)
| PyFloat (f : float).

Module Cmp.

(** The dictionaries under the keys "baseline1" and "baseline2". *)
Record baseline_info : Type := {
  name : string;
  date : string;
  grand_total : float
}.

(** The dictionary under the key "improvements"; [grand_total_delta] is
    its key "grand_total". *)
Record improvements : Type := {
  current_month : float;
  following_month : float;
  grand_total_delta : float;
  agent_change : Z;
  current_month_percent : pynum;
  following_month_percent : pynum;
  grand_total_percent : pynum
}.

(** The dictionary [compare_baselines] returns: either
    [{"error": msg}] or the three-part comparison. *)
Inductive result : Type :=
| Error (msg : string)
| Comparison (baseline1 baseline2 : baseline_info) (imp : improvements).

End Cmp.

Notation "x <~ o ;; k" :=
  (match o with Return x => k | Raise e => Raise e end)
  (at level 61, o at next level, right associativity) : pdp_scope.

(** ** class PDPTracker *)

Section PDPTracker.

Import Text.
Context `{PyRuntime}.

(** *** [create_baseline] *)
Definition create_baseline (name descr : string) : M Z :=
  let baseline_date := date_today in
  execute (insert_baseline baseline_date name descr) ;;;
  baseline_id <- query (fun t => Z.of_nat (List.length (baselines t))) ;;
  commit ;;;
  ret baseline_id.

(** *** [_find_column] *)
Definition _find_column (df : dataframe) (possible_names : list string)
  : option string :=
  find (fun col =>
          let col_lower := lower col in
          existsb (fun name => contains (lower name) col_lower)
                  possible_names)
       (columns df).

(** *** [_safe_float] *)

(** [s.replace('$', '').replace(',', '')] *)
Definition strip_currency (s : string) : string :=
  remove_char "," (remove_char "$" s).

Definition _safe_float (value : cell) : outcome float :=
  try_except
    (if isna value then Return 0%float
     else
       text <~ str value ;;
       PyFloat.float_of_str (strip_currency text))
    (fun _ => Return 0%float).

(** *** [_process_dataframe] *)

Definition agent_keywords := ["agent"; "collector"; "name"; "employee"].
Definition office_keywords := ["office"; "location"; "branch"; "dept"].
Definition current_keywords := ["current"; "this month"; "current month"].
Definition following_keywords :=
  ["following"; "next month"; "following month"].
Definition skipped_names := ["nan"; "total"; "grand total"; ""].

(** [then_(col) if col else else_], for a column that may be [None]. *)
Definition if_col {A} (col : option string) (then_ : string -> A)
  (else_ : A) : A :=
  match col with
  | Some (String _ _ as c) => then_ c
  | _ => else_
  end.

(** The value of [office_totals[office]]. *)
Record acc : Type := {
  current : float;
  following : float;
  agents : Z
}.

(** [office_totals]: a dict, kept in insertion order. *)
Definition office_dict : Type := list (string * acc).

Fixpoint dict_mem (k : string) (d : office_dict) : bool :=
  match d with
  | [] => false
  | (k', _) :: rest => (String.eqb k k' || dict_mem k rest)%bool
  end.

Fixpoint dict_update (k : string) (f : acc -> acc) (d : office_dict)
  : office_dict :=
  match d with
  | [] => []
  | (k', v) :: rest =>
      if String.eqb k k' then (k', f v) :: rest
      else (k', v) :: dict_update k f rest
  end.

(** Lines 196-202: create the office's entry when absent, then add the
    row's amounts to it. *)
Definition accumulate (office : string) (current_promised
  following_promised : float) (office_totals : office_dict) : office_dict :=
  let office_totals :=
    if negb (dict_mem office office_totals)
    then (office_totals ++ [(office, {| current := 0; following := 0;
                                        agents := 0 |})])%list
    else office_totals in
  dict_update office
    (fun t => {| current := (current t + current_promised)%float;
                 following := (following t + following_promised)%float;
                 agents := agents t + 1 |})
    office_totals.

(** What lines 175-182 compute from one row. *)
Record normalized : Type := {
  n_agent_name : string;
  n_office : string;
  n_current : float;
  n_following : float;
  n_total : float
}.

Section Loop.

Variables (baseline_id : Z) (import_date : string) (cols : list string).
Variables (agent_col : string) (office_col current_col following_col
  : option string).

(** [self._safe_float(row[col]) if col else 0]: the amount under an
    optional column.  The integer 0 of the unresolved case is 0.0 to every
    later addition and to the REAL columns. *)
Definition amount (col : option string) (row : list cell) : outcome float :=
  if_col col (fun c => _safe_float (row_get cols row c)) (Return 0%float).

(** Lines 175-182; [None] is the [continue] of a skipped row. *)
Definition normalize_row (row : list cell) : outcome (option normalized) :=
  agent_text <~ str (row_get cols row agent_col) ;;
  let agent_name := strip agent_text in
  if mem (lower agent_name) skipped_names then Return None
  else
    office <~ if_col office_col
                (fun c =>
                   office_text <~ str (row_get cols row c) ;;
                   Return (strip office_text))
                (Return "Unknown") ;;
    current_promised <~ amount current_col row ;;
    following_promised <~ amount following_col row ;;
    let total_promised := (current_promised + following_promised)%float in
    Return (Some {| n_agent_name := agent_name;
                    n_office := office;
                    n_current := current_promised;
                    n_following := following_promised;
                    n_total := total_promised |}).

(** Lines 174-202: the loop over [df.iterrows()]. *)
Fixpoint process_rows (rs : list (list cell)) (agent_count : Z)
  (office_totals : office_dict) : M (Z * office_dict) :=
  match rs with
  | [] => ret (agent_count, office_totals)
  | row :: rest =>
      r <- lift (normalize_row row) ;;
      match r with
      | None => process_rows rest agent_count office_totals
      | Some a =>
          execute (insert_agent baseline_id (n_agent_name a) (n_office a)
                     (n_current a) (n_following a) (n_total a)
                     import_date) ;;;
          process_rows rest (agent_count + 1)
            (accumulate (n_office a) (n_current a) (n_following a)
               office_totals)
      end
  end.

(** Lines 205-212 *)
Definition insert_office_totals (office_totals : office_dict) : M unit :=
  for_each office_totals
    (fun '(office, totals) =>
       execute (insert_office baseline_id office
                  (current totals) (following totals)
                  (current totals + following totals)%float
                  (agents totals) import_date)).

End Loop.

Definition _process_dataframe (df : dataframe) (baseline_id : Z)
  (file_path : string) : M bool :=
  try_catch
    (let import_date := date_today in
     let agent_col := _find_column df agent_keywords in
     let office_col := _find_column df office_keywords in
     let current_col := _find_column df current_keywords in
     let following_col := _find_column df following_keywords in
     match agent_col with
     | Some (String _ _ as agent_col) =>
         st <- process_rows baseline_id import_date (columns df)
                 agent_col office_col current_col following_col
                 (rows df) 0 [] ;;
         let '(agent_count, office_totals) := st in
         insert_office_totals baseline_id import_date office_totals ;;;
         let total_current :=
           py_sum (map (fun kv => current (snd kv)) office_totals) in
         let total_following :=
           py_sum (map (fun kv => following (snd kv)) office_totals) in
         let grand_total := (total_current + total_following)%float in
         execute (insert_company baseline_id total_current total_following
                    grand_total agent_count
                    (Z.of_nat (List.length office_totals)) import_date) ;;;
         commit ;;;
         ret true
     | _ => ret false
     end)
    (fun _ => ret false).

(** *** [import_excel_report]

    [sheet] is what the attempts to read the workbook gave: the frame of
    the first sheet that could be read, or [None]. *)
Definition import_excel_report (sheet : option dataframe)
  (file_path : string) (baseline_id : option Z) : M bool :=
  try_catch
    (match sheet with
     | None => ret false
     | Some df =>
         baseline_id <-
           match baseline_id with
           | Some i => ret i
           | None =>
               create_baseline ("Import_" ++ now_stamp)
                 ("Auto-imported from " ++ basename file_path)
           end ;;
         _process_dataframe df baseline_id file_path
     end)
    (fun _ => ret false).

(** *** [compare_baselines] *)

(** [x - y] on fetched REAL values: [None] on either side is a
    [TypeError]. *)
Definition py_sub (x y : option float) : outcome float :=
  match x, y with
  | Some a, Some b => Return (a - b)%float
  | _, _ => Raise TypeError
  end.

Definition percent (improvement base : float) : outcome pynum :=
  if (0 <? base)%float then
    q <~ truediv improvement base ;;
    Return (PyFloat (q * 100))
  else Return (PyInt 0).

Definition compare_baselines (baseline1_id baseline2_id : Z)
  : M Cmp.result :=
  baseline1 <- query (select_baseline baseline1_id) ;;
  baseline2 <- query (select_baseline baseline2_id) ;;
  match baseline1, baseline2 with
  | Some baseline1, Some baseline2 =>
      totals1 <- query (select_company baseline1_id) ;;
      totals2 <- query (select_company baseline2_id) ;;
      match totals1, totals2 with
      | Some totals1, Some totals2 =>
          lift (
            current_improvement <~
              py_sub (fetched (Company.total_current_month totals2))
                (fetched (Company.total_current_month totals1)) ;;
            following_improvement <~
              py_sub (fetched (Company.total_following_month totals2))
                (fetched (Company.total_following_month totals1)) ;;
            grand_improvement <~
              py_sub (fetched (Company.grand_total totals2))
                (fetched (Company.grand_total totals1)) ;;
            let agent_change :=
              Company.total_agents totals2 - Company.total_agents totals1 in
            cp <~ percent current_improvement
                    (Company.total_current_month totals1) ;;
            fp <~ percent following_improvement
                    (Company.total_following_month totals1) ;;
            gp <~ percent grand_improvement
                    (Company.grand_total totals1) ;;
            Return (Cmp.Comparison
              {| Cmp.name := Baseline.baseline_name baseline1;
                 Cmp.date := Baseline.baseline_date baseline1;
                 Cmp.grand_total := Company.grand_total totals1 |}
              {| Cmp.name := Baseline.baseline_name baseline2;
                 Cmp.date := Baseline.baseline_date baseline2;
                 Cmp.grand_total := Company.grand_total totals2 |}
              {| Cmp.current_month := current_improvement;
                 Cmp.following_month := following_improvement;
                 Cmp.grand_total_delta := grand_improvement;
                 Cmp.agent_change := agent_change;
                 Cmp.current_month_percent := cp;
                 Cmp.following_month_percent := fp;
                 Cmp.grand_total_percent := gp |}))
      | _, _ =>
          ret (Cmp.Error
                 "Company totals not found for one or both baselines")
      end
  | _, _ => ret (Cmp.Error "One or both baselines not found")
  end.

(** *** [generate_progress_report] *)

Definition nl : string := String "010" EmptyString.

Fixpoint unlines (ls : list string) : string :=
  match ls with
  | [] => ""
  | l :: rest => l ++ nl ++ unlines rest
  end.

Fixpoint repeat_str (s : string) (n : nat) : string :=
  match n with
  | O => ""
  | S k => s ++ repeat_str s k
  end.

(** [f"{x:,.2f}"] on a fetched REAL value: [None] has no such format. *)
Definition format_fetched (x : option float) : outcome string :=
  match x with
  | Some a => Return (format_money a)
  | None => Raise TypeError
  end.

(** The f-string of lines 317-335; its fields are evaluated in order, so
    a missing row or a NULL total faults before the average is
    computed. *)
Definition report_head (baseline_info : option Baseline.row)
  (company_total : option Company.row) : outcome string :=
  b <~ subscript baseline_info ;;
  t <~ subscript company_total ;;
  current_text <~ format_fetched (fetched (Company.total_current_month t)) ;;
  following_text <~
    format_fetched (fetched (Company.total_following_month t)) ;;
  grand_text <~ format_fetched (fetched (Company.grand_total t)) ;;
  average <~ truediv (Company.grand_total t)
               (float_of_Z (Company.total_agents t)) ;;
  Return (unlines
    [ "";
      "📊 POST DATED PAYMENT (PDP) PROGRESS REPORT";
      repeat_str "=" 50;
      "";
      "📅 Baseline: " ++ Baseline.baseline_name b;
      "📅 Date: " ++ Baseline.baseline_date b;
      "📝 Description: " ++ Baseline.description b;
      "";
      "💰 CURRENT TOTALS:";
      "• Current Month Promised: $" ++ current_text;
      "• Following Month Promised: $" ++ following_text;
      "• Grand Total: $" ++ grand_text;
      "";
      "👥 TEAM METRICS:";
      "• Total Agents: " ++ str_of_Z (Company.total_agents t);
      "• Total Offices: " ++ str_of_Z (Company.total_offices t);
      "• Average per Agent: $" ++ format_money average;
      "" ]).

Definition office_line (o : Office.row) : string :=
  "• " ++ Office.office o ++ ": $" ++ format_money (Office.grand_total o)
  ++ " (" ++ str_of_Z (Office.agent_count o) ++ " agents)" ++ nl.

Definition report_for (baseline_id : Z) : M string :=
  baseline_info <- query (select_baseline baseline_id) ;;
  company_total <- query (select_company baseline_id) ;;
  report <- lift (report_head baseline_info company_total) ;;
  office_data <- query (select_offices baseline_id) ;;
  match office_data with
  | [] => ret report
  | _ =>
      ret (report ++ "🏢 OFFICE BREAKDOWN:" ++ nl
           ++ String.concat "" (map office_line office_data))
  end.

Definition generate_progress_report (baseline_id : option Z) : M string :=
  match baseline_id with
  | None =>
      baseline <- query (fun t => latest_baseline (baselines t)) ;;
      match baseline with
      | None => ret "❌ No baselines found. Please import data first."
      | Some b => report_for (Baseline.id b)
      end
  | Some i => report_for i
  end.

End PDPTracker.

(** ** A runtime and sheets for the worked examples

    The examples use text cells only and never look at formatted money,
    so they do not depend on [float_repr] or [format_money]. *)

Module Sample.

Definition runtime : PyRuntime :=
  {| float_repr := fun _ => "0.0";
     format_money := fun _ => "0.00";
     date_today := "2024-03-01";
     current_timestamp := "2024-03-01 09:00:00";
     now_stamp := "20240301_090000";
     basename := fun p => p |}.

Definition header : list string :=
  ["Agent Name"; "Office"; "Current Month"; "Following Month"].

(** Two agents in two offices, amounts in tenths. *)
Definition tenths : dataframe :=
  {| columns := header;
     rows := [ [CStr "Ann"; CStr "North"; CStr "0.1"; CStr "0.1"];
               [CStr "Bob"; CStr "South"; CStr "0.2"; CStr "0.3"] ] |}.

(** Only a blank line and the two summary lines. *)
Definition summary_only : dataframe :=
  {| columns := header;
     rows := [ [CFloat nan; CFloat nan; CFloat nan; CFloat nan];
               [CStr "Total"; CStr ""; CStr "$300.00"; CStr "$50.00"];
               [CStr " GRAND TOTAL "; CStr ""; CStr "$300.00";
                CStr "$50.00"] ] |}.

(** An agent whose office cell is empty. *)
Definition no_office_cell : dataframe :=
  {| columns := header;
     rows := [ [CStr "Ann"; CFloat nan; CStr "100"; CStr "50"] ] |}.

(** A sheet without an office column. *)
Definition no_office_column : dataframe :=
  {| columns := ["Collector"; "Current"; "Next Month"];
     rows := [ [CStr "Ann"; CStr "$1,234.56"; CStr "N/A"] ] |}.


(** No column names an agent. *)
Definition no_agent_column : dataframe :=
  {| columns := ["Office"; "Current Month"];
     rows := [ [CStr "North"; CStr "100"] ] |}.

(** An infinite amount and its opposite: their sum is NaN. *)
Definition unbounded : dataframe :=
  {| columns := header;
     rows := [ [CStr "Ann"; CStr "North"; CStr "inf"; CStr "-inf"] ] |}.

(** Two offices with the same total, one with a greater total and one
    whose total is NaN. *)
Definition four_offices : dataframe :=
  {| columns := header;
     rows := [ [CStr "Ann"; CStr "North"; CStr "5"; CStr "0"];
               [CStr "Bob"; CStr "West"; CStr "inf"; CStr "-inf"];
               [CStr "Cy"; CStr "South"; CStr "2"; CStr "3"];
               [CStr "Di"; CStr "East"; CStr "7"; CStr "0"] ] |}.

(** An infinite amount. *)
Definition endless : dataframe :=
  {| columns := header;
     rows := [ [CStr "Ann"; CStr "North"; CStr "inf"; CStr "0"] ] |}.

(** One agent with 500 promised this month. *)
Definition five_hundred : dataframe :=
  {| columns := header;
     rows := [ [CStr "Ann"; CStr "North"; CStr "$500.00"; CStr "0"] ] |}.

#[local] Existing Instance runtime.

(** A new database holding baseline 1. *)
Definition march : conn :=
  snd (create_baseline "March" "first import" (connect [])).

(** The same, on an engine whose fourth statement will fault: the two
    statements of [create_baseline] and one INSERT go through. *)
Definition march_faulty : conn :=
  snd (create_baseline "March" "first import"
         (connect [false; false; false; true])).

(** Baseline 1 imported from the summary-only sheet. *)
Definition march_empty : conn :=
  snd (_process_dataframe summary_only 1 "march.xlsx" march).

(** Baseline 2 added and imported from the 500 sheet. *)
Definition april : conn :=
  snd (_process_dataframe five_hundred 2 "april.xlsx"
         (snd (create_baseline "April" "second import" march_empty))).

End Sample.

(** ** Notions used in the statements *)

(** [after] is [before] with the given rows appended to the three tables
    an import writes. *)
Record appended (before after : tables) (ags : list Agent.row)
  (offs : list Office.row) (comps : list Company.row) : Prop := {
  same_baselines : baselines after = baselines before;
  more_agents :
    agent_performance after = (agent_performance before ++ ags)%list;
  more_offices : office_totals after = (office_totals before ++ offs)%list;
  more_companies :
    company_totals after = (company_totals before ++ comps)%list
}.





(** *** The texts [float] accepts *)

(** The place of a character in a text, counted from [n]. *)
Fixpoint place_of (c : ascii) (s : string) (n : Z) : option Z :=
  match s with
  | EmptyString => None
  | String d r => if Ascii.eqb c d then Some n else place_of c r (n + 1)
  end.

(** The value of a decimal digit. *)
Definition digit_of (c : ascii) : option Z := place_of c "0123456789" 0.

(** What may follow a digit inside a digitpart: nothing, a digit, or one
    underscore and a digit. *)
Inductive digit_tail : string -> list Z -> Prop :=
| tail_end : digit_tail "" []
| tail_digit (c : ascii) (d : Z) (s : string) (ds : list Z) :
    digit_of c = Some d -> digit_tail s ds ->
    digit_tail (String c s) (d :: ds)
| tail_group (c : ascii) (d : Z) (s : string) (ds : list Z) :
    digit_of c = Some d -> digit_tail s ds ->
    digit_tail (String "_" (String c s)) (d :: ds).

(** [digitpart ::= digit (["_"] digit)*], with the digits it holds. *)
Inductive digitpart : string -> list Z -> Prop :=
| digitpart_intro (c : ascii) (d : Z) (s : string) (ds : list Z) :
    digit_of c = Some d -> digit_tail s ds ->
    digitpart (String c s) (d :: ds).

(** The number that a list of digits writes. *)
Definition decimal (ds : list Z) : Z :=
  fold_left (fun n d => 10 * n + d) ds 0.

Inductive sign_text : string -> bool -> Prop :=
| sign_absent : sign_text "" false
| sign_plus : sign_text "+" false
| sign_minus : sign_text "-" true.

(** [exponent ::= ("e" | "E") [sign] digitpart], or nothing. *)
Inductive exponent_text : string -> Z -> Prop :=
| exponent_absent : exponent_text "" 0
| exponent_given (c : ascii) (sg : string) (neg : bool) (s : string)
    (ds : list Z) :
    c = "e"%char \/ c = "E"%char -> sign_text sg neg -> digitpart s ds ->
    exponent_text (String c (sg ++ s))
      (if neg then - decimal ds else decimal ds).

(** [digitpart ["." [digitpart]] | "." digitpart], with the digits before
    and after the point. *)
Inductive point_text : string -> list Z -> list Z -> Prop :=
| point_integer (ip : string) (ds : list Z) :
    digitpart ip ds -> point_text ip ds []
| point_trailing (ip : string) (ds : list Z) :
    digitpart ip ds -> point_text (ip ++ ".") ds []
| point_leading (fp : string) (fs : list Z) :
    digitpart fp fs -> point_text ("." ++ fp) [] fs
| point_both (ip fp : string) (ds fs : list Z) :
    digitpart ip ds -> digitpart fp fs ->
    point_text (ip ++ "." ++ fp) ds fs.

(** A literal without its sign, and the float it denotes under the sign
    [neg]: inf, infinity or nan in any case, or a decimal number, which
    denotes the binary64 value nearest to it. *)
Inductive float_literal (neg : bool) : string -> float -> Prop :=
| literal_inf (s : string) :
    Text.lower s = "inf" \/ Text.lower s = "infinity" ->
    float_literal neg s (if neg then neg_infinity else infinity)
| literal_nan (s : string) :
    Text.lower s = "nan" -> float_literal neg s nan
| literal_number (p e : string) (ds fs : list Z) (x : Z) :
    point_text p ds fs -> exponent_text e x ->
    float_literal neg (p ++ e)
      (PyFloat.of_decimal neg (decimal (ds ++ fs))
         (x - Z.of_nat (List.length fs))).

Fixpoint made_of (ok : ascii -> bool) (s : string) : bool :=
  match s with
  | EmptyString => true
  | String c r => (ok c && made_of ok r)%bool
  end.

(** The white space that [float] ignores around a literal. *)
Definition float_blank (c : ascii) : bool :=
  existsb (Ascii.eqb c) ["009"; "010"; "011"; "012"; "013"; " "]%char.

(** [float_text s x]: the text [s] is a float literal, with white space
    around it, that denotes [x]. *)
Definition float_text (s : string) (x : float) : Prop :=
  exists (l sg body r : string) (neg : bool),
    s = l ++ sg ++ body ++ r
    /\ made_of float_blank l = true
    /\ made_of float_blank r = true
    /\ sign_text sg neg
    /\ float_literal neg body x.

(** *** Notions used in the proofs about [float] *)

(** The numeral read so far after the digits [ds] more. *)
Definition read_more (acc : PyFloat.digits) (ds : list Z) : PyFloat.digits :=
  {| PyFloat.dval := fold_left (fun n d => 10 * n + d) ds (PyFloat.dval acc);
     PyFloat.dlen := PyFloat.dlen acc + Z.of_nat (List.length ds) |}.

(** A rest at which the reading of digits ends. *)
Definition stops (r : string) : Prop :=
  match r with
  | EmptyString => True
  | String c _ => Text.is_digit c = false /\ c <> "_"%char
  end.

Definition no_digit_ahead (r : string) : Prop :=
  match r with
  | EmptyString => True
  | String c _ => Text.is_digit c = false
  end.

(** A text that does not begin with a sign. *)
Definition unsigned_head (body : string) : Prop :=
  match body with
  | EmptyString => True
  | String c _ => c <> "-"%char /\ c <> "+"%char
  end.

(** No character of the text is white space. *)
Definition solid (t : string) : bool :=
  made_of (fun c => negb (PyFloat.isspace c)) t.

(** *** Cells without a minus sign *)



(** A company row whose amounts the engine returns as floats.  SQLite
    stores a NaN bound to a REAL column as NULL and returns it as [None],
    on which the arithmetic of [compare_baselines] and the formatting of
    [generate_progress_report] raise; the statements about these two keep
    to rows without one. *)
Definition company_stored (t : Company.row) : Prop :=
  PrimFloat.is_nan (Company.total_current_month t) = false
  /\ PrimFloat.is_nan (Company.total_following_month t) = false
  /\ PrimFloat.is_nan (Company.grand_total t) = false.

(** A number of a result dictionary that is NaN. *)
Definition pynum_is_nan (p : pynum) : bool :=
  match p with
  | PyFloat f => PrimFloat.is_nan f
  | PyInt _ => false
  end.

(** The percentage change as the specification words it:
    [delta / base * 100] when [base > 0], else the integer 0. *)
Definition spec_percentage (delta base : float) : pynum :=
  if (0 <? base)%float then PyFloat (delta / base * 100)%float else PyInt 0.

(** ** Notions used in the further properties *)

(** [p] occurs in [s] as a substring. *)
Definition substring_of (p s : string) : Prop :=
  exists a b : string, s = a ++ p ++ b.

(** Some keyword of [names], lowercased, occurs in the lowercased label. *)
Definition names_column (names : list string) (label : string) : Prop :=
  exists name : string,
    In name names /\ substring_of (Text.lower name) (Text.lower label).

(** The distinct names of a list, in the order of their first
    appearance. *)
Definition add_name (seen : list string) (x : string) : list string :=
  if Text.mem x seen then seen else (seen ++ [x])%list.

Definition first_seen (l : list string) : list string :=
  fold_left add_name l [].

(** The agent rows of one office, in table order. *)
Definition of_office (office : string) (ags : list Agent.row)
  : list Agent.row :=
  filter (fun r => String.eqb (Agent.office r) office) ags.

(** The agent names a sheet contributes: the trimmed text of each row's
    agent cell, without the blank and summary ones. *)
Definition kept_names `{PyRuntime} (cols : list string) (agent_col : string)
  (rs : list (list cell)) : list string :=
  filter (fun name => negb (Text.mem (Text.lower name) skipped_names))
    (map (fun row => Text.strip (py_str (row_get cols row agent_col))) rs).

(** The dictionary step of the import loop (lines 196-202), on the agent
    row just written. *)
Definition tally (d : office_dict) (r : Agent.row) : office_dict :=
  accumulate (Agent.office r) (Agent.current_month_promised r)
    (Agent.following_month_promised r) d.

(** The dictionary entry that a list of agent rows gives an office: the
    sums, left to right, of the amounts of the office's rows, and their
    number. *)
Definition office_entry (ags : list Agent.row) (office : string)
  : string * acc :=
  (office,
   {| current :=
        py_sum (map Agent.current_month_promised (of_office office ags));
      following :=
        py_sum (map Agent.following_month_promised (of_office office ags));
      agents := Z.of_nat (List.length (of_office office ags)) |}).

(** The number of agents a dictionary or a list of office rows counts. *)
Definition sum_agents (d : office_dict) : Z :=
  fold_right (fun kv n => agents (snd kv) + n) 0 d.

Definition sum_agent_count (offs : list Office.row) : Z :=
  fold_right (fun o n => Office.agent_count o + n) 0 offs.

(** Database code that, whatever its outcome, only appends rows to the
    agent, office and company tables of the view and leaves the baselines
    alone. *)
Definition only_appends {A} (m : M A) : Prop :=
  forall c : conn,
  exists (ags : list Agent.row) (offs : list Office.row)
         (comps : list Company.row),
    appended (view c) (view (snd (m c))) ags offs comps.

(** The baselines carry the ids 1, 2, ..., n in table order. *)
Definition numbered (t : tables) : Prop :=
  map Baseline.id (baselines t)
  = map Z.of_nat (seq 1 (List.length (baselines t))).

(** * Properties *)

(** ** Facts about binary64 used below *)

Section FloatFacts.

Local Open Scope float_scope.

(** A float above zero is not a zero divisor. *)
Lemma positive_not_zero (x : float) : (0 <? x) = true -> (x =? 0) = false.
Proof.
  rewrite ltb_spec, eqb_spec.
  unfold SFltb, SFeqb.
  replace (Prim2SF 0) with (S754_zero false) by reflexivity.
  destruct (Prim2SF x) as [ [ | ] | [ | ] | | [ | ] m e ]; simpl;
    congruence.
Qed.

Lemma truediv_positive (x y : float) :
  (0 <? y) = true -> truediv x y = Return (x / y).
Proof.
  intros Hy. unfold truediv. now rewrite (positive_not_zero y Hy).
Qed.

(** Halving a non-negative mantissa keeps it non-negative. *)
Lemma shr_1_nonneg (mrs : shr_record) :
  (0 <= shr_m mrs)%Z -> (0 <= shr_m (shr_1 mrs))%Z.
Proof.
  destruct mrs as [m r s]. simpl.
  destruct m as [ | [ p | p | ] | p ]; simpl; lia.
Qed.

Lemma iter_shr_1_nonneg (p : positive) (mrs : shr_record) :
  (0 <= shr_m mrs)%Z -> (0 <= shr_m (iter_pos shr_1 p mrs))%Z.
Proof.
  revert mrs.
  induction p as [ p IH | p IH | ]; intros mrs Hm; simpl.
  - apply IH, IH, shr_1_nonneg, Hm.
  - apply IH, IH, Hm.
  - apply shr_1_nonneg, Hm.
Qed.

Lemma shr_fexp_nonneg (m e : Z) (l : location) :
  (0 <= m)%Z -> (0 <= shr_m (fst (shr_fexp prec emax m e l)))%Z.
Proof.
  intros Hm. unfold shr_fexp, shr.
  assert (Hrec : (0 <= shr_m (shr_record_of_loc m l))%Z)
    by (destruct l as [ | [ | | ] ]; exact Hm).
  destruct (fexp prec emax (Zdigits2 m + e) - e)%Z; simpl; trivial.
  now apply iter_shr_1_nonneg.
Qed.

Lemma round_nearest_even_nonneg (m : Z) (l : location) :
  (0 <= m)%Z -> (0 <= round_nearest_even m l)%Z.
Proof.
  intros Hm. destruct l as [ | [ | | ] ]; simpl; try lia.
  destruct (Z.even m); lia.
Qed.






(** Rounding a non-negative mantissa never gives NaN. *)
Lemma binary_round_aux_not_nan (sx : bool) (m e : Z) (l : location) :
  (0 <= m)%Z -> binary_round_aux prec emax sx m e l <> S754_nan.
Proof.
  intros Hm. unfold binary_round_aux.
  pose proof (shr_fexp_nonneg m e l Hm) as Hfst.
  destruct (shr_fexp prec emax m e l) as [mrs1 e1]. simpl in Hfst.
  pose proof (shr_fexp_nonneg
                (round_nearest_even (shr_m mrs1) (loc_of_shr_record mrs1))
                e1 loc_Exact
                (round_nearest_even_nonneg _ _ Hfst)) as Hsnd.
  destruct (shr_fexp prec emax _ e1 loc_Exact) as [mrs2 e2]. simpl in Hsnd.
  destruct (shr_m mrs2) as [ | q | q ]; try lia; try discriminate.
  destruct (e2 <=? _)%Z; discriminate.
Qed.

Lemma binary_round_not_nan (sx : bool) (m : positive) (e : Z) :
  binary_round prec emax sx m e <> S754_nan.
Proof.
  unfold binary_round. destruct (shl_align m e _) as [mz ez].
  apply binary_round_aux_not_nan. lia.
Qed.

Lemma binary_normalize_not_nan (m e : Z) (szero : bool) :
  binary_normalize prec emax m e szero <> S754_nan.
Proof.
  destruct m; simpl; try discriminate; apply binary_round_not_nan.
Qed.

Lemma SFsub_not_nan (x : spec_float) (s : bool) (m : positive) (e : Z) :
  x <> S754_nan -> SFsub prec emax x (S754_finite s m e) <> S754_nan.
Proof.
  destruct x as [ sx | sx | | sx mx ex ]; simpl; try discriminate; trivial.
  intros _. apply binary_normalize_not_nan.
Qed.

Lemma SFdiv_not_nan (x : spec_float) (s : bool) (m : positive) (e : Z) :
  x <> S754_nan -> SFdiv prec emax x (S754_finite s m e) <> S754_nan.
Proof.
  destruct x as [ sx | sx | | sx mx ex ]; simpl; try discriminate; trivial.
  intros _. unfold SFdiv_core_binary.
  set (m' := match _ with 0%Z => _ | Z.pos _ => _ | Z.neg _ => _ end).
  assert (Hm' : 0 <= m').
  { subst m'. destruct (_ - _ - _)%Z; try lia.
    apply Z.shiftl_nonneg. lia. }
  pose proof (Z.div_pos m' (Z.pos m) Hm' ltac:(lia)) as Hq.
  unfold Z.div in Hq.
  destruct (Z.div_eucl m' (Z.pos m)) as [q r].
  now apply binary_round_aux_not_nan.
Qed.

Lemma SFmul_not_nan (x : spec_float) (s : bool) (m : positive) (e : Z) :
  x <> S754_nan -> SFmul prec emax x (S754_finite s m e) <> S754_nan.
Proof.
  destruct x as [ sx | sx | | sx mx ex ]; simpl; try discriminate; trivial.
  intros _. apply binary_round_aux_not_nan. lia.
Qed.


Lemma SFeqb_refl (x : spec_float) : x <> S754_nan -> SFeqb x x = true.
Proof.
  unfold SFeqb.
  destruct x as [ [ | ] | [ | ] | | [ | ] m e ]; simpl; trivial;
    try contradiction; intros _;
    rewrite Z.compare_refl;
    change (PosDef.Pos.compare_cont Eq m m) with (Pos.compare m m);
    now rewrite Pos.compare_refl.
Qed.

Lemma is_nan_sf (x : float) : is_nan x = false <-> Prim2SF x <> S754_nan.
Proof.
  unfold is_nan. rewrite eqb_spec. split.
  - intros E Hnan. rewrite Hnan in E. discriminate.
  - intros Hx. now rewrite SFeqb_refl.
Qed.

Lemma is_infinity_sf (x : float) :
  is_infinity x = false -> Prim2SF x <> S754_infinity false.
Proof.
  unfold is_infinity. rewrite eqb_spec, abs_spec.
  intros E Hinf. rewrite Hinf in E. discriminate.
Qed.

(** The percentage of a stored total over a finite base above zero is a
    number. *)
Lemma percentage_not_nan (total base : float) :
  (0 <? base) = true -> is_infinity base = false -> is_nan total = false ->
  is_nan ((total - base) / base * 100) = false.
Proof.
  intros Hpos Hfin Htotal.
  apply is_nan_sf in Htotal. apply is_infinity_sf in Hfin.
  apply is_nan_sf.
  rewrite mul_spec, div_spec, sub_spec.
  rewrite ltb_spec in Hpos. unfold SFltb in Hpos.
  replace (Prim2SF 0) with (S754_zero false) in Hpos by reflexivity.
  replace (Prim2SF 100) with (S754_finite false 7036874417766400 (-46))
    by reflexivity.
  destruct (Prim2SF base) as [ sb | [ | ] | | [ | ] m e ];
    try discriminate; try contradiction.
  apply SFmul_not_nan, SFdiv_not_nan, SFsub_not_nan, Htotal.
Qed.





End FloatFacts.

(** ** [float] on sample texts *)

Section FloatOfStr.

Import PyFloat.
Local Open Scope float_scope.

Example float_plain : float_of_str "1234.56" = Return 1234.56.
Proof. reflexivity. Qed.

Example float_spaces_exponent : float_of_str " +1.5e3 " = Return 1500.
Proof. reflexivity. Qed.

Example float_underscore : float_of_str "1_000.5" = Return 1000.5.
Proof. reflexivity. Qed.

Example float_tenth : float_of_str ".1" = Return 0.1.
Proof. reflexivity. Qed.

(** 2^53 + 1 lies half way between two floats and goes to the even one. *)
Example float_tie_to_even :
  float_of_str "9007199254740993" = Return 9007199254740992.
Proof. reflexivity. Qed.

Example float_overflow : float_of_str "1e400" = Return infinity.
Proof. vm_compute. reflexivity. Qed.

Example float_underflow : float_of_str "-1e-400" = Return neg_zero.
Proof. vm_compute. reflexivity. Qed.

Example float_infinity : float_of_str "-Infinity" = Return neg_infinity.
Proof. reflexivity. Qed.

Example float_nan : float_of_str "NaN" = Return nan.
Proof. reflexivity. Qed.

Example float_rejects_words : float_of_str "N/A" = Raise ValueError.
Proof. reflexivity. Qed.

Example float_rejects_empty : float_of_str "" = Raise ValueError.
Proof. reflexivity. Qed.

Example float_rejects_comma : float_of_str "1,234.56" = Raise ValueError.
Proof. reflexivity. Qed.

Example float_rejects_dollar : float_of_str "$5" = Raise ValueError.
Proof. reflexivity. Qed.

(** The separators 28 to 31 are white space to [str.strip], not to
    [float]. *)
Example float_rejects_separator :
  float_of_str (String "028" "5") = Raise ValueError.
Proof. reflexivity. Qed.

Example float_rejects_double_underscore :
  float_of_str "1__0" = Raise ValueError.
Proof. reflexivity. Qed.

End FloatOfStr.

(** ** The texts [float] accepts

    [PyFloat.float_of_str] returns on the float literals of the language
    reference, and only on them. *)

Ltac each_char c :=
  destruct c as [ [ | ] [ | ] [ | ] [ | ] [ | ] [ | ] [ | ] [ | ] ].

Section FloatParser.

Import Text PyFloat.

Lemma str_app_assoc (a b c : string) : (a ++ b) ++ c = a ++ b ++ c.
Proof. induction a as [ | x a IH ]; simpl; now rewrite ?IH. Qed.

Lemma str_app_nil_r (a : string) : a ++ "" = a.
Proof. induction a as [ | x a IH ]; simpl; now rewrite ?IH. Qed.

Lemma digit_of_is_digit (c : ascii) :
  is_digit c = match digit_of c with Some _ => true | None => false end.
Proof. each_char c; reflexivity. Qed.

Lemma digit_of_val (c : ascii) (d : Z) :
  digit_of c = Some d -> digit_val c = d.
Proof.
  each_char c; vm_compute; intros E; try discriminate; now injection E.
Qed.

Lemma digit_is_digit (c : ascii) (d : Z) :
  digit_of c = Some d -> is_digit c = true.
Proof. intros E. now rewrite digit_of_is_digit, E. Qed.

Lemma is_digit_digit (c : ascii) :
  is_digit c = true -> digit_of c = Some (digit_val c).
Proof.
  rewrite digit_of_is_digit.
  destruct (digit_of c) as [ d | ] eqn:E; [ | discriminate ].
  now rewrite (digit_of_val c d E).
Qed.

Lemma underscore_not_digit : is_digit "_" = false.
Proof. reflexivity. Qed.

Lemma isspace_blank (c : ascii) : isspace c = float_blank c.
Proof. each_char c; reflexivity. Qed.

Lemma isspace_lower (c : ascii) : isspace (lower_char c) = isspace c.
Proof. each_char c; reflexivity. Qed.

Lemma lower_e (c : ascii) :
  Ascii.eqb (lower_char c) "e" = true <-> c = "e"%char \/ c = "E"%char.
Proof.
  each_char c; simpl; split; intros E; try discriminate; auto;
    destruct E as [ E | E ]; discriminate.
Qed.

(** *** Digits *)

Lemma read_more_cons (acc : digits) (d : Z) (ds : list Z) :
  read_more {| dval := 10 * dval acc + d; dlen := dlen acc + 1 |} ds
  = read_more acc (d :: ds).
Proof.
  unfold read_more. cbn [fold_left dval dlen List.length].
  f_equal. lia.
Qed.

Lemma read_digits_tail (p : string) (ds : list Z) (r : string) :
  digit_tail p ds -> stops r ->
  forall acc, read_digits (p ++ r) acc true = (read_more acc ds, r).
Proof.
  intros Hp Hr. induction Hp as [ | c d s ds Hc _ IH | c d s ds Hc _ IH ];
    intros acc.
  - cbn [String.append]. unfold read_more. cbn [fold_left List.length].
    rewrite Z.add_0_r.
    destruct r as [ | c r ]; cbn [read_digits].
    + now destruct acc.
    + destruct Hr as [Hd Hu]. rewrite Hd.
      apply Ascii.eqb_neq in Hu. rewrite Hu. cbn [andb]. now destruct acc.
  - cbn [String.append read_digits].
    rewrite (digit_is_digit c d Hc), (digit_of_val c d Hc), IH.
    now rewrite read_more_cons.
  - cbn [String.append read_digits].
    rewrite underscore_not_digit. cbn [andb].
    change (Ascii.eqb "_" "_") with true. cbv iota.
    rewrite (digit_is_digit c d Hc), (digit_of_val c d Hc), IH.
    now rewrite read_more_cons.
Qed.

Lemma read_digits_part (p : string) (ds : list Z) (r : string) (b : bool) :
  digitpart p ds -> stops r ->
  forall acc, read_digits (p ++ r) acc b = (read_more acc ds, r).
Proof.
  intros [c d s ds' Hc Ht] Hr acc.
  cbn [String.append read_digits].
  rewrite (digit_is_digit c d Hc), (digit_of_val c d Hc).
  rewrite (read_digits_tail s ds' r Ht Hr).
  now rewrite read_more_cons.
Qed.

(** Without a digit in front, nothing is read. *)
Lemma read_digits_none (r : string) (acc : digits) :
  match r with
  | EmptyString => True
  | String c _ => is_digit c = false
  end ->
  read_digits r acc false = (acc, r).
Proof.
  destruct r as [ | c r ]; cbn [read_digits]; trivial.
  now intros ->.
Qed.

Lemma read_digits_sound (s : string) :
  forall (acc : digits) (b : bool) (d : digits) (r : string),
  read_digits s acc b = (d, r) ->
  exists (p : string) (ds : list Z),
    s = p ++ r
    /\ (if b then digit_tail p ds
        else (p = "" /\ ds = []) \/ digitpart p ds)
    /\ d = read_more acc ds
    /\ no_digit_ahead r.
Proof.
  induction s as [ | c s IH ]; intros acc b d r; cbn [read_digits].
  - intros E. injection E as <- <-.
    exists "", []. repeat split.
    + destruct b; [ constructor | now left ].
    + unfold read_more. cbn. destruct acc. f_equal. cbn. lia.
  - destruct (is_digit c) eqn:Hc.
    + intros E. apply IH in E as (p & ds & -> & Hp & -> & Hr).
      exists (String c p), (digit_val c :: ds).
      apply is_digit_digit in Hc.
      repeat split; trivial.
      * destruct b; [ | right ]; now constructor.
      * now rewrite read_more_cons.
    + assert (Hstop : (d, r) = (acc, String c s) ->
                exists (p : string) (ds : list Z),
                  String c s = p ++ r
                  /\ (if b then digit_tail p ds
                      else (p = "" /\ ds = []) \/ digitpart p ds)
                  /\ d = read_more acc ds
                  /\ no_digit_ahead r).
      { intros E. injection E as -> ->.
        exists "", []. repeat split; trivial.
        - destruct b; [ constructor | now left ].
        - unfold read_more. cbn. destruct acc. f_equal. cbn. lia. }
      destruct b; cbn [andb]; [ | now intros E; apply Hstop ].
      destruct (Ascii.eqb_spec c "_") as [ -> | Hu ];
        [ | now intros E; apply Hstop ].
      destruct s as [ | c' s' ]; [ now intros E; apply Hstop | ].
      destruct (is_digit c') eqn:Hc'; [ | now intros E; apply Hstop ].
      intros E. apply IH in E as (p & ds & Hs & Hp & -> & Hr).
      destruct Hp as [ [-> ->] | Hp ].
      * cbn [String.append] in Hs. subst r. cbn in Hr. congruence.
      * destruct Hp as [c2 d2 s2 ds2 Hc2 Ht2].
        cbn [String.append] in Hs. injection Hs as -> ->.
        exists (String "_" (String c2 s2)), (d2 :: ds2).
        repeat split; trivial. now constructor.
Qed.

Lemma fold_digits (ds : list Z) (n : Z) :
  fold_left (fun n d => 10 * n + d) ds n
  = n * 10 ^ Z.of_nat (List.length ds) + decimal ds.
Proof.
  unfold decimal. revert n.
  induction ds as [ | d ds IH ]; intros n; cbn [fold_left List.length].
  - simpl. lia.
  - rewrite IH, (IH (10 * 0 + d)).
    rewrite Nat2Z.inj_succ, Z.pow_succ_r by lia. lia.
Qed.

Lemma decimal_app (ds fs : list Z) :
  decimal (ds ++ fs) = decimal ds * 10 ^ Z.of_nat (List.length fs) + decimal fs.
Proof.
  unfold decimal at 1. rewrite fold_left_app.
  fold (decimal ds). apply fold_digits.
Qed.

Lemma read_more_none (ds : list Z) :
  read_more no_digits ds
  = {| dval := decimal ds; dlen := Z.of_nat (List.length ds) |}.
Proof. reflexivity. Qed.

Lemma digitpart_stops_sign (s : string) (ds : list Z) :
  digitpart s ds ->
  exists c t, s = String c t /\ is_digit c = true /\ ds <> [].
Proof.
  intros [c d t ds' Hc _]. exists c, t.
  repeat split; [ now apply (digit_is_digit c d) | discriminate ].
Qed.

(** *** The sign *)

Lemma read_sign_sound (t : string) (neg : bool) (body : string) :
  read_sign t = (neg, body) ->
  exists sg, t = sg ++ body /\ sign_text sg neg.
Proof.
  unfold read_sign.
  destruct t as [ | c t ].
  - intros E. injection E as <- <-. exists "". split; constructor.
  - each_char c; intros E; injection E as <- <-;
      first [ exists ""; split; [ reflexivity | constructor ]
            | exists "-"; split; [ reflexivity | constructor ]
            | exists "+"; split; [ reflexivity | constructor ] ].
Qed.

Lemma read_sign_unsigned (body : string) :
  unsigned_head body -> read_sign body = (false, body).
Proof.
  destruct body as [ | c t ]; trivial.
  intros [Hm Hp]. unfold read_sign.
  each_char c; try reflexivity; congruence.
Qed.

Lemma read_sign_complete (sg : string) (neg : bool) (body : string) :
  sign_text sg neg -> unsigned_head body ->
  read_sign (sg ++ body) = (neg, body).
Proof.
  intros [ | | ] Hb; trivial. now apply read_sign_unsigned.
Qed.

Lemma digit_head_unsigned (c : ascii) (t : string) :
  is_digit c = true -> unsigned_head (String c t).
Proof. intros Hc. split; intros ->; discriminate. Qed.

(** *** The exponent *)

Lemma read_exponent_complete (e : string) (x : Z) :
  exponent_text e x -> read_exponent e = Some x.
Proof.
  intros [ | c sg neg s ds Hc Hsg Hs ]; trivial.
  unfold read_exponent.
  rewrite (proj2 (lower_e c) Hc).
  destruct (digitpart_stops_sign s ds Hs) as (c' & t & -> & Hc' & Hne).
  rewrite (read_sign_complete sg neg _ Hsg (digit_head_unsigned c' t Hc')).
  rewrite <- (str_app_nil_r (String c' t)).
  rewrite (read_digits_part _ ds "" false Hs I), read_more_none.
  cbn [dlen dval].
  destruct ds as [ | d ds ]; [ contradiction | ].
  now cbn [List.length Z.of_nat Z.eqb].
Qed.

Lemma read_exponent_sound (e : string) (x : Z) :
  read_exponent e = Some x -> exponent_text e x.
Proof.
  unfold read_exponent.
  destruct e as [ | c r ].
  - intros E. injection E as <-. constructor.
  - destruct (Ascii.eqb (lower_char c) "e") eqn:Hc; [ | discriminate ].
    apply lower_e in Hc.
    destruct (read_sign r) as [neg r1] eqn:Hsign.
    apply read_sign_sound in Hsign as (sg & -> & Hsg).
    destruct (read_digits r1 no_digits false) as [d rest] eqn:Hread.
    apply read_digits_sound in Hread as (p & ds & -> & Hp & -> & _).
    destruct rest; [ | discriminate ].
    rewrite read_more_none. cbn [dlen dval].
    destruct Hp as [ [-> ->] | Hp ]; [ discriminate | ].
    destruct (digitpart_stops_sign p ds Hp) as (c' & t & _ & _ & Hne).
    destruct ds as [ | d0 ds ]; [ contradiction | ].
    cbn [List.length Z.of_nat Z.eqb].
    intros E. injection E as <-.
    rewrite str_app_nil_r. now constructor.
Qed.

Lemma exponent_head (e : string) (x : Z) :
  exponent_text e x ->
  e = "" \/ exists c r, e = String c r /\ (c = "e"%char \/ c = "E"%char).
Proof. intros [ | c sg neg s ds Hc _ _ ]; eauto. Qed.

Lemma exponent_stops (e : string) (x : Z) :
  exponent_text e x -> stops e /\ match e with
                                  | String "." _ => False
                                  | _ => True
                                  end.
Proof.
  intros [ | c sg neg s ds [ -> | -> ] _ _ ]; cbn; repeat split;
    trivial; discriminate.
Qed.

(** *** The number *)

Lemma point_stops (r : string) : stops (String "." r).
Proof. split; [ reflexivity | discriminate ]. Qed.

Lemma read_floatnumber_complete (p e : string) (ds fs : list Z) (x : Z) :
  point_text p ds fs -> exponent_text e x ->
  read_floatnumber (p ++ e)
  = Some (decimal (ds ++ fs), x - Z.of_nat (List.length fs)).
Proof.
  intros Hp He.
  destruct (exponent_stops e x He) as [Hstop Hnopoint].
  assert (Hnone : read_digits e no_digits false = (no_digits, e)).
  { apply read_digits_none. destruct e as [ | c e ]; trivial.
    apply Hstop. }
  assert (Hlen : forall (qs : list Z) (q : string),
             digitpart q qs -> (Z.of_nat (List.length qs) =? 0) = false).
  { intros qs q Hq.
    destruct (digitpart_stops_sign q qs Hq) as (c' & t & _ & _ & Hne).
    destruct qs; [ contradiction | reflexivity ]. }
  unfold read_floatnumber.
  destruct Hp as [ ip ds Hip | ip ds Hip | fp fs Hfp | ip fp ds fs Hip Hfp ].
  - rewrite (read_digits_part ip ds e false Hip Hstop), read_more_none.
    pose proof (read_exponent_complete e x He) as Hex.
    destruct (exponent_head e x He) as [ -> | (c & r & -> & [ -> | -> ]) ];
      cbv beta iota; cbn [dlen dval no_digits];
      rewrite (Hlen ds ip Hip); cbn [andb];
      rewrite Hex, app_nil_r; cbn [List.length Z.of_nat];
      do 2 f_equal; lia.
  - rewrite str_app_assoc.
    rewrite (read_digits_part ip ds _ false Hip (point_stops e)),
      read_more_none.
    cbn [String.append]. rewrite Hnone.
    cbn [dlen dval no_digits]. rewrite (Hlen ds ip Hip). cbn [andb].
    rewrite (read_exponent_complete e x He), app_nil_r.
    cbn [List.length Z.of_nat]. do 2 f_equal; lia.
  - cbn [String.append].
    rewrite (read_digits_none (String "." (fp ++ e)) no_digits eq_refl).
    rewrite (read_digits_part fp fs e false Hfp Hstop), read_more_none.
    cbn [dlen dval no_digits]. rewrite (Hlen fs fp Hfp).
    cbn [Z.eqb andb].
    rewrite (read_exponent_complete e x He).
    reflexivity.
  - rewrite str_app_assoc. cbn [String.append].
    rewrite (read_digits_part ip ds _ false Hip (point_stops (fp ++ e))),
      read_more_none.
    rewrite (read_digits_part fp fs e false Hfp Hstop), read_more_none.
    cbn [dlen dval]. rewrite (Hlen ds ip Hip). cbn [andb].
    rewrite (read_exponent_complete e x He), decimal_app.
    reflexivity.
Qed.

Lemma read_floatnumber_sound (s : string) (m e : Z) :
  read_floatnumber s = Some (m, e) ->
  exists (p ex : string) (ds fs : list Z) (x : Z),
    s = p ++ ex /\ point_text p ds fs /\ exponent_text ex x
    /\ m = decimal (ds ++ fs) /\ e = x - Z.of_nat (List.length fs).
Proof.
  unfold read_floatnumber.
  destruct (read_digits s no_digits false) as [ip r] eqn:Hip.
  apply read_digits_sound in Hip as (p1 & ds & -> & Hp1 & -> & _).
  rewrite read_more_none.
  assert (Hcase :
    (exists r1, r = String "." r1)
    \/ match r with
       | String "." r1 =>
           let (fp, r2) := read_digits r1 no_digits false in (fp, r2)
       | _ => (no_digits, r)
       end = (no_digits, r)).
  { destruct r as [ | c r1 ]; [ now right | ].
    destruct (Ascii.eqb_spec c ".") as [ -> | Hc ]; [ left; eauto | ].
    right. clear -Hc. each_char c; try reflexivity; congruence. }
  destruct Hcase as [ [r1 ->] | Hcase ].
  - destruct (read_digits r1 no_digits false) as [fp r2] eqn:Hfp.
    apply read_digits_sound in Hfp as (p2 & fs & -> & Hp2 & -> & _).
    rewrite read_more_none. cbn [dlen dval].
    destruct ((Z.of_nat (List.length ds) =? 0)
              && (Z.of_nat (List.length fs) =? 0))%bool eqn:Hboth;
      [ discriminate | ].
    destruct (read_exponent r2) as [ x | ] eqn:Hex; [ | discriminate ].
    apply read_exponent_sound in Hex.
    intros E. injection E as <- <-.
    destruct Hp1 as [ [-> ->] | Hp1 ], Hp2 as [ [-> ->] | Hp2 ].
    + discriminate.
    + exists ("." ++ p2), r2, [], fs, x.
      split; [ reflexivity | ].
      split; [ now constructor | ].
      split; [ trivial | ]. split; reflexivity.
    + exists (p1 ++ "."), r2, ds, [], x.
      split; [ now rewrite str_app_assoc | ].
      split; [ now constructor | ].
      split; [ trivial | ].
      rewrite app_nil_r. cbn [List.length Z.of_nat dval no_digits].
      split; [ | reflexivity ]. rewrite Z.pow_0_r. unfold decimal at 2.
      cbn [fold_left]. lia.
    + exists (p1 ++ "." ++ p2), r2, ds, fs, x.
      split; [ now rewrite !str_app_assoc | ].
      split; [ now constructor | ].
      split; [ trivial | ].
      split; [ now rewrite decimal_app | reflexivity ].
  - rewrite Hcase. cbn [dlen dval no_digits].
    rewrite andb_true_r.
    destruct (Z.of_nat (List.length ds) =? 0) eqn:Hlen; [ discriminate | ].
    destruct (read_exponent r) as [ x | ] eqn:Hex; [ | discriminate ].
    apply read_exponent_sound in Hex.
    intros E. injection E as <- <-.
    destruct Hp1 as [ [-> ->] | Hp1 ]; [ discriminate | ].
    exists p1, r, ds, [], x.
    split; [ reflexivity | ].
    split; [ now constructor | ].
    split; [ trivial | ].
    rewrite app_nil_r. cbn [List.length Z.of_nat].
    split; [ lia | reflexivity ].
Qed.

End FloatParser.

Section FloatTexts.

Import Text PyFloat.
Local Open Scope float_scope.

(** *** White space *)

Lemma ltrim_split (s : string) :
  exists l, s = l ++ ltrim s /\ made_of float_blank l = true.
Proof.
  induction s as [ | c s (l & Hs & Hl) ]; cbn [ltrim].
  - now exists "".
  - destruct (isspace c) eqn:Hc.
    + exists (String c l). cbn [String.append made_of].
      rewrite <- Hs, <- isspace_blank, Hc. auto.
    + now exists "".
Qed.

Lemma rtrim_split (s : string) :
  exists r, s = rtrim s ++ r /\ made_of float_blank r = true.
Proof.
  induction s as [ | c s (r & Hs & Hr) ]; cbn [rtrim].
  - now exists "".
  - destruct (rtrim s) as [ | c' s' ].
    + cbn [String.append] in Hs. subst s.
      destruct (isspace c) eqn:Hc.
      * exists (String c r). cbn [String.append made_of].
        rewrite <- isspace_blank, Hc. auto.
      * exists r. auto.
    + exists r. cbn [String.append] in *. now rewrite <- Hs.
Qed.

Lemma trim_split (s : string) :
  exists l r, s = l ++ trim s ++ r
              /\ made_of float_blank l = true
              /\ made_of float_blank r = true.
Proof.
  destruct (ltrim_split s) as (l & Hs & Hl).
  destruct (rtrim_split (ltrim s)) as (r & Ht & Hr).
  exists l, r. unfold trim. now rewrite <- Ht.
Qed.

Lemma ltrim_blank (l t : string) :
  made_of float_blank l = true -> ltrim (l ++ t) = ltrim t.
Proof.
  induction l as [ | c l IH ]; cbn [made_of String.append ltrim]; trivial.
  rewrite <- isspace_blank. intros Hl.
  apply andb_true_iff in Hl as [-> Hl]. auto.
Qed.

Lemma rtrim_blank (r : string) :
  made_of float_blank r = true -> rtrim r = "".
Proof.
  induction r as [ | c r IH ]; cbn [made_of rtrim]; trivial.
  rewrite <- isspace_blank. intros Hr.
  apply andb_true_iff in Hr as [-> Hr]. now rewrite IH.
Qed.

Lemma rtrim_solid (t r : string) :
  solid t = true -> rtrim (t ++ r) = t ++ rtrim r.
Proof.
  unfold solid.
  induction t as [ | c t IH ]; cbn [made_of String.append rtrim]; trivial.
  intros Ht. apply andb_true_iff in Ht as [Hc Ht].
  rewrite (IH Ht). apply negb_true_iff in Hc. rewrite Hc.
  now destruct (t ++ rtrim r).
Qed.

Lemma ltrim_all_blank (r : string) :
  made_of float_blank r = true -> ltrim r = "".
Proof.
  induction r as [ | c r IH ]; cbn [made_of ltrim]; trivial.
  rewrite <- isspace_blank. intros Hr.
  apply andb_true_iff in Hr as [-> Hr]. auto.
Qed.

Lemma trim_exact (l t r : string) :
  made_of float_blank l = true -> made_of float_blank r = true ->
  solid t = true -> trim (l ++ t ++ r) = t.
Proof.
  intros Hl Hr Ht. unfold trim. rewrite (ltrim_blank l _ Hl).
  destruct t as [ | c t ].
  - cbn [String.append]. now rewrite (ltrim_all_blank r Hr).
  - assert (Hlt : ltrim (String c t ++ r) = String c t ++ r).
    { cbn [String.append ltrim]. unfold solid in Ht. cbn [made_of] in Ht.
      apply andb_true_iff in Ht as [Hc _].
      apply negb_true_iff in Hc. now rewrite Hc. }
    now rewrite Hlt, (rtrim_solid _ _ Ht), (rtrim_blank r Hr),
      str_app_nil_r.
Qed.

Lemma solid_app (a b : string) :
  solid (a ++ b) = (solid a && solid b)%bool.
Proof.
  unfold solid. induction a as [ | c a IH ]; cbn [made_of String.append];
    trivial.
  now rewrite IH, andb_assoc.
Qed.

Lemma solid_lower (s : string) : solid (lower s) = solid s.
Proof.
  unfold solid. induction s as [ | c s IH ]; cbn [made_of lower]; trivial.
  now rewrite IH, isspace_lower.
Qed.

Lemma digit_solid (c : ascii) (d : Z) :
  digit_of c = Some d -> negb (isspace c) = true.
Proof.
  each_char c; vm_compute; intros E; try discriminate; reflexivity.
Qed.

Lemma digit_tail_solid (s : string) (ds : list Z) :
  digit_tail s ds -> solid s = true.
Proof.
  unfold solid.
  induction 1 as [ | c d s ds Hc _ IH | c d s ds Hc _ IH ];
    cbn [made_of]; trivial;
    rewrite (digit_solid c d Hc), IH; reflexivity.
Qed.

Lemma digitpart_solid (s : string) (ds : list Z) :
  digitpart s ds -> solid s = true.
Proof.
  intros [c d t ds' Hc Ht]. unfold solid. cbn [made_of].
  rewrite (digit_solid c d Hc). exact (digit_tail_solid t ds' Ht).
Qed.

Lemma sign_solid (sg : string) (neg : bool) :
  sign_text sg neg -> solid sg = true.
Proof. now intros [ | | ]. Qed.

Lemma point_solid (p : string) (ds fs : list Z) :
  point_text p ds fs -> solid p = true.
Proof.
  intros [ ip ds' Hip | ip ds' Hip | fp fs' Hfp | ip fp ds' fs' Hip Hfp ];
    rewrite ?solid_app.
  - exact (digitpart_solid ip ds' Hip).
  - now rewrite (digitpart_solid ip ds' Hip).
  - now rewrite (digitpart_solid fp fs' Hfp).
  - now rewrite (digitpart_solid ip ds' Hip), (digitpart_solid fp fs' Hfp).
Qed.

Lemma exponent_solid (e : string) (x : Z) :
  exponent_text e x -> solid e = true.
Proof.
  intros [ | c sg neg s ds Hc Hsg Hs ]; trivial.
  change (String c (sg ++ s)) with (String c "" ++ sg ++ s).
  rewrite !solid_app, (sign_solid sg neg Hsg), (digitpart_solid s ds Hs).
  now destruct Hc as [ -> | -> ].
Qed.

Lemma literal_solid (neg : bool) (body : string) (x : float) :
  float_literal neg body x -> solid body = true.
Proof.
  intros [ s [ Hs | Hs ] | s Hs | p e ds fs y Hp He ].
  - now rewrite <- solid_lower, Hs.
  - now rewrite <- solid_lower, Hs.
  - now rewrite <- solid_lower, Hs.
  - now rewrite solid_app, (point_solid p ds fs Hp), (exponent_solid e y He).
Qed.

(** *** Literals *)

Lemma point_head (p : string) (ds fs : list Z) :
  point_text p ds fs ->
  exists c t, p = String c t /\ (is_digit c = true \/ c = "."%char).
Proof.
  intros [ ip ds' Hip | ip ds' Hip | fp fs' Hfp | ip fp ds' fs' Hip Hfp ];
    try (destruct Hip as [c d t ds2 Hc _];
         exists c; eexists; split; [ reflexivity | ];
         left; now apply (digit_is_digit c d)).
  exists "."%char, fp. auto.
Qed.

Lemma literal_unsigned (neg : bool) (body : string) (x : float) :
  float_literal neg body x -> unsigned_head body.
Proof.
  assert (Hword : forall s w c t,
             lower s = String c t -> w = String c t ->
             c <> "-"%char -> c <> "+"%char -> unsigned_head s).
  { intros s w c t Hs _ Hm Hp.
    destruct s as [ | c' s' ]; [ exact I | ].
    cbn [lower] in Hs. injection Hs as Hc _.
    split; intros ->; vm_compute in Hc; congruence. }
  intros [ s [ Hs | Hs ] | s Hs | p e ds fs y Hp He ].
  - eapply Hword; eauto; discriminate.
  - eapply Hword; eauto; discriminate.
  - eapply Hword; eauto; discriminate.
  - destruct (point_head p ds fs Hp) as (c & t & -> & [ Hc | -> ]).
    + now apply digit_head_unsigned.
    + split; discriminate.
Qed.

Lemma number_not_word (p e : string) (ds fs : list Z) (w : string) :
  point_text p ds fs ->
  match w with
  | String c _ => is_digit c = false /\ c <> "."%char
  | EmptyString => True
  end ->
  String.eqb (lower (p ++ e)) w = false.
Proof.
  intros Hp Hw.
  destruct (point_head p ds fs Hp) as (c & t & -> & Hc).
  cbn [String.append lower].
  destruct w as [ | c' w' ]; trivial. cbn [String.eqb].
  destruct (Ascii.eqb_spec (lower_char c) c') as [ <- | _ ]; trivial.
  exfalso. destruct Hw as [Hd Hpt].
  destruct Hc as [ Hc | -> ].
  - clear -Hc Hd. revert Hc Hd. each_char c; vm_compute; congruence.
  - now apply Hpt.
Qed.

(** [float] returns exactly on the float literals, with their values. *)
Lemma float_of_str_text (s : string) (x : float) :
  float_of_str s = Return x <-> float_text s x.
Proof.
  split.
  - unfold float_of_str.
    destruct (trim_split s) as (l & r & Hs & Hl & Hr).
    destruct (read_sign (trim s)) as [neg body] eqn:Hsign.
    apply read_sign_sound in Hsign as (sg & Ht & Hsg).
    rewrite Ht, str_app_assoc in Hs.
    destruct (String.eqb_spec (lower body) "inf") as [ Hinf | _ ].
    { cbn [orb]. intros E. injection E as <-.
      exists l, sg, body, r, neg. repeat split; trivial.
      constructor. now left. }
    destruct (String.eqb_spec (lower body) "infinity") as [ Hinf | _ ].
    { cbn [orb]. intros E. injection E as <-.
      exists l, sg, body, r, neg. repeat split; trivial.
      constructor. now right. }
    cbn [orb].
    destruct (String.eqb_spec (lower body) "nan") as [ Hnan | _ ].
    { intros E. injection E as <-.
      exists l, sg, body, r, neg. repeat split; trivial.
      now constructor. }
    destruct (read_floatnumber body) as [ [m e] | ] eqn:Hnum;
      [ | discriminate ].
    apply read_floatnumber_sound in Hnum
      as (p & ex & ds & fs & y & -> & Hp & Hex & -> & ->).
    intros E. injection E as <-.
    exists l, sg, (p ++ ex), r, neg. repeat split; trivial.
    now constructor.
  - intros (l & sg & body & r & neg & -> & Hl & Hr & Hsg & Hbody).
    unfold float_of_str.
    rewrite <- (str_app_assoc sg body r), trim_exact; trivial.
    2: { now rewrite solid_app, (sign_solid sg neg Hsg),
           (literal_solid neg body x Hbody). }
    rewrite (read_sign_complete sg neg body Hsg
               (literal_unsigned neg body x Hbody)).
    destruct Hbody as [ s [ Hs | Hs ] | s Hs | p e ds fs y Hp He ].
    + now rewrite Hs.
    + now rewrite Hs.
    + now rewrite Hs.
    + rewrite !(number_not_word p e ds fs) by (trivial; now split).
      cbn [orb].
      now rewrite (read_floatnumber_complete p e ds fs y Hp He).
Qed.

Lemma float_of_str_raises (s : string) (e : exn) :
  float_of_str s = Raise e -> e = ValueError.
Proof.
  unfold float_of_str.
  destruct (read_sign (trim s)) as [neg body].
  destruct (_ || _)%bool; [ discriminate | ].
  destruct (String.eqb _ "nan"); [ discriminate | ].
  destruct (read_floatnumber body) as [ [m e'] | ]; [ discriminate | ].
  intros E. now injection E.
Qed.

End FloatTexts.

(** ** Currency cells *)

Section CurrencyCells.

Import Text.
Context `{PyRuntime}.
Local Open Scope float_scope.




Lemma uint_string_lower (d : Decimal.uint) :
  lower (NilEmpty.string_of_uint d) = NilEmpty.string_of_uint d.
Proof. induction d; simpl; now rewrite ?IHd. Qed.

Lemma uint_string_remove (c : ascii) (d : Decimal.uint) :
  is_digit c = false ->
  remove_char c (NilEmpty.string_of_uint d) = NilEmpty.string_of_uint d.
Proof.
  intros Hc.
  induction d; simpl; trivial; rewrite IHd;
    match goal with
    | |- (if Ascii.eqb c ?x then _ else _) = _ =>
        destruct (Ascii.eqb_spec c x) as [ -> | _ ];
        [ discriminate | reflexivity ]
    end.
Qed.

Lemma uint_string_rstrip (d : Decimal.uint) :
  rstrip (NilEmpty.string_of_uint d) = NilEmpty.string_of_uint d.
Proof.
  induction d; simpl; trivial; rewrite IHd;
    now destruct (NilEmpty.string_of_uint d).
Qed.

Lemma uint_string_strip (d : Decimal.uint) :
  strip (NilEmpty.string_of_uint d) = NilEmpty.string_of_uint d.
Proof.
  unfold strip.
  replace (lstrip (NilEmpty.string_of_uint d))
    with (NilEmpty.string_of_uint d) by (now destruct d).
  apply uint_string_rstrip.
Qed.

(** The text of an integer is never one of the skipped names. *)
Lemma int_text_kept (z : Z) :
  mem (lower (strip (str_of_Z z))) skipped_names = false.
Proof.
  unfold str_of_Z.
  destruct z as [ | p | p ]; cbn [Z.to_int NilZero.string_of_int].
  - reflexivity.
  - pose proof (DecimalPos.Unsigned.to_uint_nonnil p) as Hd.
    unfold NilZero.string_of_uint.
    destruct (Pos.to_uint p) as [ | u | u | u | u | u | u | u | u | u | u ]
      eqn:Hu; try contradiction;
      rewrite uint_string_strip, uint_string_lower; reflexivity.
  - pose proof (DecimalPos.Unsigned.to_uint_nonnil p) as Hd.
    unfold NilZero.string_of_uint.
    destruct (Pos.to_uint p) as [ | u | u | u | u | u | u | u | u | u | u ]
      eqn:Hu; try contradiction;
      unfold strip; cbn [lstrip]; change (is_space "-") with false;
      cbv iota; cbn [rstrip]; rewrite uint_string_rstrip;
      cbn [NilEmpty.string_of_uint lower]; reflexivity.
Qed.

(** A cell whose text is a skipped name can be printed. *)
Lemma skipped_cell_prints (value : cell) :
  mem (lower (strip (py_str value))) skipped_names = true ->
  str value = Return (py_str value).
Proof.
  destruct value as [ | f | z | t ]; cbn [py_str str]; trivial.
  now rewrite int_text_kept.
Qed.

(** [str] either returns the cell's text or refuses an integer. *)
Lemma str_text (value : cell) (text : string) :
  str value = Return text -> text = py_str value.
Proof.
  destruct value as [ | f | z | t ]; simpl; try congruence.
  destruct (int_max_str_digits <? int_digits z)%Z; congruence.
Qed.


(** [_safe_float] with its [try]/[except] resolved. *)
Lemma safe_float_value (value : cell) :
  _safe_float value =
  Return (if isna value then 0
          else match str value with
               | Return text =>
                   match PyFloat.float_of_str (strip_currency text) with
                   | Return x => x
                   | Raise _ => 0
                   end
               | Raise _ => 0
               end).
Proof.
  unfold _safe_float, try_except.
  destruct (isna value); trivial.
  destruct (str value) as [ text | e ]; trivial.
  now destruct (PyFloat.float_of_str _).
Qed.

Lemma safe_float_returns (value : cell) :
  exists x, _safe_float value = Return x.
Proof. rewrite safe_float_value. eauto. Qed.




(** *** Cells without a minus sign *)







End CurrencyCells.

(** ** One row *)

Section OneRow.

Import Text.
Context `{PyRuntime}.
Local Open Scope float_scope.

Variables (cols : list string) (agent_col : string).
Variables (office_col current_col following_col : option string).

Lemma amount_returns (col : option string) (row : list cell) :
  exists x, amount cols col row = Return x.
Proof.
  unfold amount, if_col.
  destruct col as [ [ | ch s ] | ]; eauto using safe_float_returns.
Qed.

(** The fields of a row that is kept. *)
Lemma normalize_row_fields (row : list cell) (a : normalized) :
  normalize_row cols agent_col office_col current_col following_col row
    = Return (Some a) ->
  n_agent_name a = strip (py_str (row_get cols row agent_col))
  /\ mem (lower (n_agent_name a)) skipped_names = false
  /\ n_office a =
       if_col office_col (fun c => strip (py_str (row_get cols row c)))
         "Unknown"%string
  /\ amount cols current_col row = Return (n_current a)
  /\ amount cols following_col row = Return (n_following a)
  /\ n_total a = n_current a + n_following a.
Proof.
  unfold normalize_row.
  destruct (str (row_get cols row agent_col)) as [ text | e ] eqn:Htext;
    [ | discriminate ].
  apply str_text in Htext. subst text.
  destruct (mem _ skipped_names) eqn:Hskip; [ discriminate | ].
  assert (Hoffice :
    forall o,
      if_col office_col
        (fun c => office_text <~ str (row_get cols row c) ;;
                  Return (strip office_text)) (Return "Unknown"%string)
      = Return o ->
      o = if_col office_col (fun c => strip (py_str (row_get cols row c)))
            "Unknown"%string).
  { intros o. unfold if_col. destruct office_col as [ [ | ch l ] | ];
      try (intros E; now injection E).
    destruct (str _) as [ text | e ] eqn:Htext; [ | discriminate ].
    apply str_text in Htext. subst text. intros E. now injection E. }
  destruct (if_col office_col _ _) as [ o | e ]; [ | discriminate ].
  specialize (Hoffice o eq_refl). subst o.
  destruct (amount_returns current_col row) as [x Hx].
  destruct (amount_returns following_col row) as [y Hy].
  rewrite Hx, Hy.
  intros Ha. injection Ha as <-. simpl. repeat split; trivial.
Qed.

(** A row is passed over only for its agent cell. *)
Lemma normalize_row_skips (row : list cell) :
  normalize_row cols agent_col office_col current_col following_col row
    = Return None ->
  mem (lower (strip (py_str (row_get cols row agent_col)))) skipped_names
  = true.
Proof.
  unfold normalize_row.
  destruct (str (row_get cols row agent_col)) as [ text | e ] eqn:Htext;
    [ | discriminate ].
  apply str_text in Htext. subst text.
  destruct (mem _ skipped_names) eqn:Hskip; trivial.
  destruct (if_col office_col _ _) as [ o | e ]; [ | discriminate ].
  destruct (amount_returns current_col row) as [x Hx].
  destruct (amount_returns following_col row) as [y Hy].
  rewrite Hx, Hy. discriminate.
Qed.


End OneRow.

Section OfficeOfARow.

Import Text.
Context `{PyRuntime}.

(** With the office column resolved, the office is the trimmed text of the
    row's office cell, whatever the cell holds. *)
Lemma office_is_cell_text (cols : list string) (agent_col : string)
  (ch : ascii) (label : string) (current_col following_col : option string)
  (row : list cell) (a : normalized) :
  normalize_row cols agent_col (Some (String ch label)) current_col
    following_col row = Return (Some a) ->
  n_office a = strip (py_str (row_get cols row (String ch label))).
Proof.
  intros Ha.
  now destruct (normalize_row_fields _ _ _ _ _ row a Ha) as (_ & _ & Ho & _).
Qed.

(** When the office column is unresolved, the office of every row that
    is kept is "Unknown". *)
Lemma office_of_row (cols : list string) (agent_col : string)
  (current_col following_col : option string)
  (row : list cell) (a : normalized) :
  normalize_row cols agent_col None current_col following_col row
    = Return (Some a) ->
  n_office a = "Unknown".
Proof.
  intros Ha.
  now destruct (normalize_row_fields _ _ _ _ _ row a Ha) as (_ & _ & Ho & _).
Qed.

End OfficeOfARow.

(** ** Runs of database code *)

Section Runs.

Lemma bind_returns {A B} (m : M A) (k : A -> M B) (c c' : conn) (b : B) :
  bind m k c = (Return b, c') ->
  exists a c1, m c = (Return a, c1) /\ k a c1 = (Return b, c').
Proof.
  unfold bind. destruct (m c) as [ [ a | e ] c1 ]; intros E.
  - eauto.
  - discriminate.
Qed.

Lemma bind_durable {A B} (m : M A) (k : A -> M B) (c : conn) :
  durable (snd (m c)) = durable c ->
  (forall a c1, durable (snd (k a c1)) = durable c1) ->
  durable (snd (bind m k c)) = durable c.
Proof.
  unfold bind. destruct (m c) as [ [ a | e ] c1 ]; simpl; intros Hm Hk.
  - now rewrite Hk.
  - exact Hm.
Qed.

Lemma execute_returns (stmt : tables -> tables) (c c' : conn) (u : unit) :
  execute stmt c = (Return u, c') ->
  view c' = stmt (view c) /\ durable c' = durable c
  /\ oracle c' = tl (oracle c).
Proof.
  unfold execute.
  destruct (oracle c) as [ | [ | ] o ]; intros E;
    try discriminate; injection E as _ <-; auto.
Qed.

Lemma execute_durable (stmt : tables -> tables) (c : conn) :
  durable (snd (execute stmt c)) = durable c.
Proof. unfold execute. now destruct (oracle c) as [ | [ | ] o ]. Qed.

Lemma commit_returns (c c' : conn) (u : unit) :
  commit c = (Return u, c') ->
  view c' = view c /\ durable c' = view c.
Proof.
  unfold commit.
  destruct (oracle c) as [ | [ | ] o ]; intros E;
    try discriminate; injection E as _ <-; auto.
Qed.

Lemma commit_raises (c c' : conn) (e : exn) :
  commit c = (Raise e, c') -> durable c' = durable c.
Proof.
  unfold commit.
  destruct (oracle c) as [ | [ | ] o ]; intros E;
    try discriminate; now injection E as _ <-.
Qed.

(** A statement goes through when the oracle's next entry is not a fault. *)
Lemma execute_no_fault (stmt : tables -> tables) (c : conn) :
  nth 0 (oracle c) false = false ->
  execute stmt c =
  (Return tt, {| view := stmt (view c); durable := durable c;
                 oracle := tl (oracle c) |}).
Proof.
  unfold execute. destruct (oracle c) as [ | [ | ] o ]; simpl;
    intros E; trivial; discriminate.
Qed.

Lemma commit_no_fault (c : conn) :
  nth 0 (oracle c) false = false ->
  commit c =
  (Return tt, {| view := view c; durable := view c;
                 oracle := tl (oracle c) |}).
Proof.
  unfold commit. destruct (oracle c) as [ | [ | ] o ]; simpl;
    intros E; trivial; discriminate.
Qed.

(** Sequencing a step that commits nothing with a continuation that
    commits only when it returns True. *)
Lemma bind_unless_true {A} (m : M A) (k : A -> M bool) (c : conn) :
  durable (snd (m c)) = durable c ->
  (forall a c1, fst (k a c1) = Return true
                \/ durable (snd (k a c1)) = durable c1) ->
  fst (bind m k c) = Return true
  \/ durable (snd (bind m k c)) = durable c.
Proof.
  unfold bind. destruct (m c) as [ [ a | e ] c1 ]; simpl; intros Hm Hk.
  - destruct (Hk a c1) as [ Ht | Hd ]; [ now left | right; congruence ].
  - now right.
Qed.

(** [try: body except Exception: return False] around such a body. *)
Lemma try_catch_false (body : M bool) (c : conn) :
  fst (body c) = Return true \/ durable (snd (body c)) = durable c ->
  fst (try_catch body (fun _ => ret false) c) = Return true
  \/ (fst (try_catch body (fun _ => ret false) c) = Return false
      /\ durable (snd (try_catch body (fun _ => ret false) c)) = durable c).
Proof.
  unfold try_catch, ret.
  destruct (body c) as [ [ [ | ] | e ] c' ]; simpl; intros [ Ht | Hd ];
    auto; discriminate.
Qed.

End Runs.

(** ** The import *)

Section ImportLoops.

Import Text.
Context `{PyRuntime}.
Local Open Scope float_scope.

Variables (baseline_id : Z) (import_date : string) (cols : list string).
Variables (agent_col : string) (office_col current_col following_col
  : option string).


Lemma process_rows_durable (rs : list (list cell)) :
  forall (n : Z) (d : office_dict) (c : conn),
  durable (snd (process_rows baseline_id import_date cols agent_col office_col
    current_col following_col rs n d c)) = durable c.
Proof.
  induction rs as [ | row rest IH ]; intros n d c; simpl; trivial.
  apply bind_durable; trivial.
  intros [ a | ] c1; trivial.
  apply bind_durable; auto using execute_durable.
Qed.

(** With every row skipped the loop touches nothing. *)
Lemma process_rows_all_skipped (rs : list (list cell)) :
  Forall (fun row =>
            mem (lower (strip (py_str (row_get cols row agent_col))))
                skipped_names = true) rs ->
  forall (n : Z) (d : office_dict) (c : conn),
  process_rows baseline_id import_date cols agent_col office_col
    current_col following_col rs n d c = (Return (n, d), c).
Proof.
  induction 1 as [ | row rest Hrow _ IH ]; intros n d c; simpl; trivial.
  unfold bind, lift, normalize_row.
  rewrite (skipped_cell_prints _ Hrow), Hrow. apply IH.
Qed.


Lemma insert_office_totals_durable (d : office_dict) :
  forall c : conn,
  durable (snd (insert_office_totals baseline_id import_date d c))
  = durable c.
Proof.
  unfold insert_office_totals.
  induction d as [ | [office totals] rest IH ]; intros c; simpl; trivial.
  apply bind_durable; auto using execute_durable.
Qed.

End ImportLoops.

Section ImportTheorems.

Import Text.
Context `{PyRuntime}.
Local Open Scope float_scope.



(** The run of an import all of whose rows are skipped. *)
Lemma skipped_rows_run (df : dataframe) (bid : Z) (fp : string)
  (c : conn) (agent_col : string) :
  _find_column df agent_keywords = Some agent_col ->
  Forall (fun row =>
            mem (lower (strip (py_str (row_get (columns df) row agent_col))))
                skipped_names = true) (rows df) ->
  nth 0 (oracle c) false = false ->
  nth 1 (oracle c) false = false ->
  _process_dataframe df bid fp c =
  (Return true,
   {| view := insert_company bid 0 0 0 0%Z 0%Z date_today (view c);
      durable := insert_company bid 0 0 0 0%Z 0%Z date_today (view c);
      oracle := tl (tl (oracle c)) |}).
Proof.
  intros Hcol Hrows Ho0 Ho1.
  assert (Hne : exists ch s, agent_col = String ch s).
  { unfold _find_column in Hcol. apply find_some in Hcol as [_ Hk].
    destruct agent_col as [ | ch s ]; [ discriminate | eauto ]. }
  destruct Hne as (ch & s & ->).
  unfold _process_dataframe, try_catch. cbv zeta. rewrite Hcol.
  unfold bind at 1. rewrite (process_rows_all_skipped _ _ _ _ _ _ _ _ Hrows).
  unfold insert_office_totals, for_each.
  unfold bind at 1. unfold ret at 1.
  unfold bind at 1. rewrite (execute_no_fault _ c Ho0).
  unfold bind at 1. rewrite commit_no_fault.
  - reflexivity.
  - simpl. destruct (oracle c) as [ | b [ | b' o ] ]; simpl in *; trivial.
Qed.

(** C10.  When the agent column resolves, every row is a skipped one and
    neither the company insert nor the commit faults, the import returns
    True, leaves the agent and office tables as they were, and appends one
    company row for the baseline whose three totals are 0.0 and whose
    agent and office counts are 0; the row is committed. *)
Theorem import_of_skipped_rows (df : dataframe) (bid : Z) (fp : string)
  (c : conn) (agent_col : string) :
  _find_column df agent_keywords = Some agent_col ->
  Forall (fun row =>
            mem (lower (strip (py_str (row_get (columns df) row agent_col))))
                skipped_names = true) (rows df) ->
  nth 0 (oracle c) false = false ->
  nth 1 (oracle c) false = false ->
  fst (_process_dataframe df bid fp c) = Return true
  /\ exists comp : Company.row,
       appended (view c) (view (snd (_process_dataframe df bid fp c)))
         [] [] [comp]
       /\ durable (snd (_process_dataframe df bid fp c))
          = view (snd (_process_dataframe df bid fp c))
       /\ Company.baseline_id comp = bid
       /\ Company.total_current_month comp = 0
       /\ Company.total_following_month comp = 0
       /\ Company.grand_total comp = 0
       /\ Company.total_agents comp = 0%Z
       /\ Company.total_offices comp = 0%Z.
Proof.
  intros Hcol Hrows Ho0 Ho1.
  rewrite (skipped_rows_run df bid fp c agent_col Hcol Hrows Ho0 Ho1).
  simpl. split; trivial.
  eexists. split; [ constructor; simpl; rewrite ?app_nil_r; reflexivity | ].
  simpl. auto 10.
Qed.

(** Whatever happens the import returns a boolean, and unless it returns
    True nothing has been committed. *)
Lemma import_outcome (df : dataframe) (bid : Z) (fp : string) (c : conn) :
  fst (_process_dataframe df bid fp c) = Return true
  \/ (fst (_process_dataframe df bid fp c) = Return false
      /\ durable (snd (_process_dataframe df bid fp c)) = durable c).
Proof.
  unfold _process_dataframe. cbv zeta.
  apply try_catch_false.
  destruct (_find_column df agent_keywords) as [ [ | ch s ] | ];
    try (right; reflexivity).
  apply bind_unless_true; [ apply process_rows_durable | intros [n d] c1 ].
  apply bind_unless_true;
    [ apply insert_office_totals_durable | intros [] c2 ].
  apply bind_unless_true; [ apply execute_durable | intros [] c3 ].
  unfold bind. destruct (commit c3) as [ [ [] | e ] c4 ] eqn:Hcommit.
  - now left.
  - right. simpl. now apply commit_raises in Hcommit.
Qed.

(** C3, as amended.  An import that does not succeed reports failure by
    returning False (it never raises) and commits nothing: the committed
    database is the one before the call.  When the failure is the
    unresolved agent column, nothing has been written at all. *)
Theorem failed_import_commits_nothing (df : dataframe) (bid : Z)
  (fp : string) (c : conn) :
  fst (_process_dataframe df bid fp c) <> Return true ->
  fst (_process_dataframe df bid fp c) = Return false
  /\ durable (snd (_process_dataframe df bid fp c)) = durable c
  /\ match _find_column df agent_keywords with
     | Some (String _ _) => True
     | _ => snd (_process_dataframe df bid fp c) = c
     end.
Proof.
  intros Hfail.
  destruct (import_outcome df bid fp c) as [ Hok | [ Hno Hd ] ];
    [ contradiction | ].
  repeat split; trivial.
  unfold _process_dataframe, try_catch. cbv zeta.
  now destruct (_find_column df agent_keywords) as [ [ | ch s ] | ].
Qed.

End ImportTheorems.

(** ** The comparator *)

Section Comparator.

Context `{PyRuntime}.
Local Open Scope float_scope.

(** The guarded division of the code is the specification's formula: the
    guard rules the zero divisor out. *)
Lemma percent_is_spec (delta base : float) :
  percent delta base = Return (spec_percentage delta base).
Proof.
  unfold percent, spec_percentage.
  destruct (0 <? base) eqn:Hpos; trivial.
  now rewrite (truediv_positive delta base Hpos).
Qed.

Lemma py_sub_stored (x y : float) :
  is_nan x = false -> is_nan y = false ->
  py_sub (fetched x) (fetched y) = Return (x - y).
Proof. unfold fetched. now intros -> ->. Qed.

(** The comparison of two company rows that hold their amounts. *)
Lemma compare_run (id1 id2 : Z) (c : conn) (b1 b2 : Baseline.row)
  (t1 t2 : Company.row) :
  select_baseline id1 (view c) = Some b1 ->
  select_baseline id2 (view c) = Some b2 ->
  select_company id1 (view c) = Some t1 ->
  select_company id2 (view c) = Some t2 ->
  company_stored t1 -> company_stored t2 ->
  compare_baselines id1 id2 c =
  (Return
     (Cmp.Comparison
        {| Cmp.name := Baseline.baseline_name b1;
           Cmp.date := Baseline.baseline_date b1;
           Cmp.grand_total := Company.grand_total t1 |}
        {| Cmp.name := Baseline.baseline_name b2;
           Cmp.date := Baseline.baseline_date b2;
           Cmp.grand_total := Company.grand_total t2 |}
        {| Cmp.current_month :=
             Company.total_current_month t2 - Company.total_current_month t1;
           Cmp.following_month :=
             Company.total_following_month t2
             - Company.total_following_month t1;
           Cmp.grand_total_delta :=
             Company.grand_total t2 - Company.grand_total t1;
           Cmp.agent_change :=
             (Company.total_agents t2 - Company.total_agents t1)%Z;
           Cmp.current_month_percent :=
             spec_percentage
               (Company.total_current_month t2
                - Company.total_current_month t1)
               (Company.total_current_month t1);
           Cmp.following_month_percent :=
             spec_percentage
               (Company.total_following_month t2
                - Company.total_following_month t1)
               (Company.total_following_month t1);
           Cmp.grand_total_percent :=
             spec_percentage
               (Company.grand_total t2 - Company.grand_total t1)
               (Company.grand_total t1) |}), c).
Proof.
  intros Hb1 Hb2 Ht1 Ht2 (Hc1 & Hf1 & Hg1) (Hc2 & Hf2 & Hg2).
  unfold compare_baselines, bind, query, lift.
  rewrite Hb1, Hb2, Ht1, Ht2.
  rewrite !py_sub_stored, !percent_is_spec by assumption.
  reflexivity.
Qed.

(** A NULL total in either company row makes the comparison raise. *)
Lemma compare_on_null (id1 id2 : Z) (c : conn) (b1 b2 : Baseline.row)
  (t1 t2 : Company.row) :
  select_baseline id1 (view c) = Some b1 ->
  select_baseline id2 (view c) = Some b2 ->
  select_company id1 (view c) = Some t1 ->
  select_company id2 (view c) = Some t2 ->
  ~ (company_stored t1 /\ company_stored t2) ->
  compare_baselines id1 id2 c = (Raise TypeError, c).
Proof.
  intros Hb1 Hb2 Ht1 Ht2 Hnull.
  unfold compare_baselines, bind, query, lift.
  rewrite Hb1, Hb2, Ht1, Ht2.
  unfold company_stored in Hnull. unfold py_sub, fetched.
  destruct (is_nan (Company.total_current_month t2)); trivial.
  destruct (is_nan (Company.total_current_month t1)); trivial.
  destruct (is_nan (Company.total_following_month t2)); trivial.
  destruct (is_nan (Company.total_following_month t1)); trivial.
  destruct (is_nan (Company.grand_total t2)); trivial.
  destruct (is_nan (Company.grand_total t1)); trivial.
  tauto.
Qed.

(** A percentage over a finite base is a number. *)
Lemma spec_percentage_not_nan (total base : float) :
  is_nan total = false -> is_nan base = false -> is_infinity base = false ->
  pynum_is_nan (spec_percentage (total - base) base) = false.
Proof.
  intros Htotal Hbase Hfin. unfold spec_percentage.
  destruct (0 <? base) eqn:Hpos; trivial.
  now apply percentage_not_nan.
Qed.

(** C2, as amended.  When both baselines and both company rows exist and
    the company rows hold their totals (none is the NULL that SQLite makes
    of a NaN), [compare_baselines] returns the comparison and raises
    nothing: the three deltas are the second row's totals minus the
    first's, [agent_change] is the difference of the agent counts, each
    percentage is [delta / base * 100] when the first row's total is above
    zero and exactly the integer 0 otherwise, and a percentage is a number
    (not NaN) whenever the first row's total is finite.  With grand totals
    0 and 500 the percentage is 0 and the delta 500. *)
Theorem compare_computes_deltas (id1 id2 : Z) (c : conn)
  (b1 b2 : Baseline.row) (t1 t2 : Company.row) :
  select_baseline id1 (view c) = Some b1 ->
  select_baseline id2 (view c) = Some b2 ->
  select_company id1 (view c) = Some t1 ->
  select_company id2 (view c) = Some t2 ->
  company_stored t1 ->
  company_stored t2 ->
  exists imp : Cmp.improvements,
    compare_baselines id1 id2 c =
      (Return (Cmp.Comparison
                 {| Cmp.name := Baseline.baseline_name b1;
                    Cmp.date := Baseline.baseline_date b1;
                    Cmp.grand_total := Company.grand_total t1 |}
                 {| Cmp.name := Baseline.baseline_name b2;
                    Cmp.date := Baseline.baseline_date b2;
                    Cmp.grand_total := Company.grand_total t2 |}
                 imp), c)
    /\ Cmp.current_month imp =
       Company.total_current_month t2 - Company.total_current_month t1
    /\ Cmp.following_month imp =
       Company.total_following_month t2 - Company.total_following_month t1
    /\ Cmp.grand_total_delta imp =
       Company.grand_total t2 - Company.grand_total t1
    /\ Cmp.agent_change imp =
       (Company.total_agents t2 - Company.total_agents t1)%Z
    /\ Cmp.current_month_percent imp =
       spec_percentage (Cmp.current_month imp)
         (Company.total_current_month t1)
    /\ Cmp.following_month_percent imp =
       spec_percentage (Cmp.following_month imp)
         (Company.total_following_month t1)
    /\ Cmp.grand_total_percent imp =
       spec_percentage (Cmp.grand_total_delta imp) (Company.grand_total t1)
    /\ (is_infinity (Company.total_current_month t1) = false ->
        pynum_is_nan (Cmp.current_month_percent imp) = false)
    /\ (is_infinity (Company.total_following_month t1) = false ->
        pynum_is_nan (Cmp.following_month_percent imp) = false)
    /\ (is_infinity (Company.grand_total t1) = false ->
        pynum_is_nan (Cmp.grand_total_percent imp) = false)
    /\ (Company.grand_total t1 = 0 -> Company.grand_total t2 = 500 ->
        Cmp.grand_total_percent imp = PyInt 0
        /\ Cmp.grand_total_delta imp = 500).
Proof.
  intros Hb1 Hb2 Ht1 Ht2 Hs1 Hs2.
  eexists. split.
  - apply (compare_run id1 id2 c b1 b2 t1 t2); assumption.
  - destruct Hs1 as (Hc1 & Hf1 & Hg1), Hs2 as (Hc2 & Hf2 & Hg2).
    cbn [Cmp.current_month Cmp.following_month Cmp.grand_total_delta
         Cmp.agent_change Cmp.current_month_percent
         Cmp.following_month_percent Cmp.grand_total_percent].
    do 7 (split; [ reflexivity | ]).
    split; [ now apply spec_percentage_not_nan | ].
    split; [ now apply spec_percentage_not_nan | ].
    split; [ now apply spec_percentage_not_nan | ].
    intros E1 E2. rewrite E1, E2. split; reflexivity.
Qed.

(** With a row missing the comparison returns a dictionary. *)
Lemma compare_missing_row (id1 id2 : Z) (c : conn) :
  select_baseline id1 (view c) = None
  \/ select_baseline id2 (view c) = None
  \/ select_company id1 (view c) = None
  \/ select_company id2 (view c) = None ->
  compare_baselines id1 id2 c =
  (Return
     match select_baseline id1 (view c), select_baseline id2 (view c) with
     | Some _, Some _ =>
         Cmp.Error "Company totals not found for one or both baselines"
     | _, _ => Cmp.Error "One or both baselines not found"
     end, c).
Proof.
  intros Hmiss.
  unfold compare_baselines, bind, query, ret.
  destruct (select_baseline id1 (view c)) as [ b1 | ]; trivial.
  destruct (select_baseline id2 (view c)) as [ b2 | ]; trivial.
  destruct (select_company id1 (view c)) as [ t1 | ]; trivial.
  destruct (select_company id2 (view c)) as [ t2 | ]; trivial.
  destruct Hmiss as [ E | [ E | [ E | E ] ] ]; discriminate.
Qed.

(** C5.  When a baseline row or a company row is missing for either id,
    [compare_baselines] returns an error dictionary, whose message says
    which kind of row was not found, and raises nothing. *)
Theorem compare_missing_is_error (id1 id2 : Z) (c : conn) :
  select_baseline id1 (view c) = None
  \/ select_baseline id2 (view c) = None
  \/ select_company id1 (view c) = None
  \/ select_company id2 (view c) = None ->
  exists msg : string,
    compare_baselines id1 id2 c = (Return (Cmp.Error msg), c)
    /\ (msg = "One or both baselines not found"%string
        \/ msg = "Company totals not found for one or both baselines"%string).
Proof.
  intros Hmiss.
  unfold compare_baselines, bind, query, ret.
  destruct (select_baseline id1 (view c)) as [ b1 | ]; [ | eauto ].
  destruct (select_baseline id2 (view c)) as [ b2 | ]; [ | eauto ].
  destruct (select_company id1 (view c)) as [ t1 | ]; [ | eauto ].
  destruct (select_company id2 (view c)) as [ t2 | ]; [ | eauto ].
  destruct Hmiss as [ E | [ E | [ E | E ] ] ]; discriminate.
Qed.

End Comparator.

(** ** The progress report *)

Section Report.

Context `{PyRuntime}.
Local Open Scope float_scope.

(** Without its baseline row the report faults on [baseline_info[2]]. *)
Lemma report_without_baseline (bid : Z) (c : conn) :
  select_baseline bid (view c) = None ->
  generate_progress_report (Some bid) c = (Raise TypeError, c).
Proof.
  intros Hb. unfold generate_progress_report, report_for, bind, query, lift.
  now rewrite Hb.
Qed.

(** Without its company row it faults on [company_total[2]]. *)
Lemma report_without_company (bid : Z) (c : conn) (b : Baseline.row) :
  select_baseline bid (view c) = Some b ->
  select_company bid (view c) = None ->
  generate_progress_report (Some bid) c = (Raise TypeError, c).
Proof.
  intros Hb Ht. unfold generate_progress_report, report_for, bind, query, lift.
  now rewrite Hb, Ht.
Qed.

Lemma format_fetched_stored (x : float) :
  is_nan x = false -> format_fetched (fetched x) = Return (format_money x).
Proof. unfold fetched. now intros ->. Qed.

(** With a NULL total it faults on the format of that total. *)
Lemma report_on_null (bid : Z) (c : conn) (b : Baseline.row)
  (t : Company.row) :
  select_baseline bid (view c) = Some b ->
  select_company bid (view c) = Some t ->
  ~ company_stored t ->
  generate_progress_report (Some bid) c = (Raise TypeError, c).
Proof.
  intros Hb Ht Hnull.
  unfold generate_progress_report, report_for, bind, query, lift.
  rewrite Hb, Ht. unfold report_head, subscript, format_fetched, fetched.
  unfold company_stored in Hnull.
  destruct (is_nan (Company.total_current_month t)); trivial.
  destruct (is_nan (Company.total_following_month t)); trivial.
  destruct (is_nan (Company.grand_total t)); trivial.
  tauto.
Qed.

(** With no agents the average divides by zero. *)
Lemma report_without_agents (bid : Z) (c : conn) (b : Baseline.row)
  (t : Company.row) :
  select_baseline bid (view c) = Some b ->
  select_company bid (view c) = Some t ->
  company_stored t ->
  Company.total_agents t = 0%Z ->
  generate_progress_report (Some bid) c = (Raise ZeroDivisionError, c).
Proof.
  intros Hb Ht (Hc & Hf & Hg) Hn.
  unfold generate_progress_report, report_for, bind, query, lift.
  rewrite Hb, Ht. unfold report_head, subscript.
  rewrite !format_fetched_stored by assumption. now rewrite Hn.
Qed.

End Report.

(** * Worked examples *)

#[local] Existing Instance Sample.runtime.

Local Open Scope float_scope.

(** ** Instances of the theorems above *)


Lemma zero_to_five_hundred_witness :
  exists imp : Cmp.improvements,
    fst (compare_baselines 1 2 Sample.april) =
      Return (Cmp.Comparison
                {| Cmp.name := "March"; Cmp.date := "2024-03-01";
                   Cmp.grand_total := 0 |}
                {| Cmp.name := "April"; Cmp.date := "2024-03-01";
                   Cmp.grand_total := 500 |}
                imp)
    /\ Cmp.grand_total_percent imp = PyInt 0
    /\ Cmp.grand_total_delta imp = 500
    /\ Cmp.agent_change imp = 1%Z.
Proof.
  destruct (compare_computes_deltas 1 2 Sample.april
              {| Baseline.id := 1; Baseline.baseline_date := "2024-03-01";
                 Baseline.baseline_name := "March";
                 Baseline.description := "first import";
                 Baseline.created_at := "2024-03-01 09:00:00" |}
              {| Baseline.id := 2; Baseline.baseline_date := "2024-03-01";
                 Baseline.baseline_name := "April";
                 Baseline.description := "second import";
                 Baseline.created_at := "2024-03-01 09:00:00" |}
              {| Company.id := 1; Company.baseline_id := 1;
                 Company.total_current_month := 0;
                 Company.total_following_month := 0;
                 Company.grand_total := 0;
                 Company.total_agents := 0; Company.total_offices := 0;
                 Company.import_date := "2024-03-01";
                 Company.created_at := "2024-03-01 09:00:00" |}
              {| Company.id := 2; Company.baseline_id := 2;
                 Company.total_current_month := 500;
                 Company.total_following_month := 0;
                 Company.grand_total := 500;
                 Company.total_agents := 1; Company.total_offices := 1;
                 Company.import_date := "2024-03-01";
                 Company.created_at := "2024-03-01 09:00:00" |}
              eq_refl eq_refl eq_refl eq_refl
              (conj eq_refl (conj eq_refl eq_refl))
              (conj eq_refl (conj eq_refl eq_refl)))
    as (imp & Hrun & _ & _ & _ & Hagents & _ & _ & _ & _ & _ & _ & Hspec).
  exists imp. rewrite Hrun.
  destruct (Hspec eq_refl eq_refl) as [Hp Hd].
  repeat split; trivial.
Defined.

Lemma faulty_engine_witness :
  fst (_process_dataframe Sample.tenths 1 "march.xlsx" Sample.march_faulty)
    <> Return true
  /\ fst (_process_dataframe Sample.tenths 1 "march.xlsx" Sample.march_faulty)
     = Return false
  /\ durable (snd (_process_dataframe Sample.tenths 1 "march.xlsx"
                     Sample.march_faulty))
     = durable Sample.march_faulty.
Proof.
  assert (Hfail : fst (_process_dataframe Sample.tenths 1 "march.xlsx"
                         Sample.march_faulty) <> Return true)
    by (vm_compute; discriminate).
  destruct (failed_import_commits_nothing Sample.tenths 1 "march.xlsx"
              Sample.march_faulty Hfail) as (Hno & Hd & _).
  auto.
Defined.

Lemma unknown_id_witness :
  select_baseline 7 (view Sample.april) = None
  /\ exists msg : string,
       compare_baselines 1 7 Sample.april
       = (Return (Cmp.Error msg), Sample.april)
       /\ (msg = "One or both baselines not found"%string
           \/ msg
              = "Company totals not found for one or both baselines"%string).
Proof.
  split; [ reflexivity | ].
  apply (compare_missing_is_error 1 7 Sample.april).
  right. left. reflexivity.
Defined.



Lemma summary_sheet_witness :
  fst (_process_dataframe Sample.summary_only 1 "march.xlsx" Sample.march)
    = Return true
  /\ exists comp : Company.row,
       appended (view Sample.march) (view Sample.march_empty) [] [] [comp]
       /\ durable Sample.march_empty = view Sample.march_empty
       /\ Company.baseline_id comp = 1%Z
       /\ Company.total_current_month comp = 0
       /\ Company.total_following_month comp = 0
       /\ Company.grand_total comp = 0
       /\ Company.total_agents comp = 0%Z
       /\ Company.total_offices comp = 0%Z.
Proof.
  apply (import_of_skipped_rows Sample.summary_only 1 "march.xlsx"
           Sample.march "Agent Name").
  - reflexivity.
  - repeat constructor.
  - reflexivity.
  - reflexivity.
Defined.

(** A number followed by a word is no float literal, and reads as 0.0. *)
Example number_with_word_is_rejected :
  (forall x, ~ float_text "5 apples" x)
  /\ _safe_float (CStr "5 apples") = Return 0.
Proof.
  split; [ | reflexivity ].
  intros x Hx. apply float_of_str_text in Hx. discriminate.
Qed.

(** The office breakdown lists the offices by falling total: offices
    with the same total in table order, an office whose total is NULL
    last. *)
Example offices_by_falling_total :
  let c' := snd (_process_dataframe Sample.four_offices 1 "march.xlsx"
                   Sample.march) in
  map Office.office (office_totals (view c'))
  = ["North"; "West"; "South"; "East"]%string
  /\ map Office.office (select_offices 1 (view c'))
     = ["East"; "North"; "South"; "West"]%string.
Proof. cbv zeta. split; reflexivity. Qed.

(** ** Where the code departs from the specification *)


(** C2 as stated fails on totals that are not finite numbers.  After the
    import of [Sample.unbounded] (amounts inf and -inf) the company row's
    grand total is NaN, which SQLite stores as NULL: both baselines and
    both company rows exist, and [compare_baselines] raises [TypeError].
    After the import of [Sample.endless] (amount inf) the totals are
    stored and the comparison is returned, but its percentage for the
    current month is NaN. *)
Lemma comparison_of_infinite_totals :
  let start := snd (create_baseline "April" "second import" Sample.march) in
  let lost :=
    snd (_process_dataframe Sample.five_hundred 2 "april.xlsx"
           (snd (_process_dataframe Sample.unbounded 1 "march.xlsx"
                   start))) in
  let far :=
    snd (_process_dataframe Sample.five_hundred 2 "april.xlsx"
           (snd (_process_dataframe Sample.endless 1 "march.xlsx"
                   start))) in
  (exists (b1 b2 : Baseline.row) (t1 t2 : Company.row),
     select_baseline 1 (view lost) = Some b1
     /\ select_baseline 2 (view lost) = Some b2
     /\ select_company 1 (view lost) = Some t1
     /\ select_company 2 (view lost) = Some t2
     /\ is_nan (Company.grand_total t1) = true)
  /\ compare_baselines 1 2 lost = (Raise TypeError, lost)
  /\ exists (b1 b2 : Cmp.baseline_info) (imp : Cmp.improvements),
       fst (compare_baselines 1 2 far)
       = Return (Cmp.Comparison b1 b2 imp)
       /\ pynum_is_nan (Cmp.current_month_percent imp) = true.
Proof.
  cbv zeta.
  split; [ do 4 eexists; repeat split; reflexivity | ].
  split; [ reflexivity | ].
  do 3 eexists. split; reflexivity.
Qed.


(** C3 as stated fails: on an engine that faults at the second agent
    INSERT the import of [Sample.tenths] returns False, yet the first
    agent row stays in the connection's view without office or company
    rows, and the next commit (here the one of [create_baseline]) makes it
    durable. *)
Lemma failed_import_leaves_rows :
  let c' := snd (_process_dataframe Sample.tenths 1 "march.xlsx"
                   Sample.march_faulty) in
  fst (_process_dataframe Sample.tenths 1 "march.xlsx" Sample.march_faulty)
    = Return false
  /\ agent_performance (view Sample.march_faulty) = []
  /\ map Agent.agent_name (agent_performance (view c')) = ["Ann"%string]
  /\ office_totals (view c') = []
  /\ company_totals (view c') = []
  /\ map Agent.agent_name
       (agent_performance
          (durable (snd (create_baseline "April" "second import" c'))))
     = ["Ann"%string].
Proof. cbv zeta. repeat split; reflexivity. Qed.


(** C9: with the office column resolved and the office cell empty, the
    agent row's office is the text "nan", where the specification asks
    for "Unknown".  The same loop passes over a row whose agent cell is
    empty, and reads an empty amount as 0.0. *)
Theorem empty_office_cell_is_nan :
  let c' := snd (_process_dataframe Sample.no_office_cell 1 "march.xlsx"
                   Sample.march) in
  _find_column Sample.no_office_cell office_keywords = Some "Office"%string
  /\ isna (row_get Sample.header
             [CStr "Ann"; CFloat nan; CStr "100"; CStr "50"] "Office") = true
  /\ fst (_process_dataframe Sample.no_office_cell 1 "march.xlsx"
            Sample.march) = Return true
  /\ map Agent.office (agent_performance (view c')) = ["nan"%string]
  /\ normalize_row Sample.header "Agent Name" (Some "Office"%string)
       (Some "Current Month"%string) (Some "Following Month"%string)
       [CFloat nan; CStr "North"; CStr "100"; CStr "50"] = Return None
  /\ _safe_float (CFloat nan) = Return 0.
Proof. cbv zeta. repeat split; reflexivity. Qed.

(** C4: the report of a baseline imported with no agents raises
    [ZeroDivisionError] where the specification asks for a sentinel. *)
Lemma report_of_empty_import_raises :
  fst (_process_dataframe Sample.summary_only 1 "march.xlsx" Sample.march)
    = Return true
  /\ map Company.total_agents (company_totals (view Sample.march_empty))
     = [0%Z]
  /\ generate_progress_report (Some 1%Z) Sample.march_empty
     = (Raise ZeroDivisionError, Sample.march_empty).
Proof. repeat split; reflexivity. Qed.

(** C6: the report of an id that has no baseline row raises [TypeError]
    instead of returning a failure, while the same call without an id on
    an empty database returns a message. *)
Lemma report_of_unknown_id_raises :
  select_baseline 7 (view Sample.march) = None
  /\ generate_progress_report (Some 7%Z) Sample.march
     = (Raise TypeError, Sample.march)
  /\ generate_progress_report None (connect [])
     = (Return "❌ No baselines found. Please import data first."%string,
        connect []).
Proof. repeat split; reflexivity. Qed.


(** * Further properties *)

(** ** Resolving columns *)

Section ColumnResolver.

Import Text.

Lemma prefix_split (p s : string) :
  String.prefix p s = true <-> exists b, s = p ++ b.
Proof.
  revert s. induction p as [ | c p IH ]; intros s.
  - destruct s; simpl; split; eauto.
  - destruct s as [ | d s ]; simpl.
    + split; [ discriminate | intros [b E]; discriminate ].
    + destruct (ascii_dec c d) as [ -> | Hne ].
      * rewrite IH. split; intros [b E]; exists b.
        -- now rewrite E.
        -- now injection E.
      * split; [ discriminate | ].
        intros [b E]. injection E as E1 E2. congruence.
Qed.

Lemma contains_unfold (p s : string) :
  contains p s =
  if String.prefix p s then true
  else match s with
       | EmptyString => false
       | String _ r => contains p r
       end.
Proof. now destruct s. Qed.

(** [contains] decides [substring_of]. *)
Lemma contains_substring (p s : string) :
  contains p s = true <-> substring_of p s.
Proof.
  unfold substring_of.
  induction s as [ | d s IH ]; rewrite contains_unfold;
    destruct (String.prefix p _) eqn:Hp.
  - apply prefix_split in Hp as [b E].
    split; trivial. intros _. exists "", b. exact E.
  - split; [ discriminate | ].
    intros (a & b & E).
    destruct a as [ | x a ]; [ | discriminate ].
    simpl in E.
    assert (Ht : String.prefix p "" = true) by (apply prefix_split; eauto).
    congruence.
  - apply prefix_split in Hp as [b E].
    split; trivial. intros _. exists "", b. exact E.
  - rewrite IH. split.
    + intros (a & b & E). exists (String d a), b. simpl. now rewrite E.
    + intros (a & b & E).
      destruct a as [ | x a ].
      * simpl in E.
        assert (Ht : String.prefix p (String d s) = true)
          by (apply prefix_split; eauto).
        congruence.
      * simpl in E. injection E as _ E. eauto.
Qed.

Lemma existsb_names_column (names : list string) (label : string) :
  existsb (fun name => contains (lower name) (lower label)) names = true
  <-> names_column names label.
Proof.
  unfold names_column. rewrite existsb_exists.
  split; intros (name & Hin & Hc); exists name; split; trivial;
    now apply contains_substring.
Qed.

(** [find] returns the first element that passes the test. *)
Lemma find_first {A} (f : A -> bool) (l : list A) (x : A) :
  find f l = Some x ->
  exists pre post,
    l = (pre ++ x :: post)%list /\ f x = true
    /\ Forall (fun y => f y = false) pre.
Proof.
  induction l as [ | y l IH ]; simpl; [ discriminate | ].
  destruct (f y) eqn:Hy.
  - intros E. injection E as <-. exists [], l. auto.
  - intros E. destruct (IH E) as (pre & post & -> & Hx & Hpre).
    exists (y :: pre), post. auto.
Qed.

(** X1.  A resolved column is the first label of the header, in header
    order, whose lowercased text contains one of the keywords lowercased:
    no label before it contains any keyword, whatever the rank of the
    keyword that matched. *)
Theorem find_column_first_match (df : dataframe) (names : list string)
  (label : string) :
  _find_column df names = Some label ->
  exists pre post : list string,
    columns df = (pre ++ label :: post)%list
    /\ names_column names label
    /\ Forall (fun earlier => ~ names_column names earlier) pre.
Proof.
  unfold _find_column. intros Hfind.
  apply find_first in Hfind as (pre & post & Hcols & Hhit & Hpre).
  exists pre, post. repeat split; trivial.
  - now apply existsb_names_column.
  - eapply Forall_impl; [ | exact Hpre ].
    intros earlier Hno Hyes. apply existsb_names_column in Hyes.
    simpl in Hno. congruence.
Qed.

(** X2.  A column is unresolved exactly when no label of the header
    contains any keyword. *)
Theorem find_column_unresolved (df : dataframe) (names : list string) :
  _find_column df names = None
  <-> Forall (fun label => ~ names_column names label) (columns df).
Proof.
  unfold _find_column. split.
  - intros Hnone. apply Forall_forall. intros label Hin Hyes.
    apply existsb_names_column in Hyes.
    now rewrite (find_none _ _ Hnone label Hin) in Hyes.
  - intros Hall.
    destruct (find _ (columns df)) as [ label | ] eqn:Hfind; trivial.
    apply find_some in Hfind as [Hin Hhit].
    rewrite Forall_forall in Hall.
    apply existsb_names_column in Hhit.
    now destruct (Hall label Hin).
Qed.

(** X3.  The order and the repetition of the keywords play no part: two
    keyword lists with the same members resolve the same column. *)
Theorem find_column_keyword_order (df : dataframe)
  (names names' : list string) :
  (forall name, In name names <-> In name names') ->
  _find_column df names = _find_column df names'.
Proof.
  intros Hsame. unfold _find_column.
  induction (columns df) as [ | label rest IH ]; simpl; trivial.
  assert (Heq : existsb (fun name => contains (lower name) (lower label))
                  names
                = existsb (fun name => contains (lower name) (lower label))
                    names').
  { apply eq_true_iff_eq. rewrite !existsb_exists.
    split; intros (name & Hin & Hc); exists name; split; trivial;
      now apply Hsame. }
  now rewrite Heq, IH.
Qed.

(** A resolved label is not empty when no keyword is, so the test
    [if not agent_col] fires only on [None]. *)
Lemma find_column_nonempty (df : dataframe) (names : list string)
  (label : string) :
  Forall (fun name => name <> "") names ->
  _find_column df names = Some label -> label <> "".
Proof.
  intros Hne Hfind ->.
  unfold _find_column in Hfind. apply find_some in Hfind as [_ Hhit].
  apply existsb_exists in Hhit as (name & Hin & Hc).
  rewrite Forall_forall in Hne. apply (Hne name Hin).
  destruct name as [ | ch name ]; trivial.
  simpl in Hc. discriminate.
Qed.

End ColumnResolver.

(** ** Grouping by office *)

Section Grouping.

Import Text.
Context `{PyRuntime}.
Local Open Scope float_scope.

Lemma mem_In (x : string) (l : list string) : mem x l = true <-> In x l.
Proof.
  unfold mem. rewrite existsb_exists. split.
  - intros (y & Hin & E). apply String.eqb_eq in E. now subst.
  - intros Hin. exists x. split; trivial. apply String.eqb_refl.
Qed.

Lemma first_seen_snoc (l : list string) (x : string) :
  first_seen (l ++ [x]) = add_name (first_seen l) x.
Proof. unfold first_seen. now rewrite fold_left_app. Qed.

Lemma first_seen_In (l : list string) (x : string) :
  In x (first_seen l) <-> In x l.
Proof.
  induction l as [ | y l IH ] using rev_ind; [ reflexivity | ].
  rewrite first_seen_snoc, in_app_iff. unfold add_name.
  destruct (mem y (first_seen l)) eqn:Hm.
  - apply mem_In in Hm. rewrite IH in *. simpl.
    intuition (subst; auto).
  - rewrite in_app_iff, IH. reflexivity.
Qed.

Lemma first_seen_NoDup (l : list string) : NoDup (first_seen l).
Proof.
  induction l as [ | y l IH ] using rev_ind; [ constructor | ].
  rewrite first_seen_snoc. unfold add_name.
  destruct (mem y (first_seen l)) eqn:Hm; trivial.
  apply NoDup_app; trivial.
  - repeat constructor. simpl. tauto.
  - intros x Hx [ <- | [] ].
    apply mem_In in Hx. congruence.
Qed.

Lemma dict_mem_keys (ags : list Agent.row) (o : string)
  (keys : list string) :
  dict_mem o (map (office_entry ags) keys) = mem o keys.
Proof.
  induction keys as [ | k keys IH ]; simpl; trivial.
  now rewrite IH.
Qed.

Lemma dict_update_keys (ags : list Agent.row) (o : string)
  (f : acc -> acc) (keys : list string) :
  NoDup keys ->
  dict_update o f (map (office_entry ags) keys) =
  map (fun k => if String.eqb o k then (k, f (snd (office_entry ags k)))
                else office_entry ags k) keys.
Proof.
  induction 1 as [ | k keys Hk Hnd IH ]; simpl; trivial.
  destruct (String.eqb o k) eqn:E.
  - apply String.eqb_eq in E. subst k. f_equal.
    clear IH. induction keys as [ | k keys IHk ]; simpl; trivial.
    assert (Hne : String.eqb o k = false).
    { apply String.eqb_neq. intros ->. apply Hk. now left. }
    rewrite Hne. f_equal. apply IHk.
    + intros Hin. apply Hk. now right.
    + now inversion Hnd.
  - now rewrite IH.
Qed.

Lemma dict_update_app (d1 d2 : office_dict) (o : string) (f : acc -> acc) :
  dict_mem o d1 = false ->
  dict_update o f (d1 ++ d2)%list = (d1 ++ dict_update o f d2)%list.
Proof.
  induction d1 as [ | [k v] d1 IH ]; simpl; trivial.
  intros Hno. apply orb_false_iff in Hno as [Hk Hrest].
  now rewrite Hk, IH.
Qed.

Lemma of_office_snoc (office : string) (ags : list Agent.row)
  (r : Agent.row) :
  of_office office (ags ++ [r]) =
  (of_office office ags
   ++ if String.eqb (Agent.office r) office then [r] else [])%list.
Proof. unfold of_office. now rewrite filter_app. Qed.

Lemma py_sum_snoc (xs : list float) (x : float) :
  py_sum (xs ++ [x]) = py_sum xs + x.
Proof. unfold py_sum. now rewrite fold_left_app. Qed.

(** One more agent row: its office's office_entry grows, a new office gets an
    office_entry at the end, the others stay. *)
Lemma tally_entry (ags : list Agent.row) (r : Agent.row) :
  tally (map (office_entry ags) (first_seen (map Agent.office ags))) r =
  map (office_entry (ags ++ [r])) (first_seen (map Agent.office (ags ++ [r]))).
Proof.
  unfold tally, accumulate.
  replace (map Agent.office (ags ++ [r]))
    with (map Agent.office ags ++ [Agent.office r])%list
    by (now rewrite map_app).
  rewrite first_seen_snoc. unfold add_name.
  rewrite dict_mem_keys.
  set (keys := first_seen (map Agent.office ags)).
  assert (Hnd : NoDup keys) by apply first_seen_NoDup.
  assert (Hother : forall k, String.eqb (Agent.office r) k = false ->
                             office_entry ags k = office_entry (ags ++ [r]) k).
  { intros k Hk. unfold office_entry. rewrite of_office_snoc, Hk.
    now rewrite app_nil_r. }
  assert (Hsame : forall k, String.eqb (Agent.office r) k = true ->
            (k, {| current :=
                     current (snd (office_entry ags k))
                     + Agent.current_month_promised r;
                   following :=
                     following (snd (office_entry ags k))
                     + Agent.following_month_promised r;
                   agents := (agents (snd (office_entry ags k)) + 1)%Z |})
            = office_entry (ags ++ [r]) k).
  { intros k Hk. unfold office_entry. rewrite of_office_snoc, Hk. simpl.
    rewrite !map_app. cbn [map].
    rewrite !py_sum_snoc, length_app. cbn [List.length].
    do 2 f_equal. lia. }
  destruct (mem (Agent.office r) keys) eqn:Hm; simpl.
  - rewrite dict_update_keys by trivial.
    apply map_ext. intros k.
    destruct (String.eqb (Agent.office r) k) eqn:Hk; auto.
  - assert (Hfresh : of_office (Agent.office r) ags = []).
    { unfold of_office.
      destruct (filter _ ags) as [ | x rest ] eqn:Hf; trivial.
      assert (Hx : In x (filter
                 (fun r0 => String.eqb (Agent.office r0) (Agent.office r))
                 ags)) by (rewrite Hf; now left).
      apply filter_In in Hx as [Hin Hx].
      apply String.eqb_eq in Hx.
      assert (Hkey : In (Agent.office r) keys).
      { apply first_seen_In. rewrite <- Hx. now apply in_map. }
      apply mem_In in Hkey. congruence. }
    change (map (office_entry ags) keys
            ++ [(Agent.office r,
                 {| current := 0; following := 0; agents := 0 |})])%list
      with (map (office_entry ags) keys
            ++ map (fun k => (k, {| current := 0; following := 0;
                                    agents := 0 |}))
                 [Agent.office r])%list.
    rewrite map_app.
    rewrite dict_update_app by (now rewrite dict_mem_keys).
    f_equal.
    + apply map_ext_in. intros k Hin. apply Hother.
      apply String.eqb_neq. intros <-. apply mem_In in Hin. congruence.
    + simpl. rewrite String.eqb_refl. f_equal.
      unfold office_entry.
      rewrite of_office_snoc, String.eqb_refl, Hfresh. simpl.
      reflexivity.
Qed.

(** The dictionary the loop builds from no entries: one office_entry per office
    in order of first appearance, holding the office's sums and count. *)
Lemma tally_groups (ags : list Agent.row) :
  fold_left tally ags [] =
  map (office_entry ags) (first_seen (map Agent.office ags)).
Proof.
  change (@nil (string * acc))
    with (map (office_entry []) (first_seen (map Agent.office []))).
  change ags with ([] ++ ags)%list at 2 3.
  generalize (@nil Agent.row) as done.
  induction ags as [ | r ags IH ]; intros done; simpl.
  - now rewrite app_nil_r.
  - fold (tally (map (office_entry done)
                   (first_seen (map Agent.office done))) r).
    rewrite tally_entry, IH, <- app_assoc. reflexivity.
Qed.

End Grouping.

(** ** What a successful import writes *)

Section ImportContents.

Import Text.
Context `{PyRuntime}.
Local Open Scope float_scope.

Lemma kept_names_cons (cols : list string) (agent_col : string)
  (row : list cell) (rest : list (list cell)) :
  kept_names cols agent_col (row :: rest) =
  if mem (lower (strip (py_str (row_get cols row agent_col)))) skipped_names
  then kept_names cols agent_col rest
  else (strip (py_str (row_get cols row agent_col))
        :: kept_names cols agent_col rest)%list.
Proof.
  unfold kept_names. cbn [map filter].
  now destruct (mem _ skipped_names).
Qed.

(** The first loop, with what it leaves in its two variables. *)
Lemma process_rows_tally (bid : Z) (date : string) (cols : list string)
  (agent_col : string) (office_col current_col following_col : option string)
  (rs : list (list cell)) :
  forall (n n' : Z) (d d' : office_dict) (c c' : conn),
  process_rows bid date cols agent_col office_col current_col following_col
    rs n d c = (Return (n', d'), c') ->
  exists ags : list Agent.row,
    appended (view c) (view c') ags [] []
    /\ n' = (n + Z.of_nat (List.length ags))%Z
    /\ d' = fold_left tally ags d
    /\ map Agent.agent_name ags = kept_names cols agent_col rs.
Proof.
  induction rs as [ | row rest IH ]; intros n n' d d' c c'; simpl.
  - unfold ret. intros E. injection E as <- <- <-.
    exists []. repeat split; rewrite ?app_nil_r; simpl; auto. lia.
  - intros E. apply bind_returns in E as (r & c1 & Hr & E).
    unfold lift in Hr. injection Hr as Hr <-.
    rewrite kept_names_cons.
    destruct r as [ a | ].
    + apply bind_returns in E as (u & c2 & Hx & E).
      apply execute_returns in Hx as (Hv & _ & _).
      apply IH in E as (ags & [Hb Ha Ho Hc] & Hn & Hd & Hnames).
      destruct (normalize_row_fields _ _ _ _ _ row a Hr)
        as (Hname & Hkept & _).
      rewrite Hv in Hb, Ha, Ho, Hc. simpl in Hb, Ha, Ho, Hc.
      eexists (_ :: ags).
      split; [ | split; [ | split ] ].
      * constructor; simpl; rewrite ?app_nil_r in *; trivial.
        rewrite Ha, <- app_assoc. reflexivity.
      * simpl List.length. lia.
      * exact Hd.
      * rewrite <- Hname, Hkept. simpl. now rewrite Hnames.
    + apply normalize_row_skips in Hr. rewrite Hr.
      now apply IH in E.
Qed.

(** The second loop writes the dictionary, entry by entry. *)
Lemma insert_office_totals_entries (bid : Z) (date : string)
  (d : office_dict) :
  forall (c c' : conn) (u : unit),
  insert_office_totals bid date d c = (Return u, c') ->
  exists offs : list Office.row,
    appended (view c) (view c') [] offs []
    /\ map (fun o => (Office.office o,
                      {| current := Office.current_month_total o;
                         following := Office.following_month_total o;
                         agents := Office.agent_count o |})) offs = d.
Proof.
  unfold insert_office_totals.
  induction d as [ | [office [cur fol n]] rest IH ]; intros c c' u; simpl.
  - unfold ret. intros E. injection E as _ <-.
    exists []. repeat split; rewrite ?app_nil_r; auto.
  - intros E. apply bind_returns in E as (u1 & c1 & Hx & E).
    apply execute_returns in Hx as (Hv & _ & _).
    apply IH in E as (offs & [Hb Ha Ho Hc] & Hd).
    rewrite Hv in Hb, Ha, Ho, Hc. simpl in Hb, Ha, Ho, Hc.
    eexists (_ :: offs). split.
    + constructor; simpl; rewrite ?app_nil_r in *; trivial.
      rewrite Ho, <- app_assoc. reflexivity.
    + simpl. now rewrite Hd.
Qed.

(** The steps of a successful import, with the agent column it used. *)
Lemma import_success_run (df : dataframe) (bid : Z) (fp : string)
  (c : conn) :
  fst (_process_dataframe df bid fp c) = Return true ->
  exists (agent_col : string) (n : Z) (d : office_dict) (c1 c2 c3 : conn),
    _find_column df agent_keywords = Some agent_col
    /\ process_rows bid date_today (columns df) agent_col
         (_find_column df office_keywords)
         (_find_column df current_keywords)
         (_find_column df following_keywords) (rows df) 0%Z [] c
       = (Return (n, d), c1)
    /\ insert_office_totals bid date_today d c1 = (Return tt, c2)
    /\ execute
         (insert_company bid
            (py_sum (map (fun kv => current (snd kv)) d))
            (py_sum (map (fun kv => following (snd kv)) d))
            (py_sum (map (fun kv => current (snd kv)) d)
             + py_sum (map (fun kv => following (snd kv)) d))
            n (Z.of_nat (List.length d)) date_today) c2
       = (Return tt, c3)
    /\ commit c3 = (Return tt, snd (_process_dataframe df bid fp c)).
Proof.
  unfold _process_dataframe, try_catch. cbv zeta.
  destruct (_find_column df agent_keywords) as [ [ | ch s ] | ];
    try (simpl; discriminate).
  match goal with
  | |- context [ match ?run with _ => _ end ] =>
      destruct run as [ [ b | e ] c' ] eqn:E
  end; simpl; [ | discriminate ].
  intros Hb. injection Hb as ->.
  apply bind_returns in E as ([n d] & c1 & Hloop & E).
  apply bind_returns in E as ([] & c2 & Hoff & E).
  apply bind_returns in E as ([] & c3 & Hcomp & E).
  apply bind_returns in E as ([] & c4 & Hcommit & E).
  unfold ret in E. injection E as <-.
  exists (String ch s), n, d, c1, c2, c3. auto.
Qed.

(** A successful import, in one statement: the agent rows are those of
    the kept sheet rows, the office rows are the entries these agent rows
    give their offices in order of first appearance, and the company row
    counts both. *)
Lemma import_success_shape (df : dataframe) (bid : Z) (fp : string)
  (c : conn) :
  fst (_process_dataframe df bid fp c) = Return true ->
  exists (agent_col : string) (ags : list Agent.row)
         (offs : list Office.row) (comp : Company.row),
    _find_column df agent_keywords = Some agent_col
    /\ appended (view c) (view (snd (_process_dataframe df bid fp c)))
         ags offs [comp]
    /\ map Agent.agent_name ags
       = kept_names (columns df) agent_col (rows df)
    /\ map (fun o => (Office.office o,
                      {| current := Office.current_month_total o;
                         following := Office.following_month_total o;
                         agents := Office.agent_count o |})) offs
       = map (office_entry ags) (first_seen (map Agent.office ags))
    /\ Company.total_agents comp = Z.of_nat (List.length ags)
    /\ Company.total_offices comp = Z.of_nat (List.length offs)
    /\ Company.baseline_id comp = bid.
Proof.
  intros Hok.
  destruct (import_success_run df bid fp c Hok)
    as (agent_col & n & d & c1 & c2 & c3
        & Hcol & Hloop & Hoff & Hcomp & Hcommit).
  apply process_rows_tally in Hloop
    as (ags & [Hb1 Ha1 Ho1 Hc1] & Hn & Hd & Hnames).
  apply insert_office_totals_entries in Hoff
    as (offs & [Hb2 Ha2 Ho2 Hc2] & Hentries).
  apply execute_returns in Hcomp as (Hv3 & _ & _).
  apply commit_returns in Hcommit as (Hv4 & _).
  rewrite app_nil_r in *.
  rewrite tally_groups in Hd.
  eexists agent_col, ags, offs, _.
  split; [ exact Hcol | ].
  split; [ constructor | ]; rewrite ?Hv4, ?Hv3; simpl.
  - congruence.
  - congruence.
  - congruence.
  - rewrite Hc2, Hc1. reflexivity.
  - split; [ exact Hnames | ].
    split; [ congruence | ].
    split; simpl; [ lia | ].
    split; [ | reflexivity ].
    now rewrite <- Hentries, length_map.
Qed.

Lemma sum_agents_update (o : string) (f : acc -> acc) (d : office_dict) :
  (forall v, agents (f v) = agents v + 1)%Z ->
  dict_mem o d = true ->
  sum_agents (dict_update o f d) = (sum_agents d + 1)%Z.
Proof.
  intros Hf. induction d as [ | [k v] d IH ]; simpl; [ discriminate | ].
  destruct (String.eqb o k); simpl; intros Hm.
  - rewrite Hf. lia.
  - rewrite IH by trivial. lia.
Qed.

Lemma sum_agents_app (d1 d2 : office_dict) :
  sum_agents (d1 ++ d2)%list = (sum_agents d1 + sum_agents d2)%Z.
Proof.
  induction d1 as [ | kv d1 IH ]; simpl; [ reflexivity | ].
  rewrite IH. lia.
Qed.

Lemma dict_mem_app (o : string) (d1 d2 : office_dict) :
  dict_mem o (d1 ++ d2)%list = (dict_mem o d1 || dict_mem o d2)%bool.
Proof.
  induction d1 as [ | [k v] d1 IH ]; simpl; trivial.
  now rewrite IH, orb_assoc.
Qed.

(** Every agent row adds one to the counts of the dictionary. *)
Lemma sum_agents_tally (d : office_dict) (r : Agent.row) :
  sum_agents (tally d r) = (sum_agents d + 1)%Z.
Proof.
  unfold tally, accumulate.
  destruct (dict_mem (Agent.office r) d) eqn:Hm; simpl.
  - now apply sum_agents_update.
  - rewrite sum_agents_update; trivial.
    + rewrite sum_agents_app. simpl. lia.
    + rewrite dict_mem_app. simpl. rewrite String.eqb_refl.
      apply orb_true_r.
Qed.

Lemma sum_agents_fold (ags : list Agent.row) :
  forall d : office_dict,
  sum_agents (fold_left tally ags d)
  = (sum_agents d + Z.of_nat (List.length ags))%Z.
Proof.
  induction ags as [ | r ags IH ]; intros d; simpl fold_left.
  - simpl. lia.
  - rewrite IH, sum_agents_tally. simpl List.length. lia.
Qed.

(** X4.  A successful import writes one agent row per sheet row whose
    agent cell is not blank or a summary word, in sheet order, named by
    the trimmed text of that cell; the company row's [total_agents] is the
    number of these rows (two rows with one name count twice). *)
Theorem import_keeps_sheet_rows (df : dataframe) (bid : Z) (fp : string)
  (c : conn) :
  fst (_process_dataframe df bid fp c) = Return true ->
  exists (agent_col : string) (ags : list Agent.row)
         (offs : list Office.row) (comp : Company.row),
    _find_column df agent_keywords = Some agent_col
    /\ appended (view c) (view (snd (_process_dataframe df bid fp c)))
         ags offs [comp]
    /\ map Agent.agent_name ags
       = kept_names (columns df) agent_col (rows df)
    /\ Company.total_agents comp = Z.of_nat (List.length ags).
Proof.
  intros Hok.
  destruct (import_success_shape df bid fp c Hok)
    as (agent_col & ags & offs & comp & Hcol & Hw & Hnames & _ & Hn & _).
  exists agent_col, ags, offs, comp. auto.
Qed.

(** X5.  A successful import writes one office row per distinct office
    name among its agent rows, compared exactly, in the order in which the
    names first appear; the company row's [total_offices] is the number of
    office rows. *)
Theorem import_groups_by_office (df : dataframe) (bid : Z) (fp : string)
  (c : conn) :
  fst (_process_dataframe df bid fp c) = Return true ->
  exists (ags : list Agent.row) (offs : list Office.row)
         (comp : Company.row),
    appended (view c) (view (snd (_process_dataframe df bid fp c)))
      ags offs [comp]
    /\ map Office.office offs = first_seen (map Agent.office ags)
    /\ NoDup (map Office.office offs)
    /\ (forall name, In name (map Office.office offs)
                     <-> In name (map Agent.office ags))
    /\ Company.total_offices comp = Z.of_nat (List.length offs).
Proof.
  intros Hok.
  destruct (import_success_shape df bid fp c Hok)
    as (agent_col & ags & offs & comp & _ & Hw & _ & Hentries & _ & Hn & _).
  assert (Hnames : map Office.office offs
                   = first_seen (map Agent.office ags)).
  { apply (f_equal (map fst)) in Hentries.
    rewrite !map_map in Hentries. simpl in Hentries.
    now rewrite map_id in Hentries. }
  exists ags, offs, comp.
  split; [ exact Hw | ]. split; [ exact Hnames | ].
  split; [ rewrite Hnames; apply first_seen_NoDup | ].
  split; [ | exact Hn ].
  intros name. rewrite Hnames. apply first_seen_In.
Qed.

(** X6.  In a successful import every office row holds the figures of
    the import's agent rows of that office: their number, and the sums of
    their current and of their following amounts, added left to right in
    sheet order starting from zero. *)
Theorem import_office_figures (df : dataframe) (bid : Z) (fp : string)
  (c : conn) :
  fst (_process_dataframe df bid fp c) = Return true ->
  exists (ags : list Agent.row) (offs : list Office.row)
         (comp : Company.row),
    appended (view c) (view (snd (_process_dataframe df bid fp c)))
      ags offs [comp]
    /\ Forall
         (fun o =>
            let mine := of_office (Office.office o) ags in
            Office.agent_count o = Z.of_nat (List.length mine)
            /\ Office.current_month_total o
               = py_sum (map Agent.current_month_promised mine)
            /\ Office.following_month_total o
               = py_sum (map Agent.following_month_promised mine))
         offs.
Proof.
  intros Hok.
  destruct (import_success_shape df bid fp c Hok)
    as (agent_col & ags & offs & comp & _ & Hw & _ & Hentries & _ & _).
  exists ags, offs, comp. split; trivial.
  clear Hw. revert Hentries.
  generalize (first_seen (map Agent.office ags)) as keys.
  induction offs as [ | o offs IH ]; intros keys Hentries; constructor.
  - destruct keys as [ | k keys ]; [ discriminate | ].
    simpl in Hentries. injection Hentries as Hk Hcur Hfol Hn _.
    cbv zeta. rewrite Hk. auto.
  - destruct keys as [ | k keys ]; [ discriminate | ].
    simpl in Hentries. injection Hentries as _ _ _ _ Hrest.
    now apply (IH keys).
Qed.

(** X7.  In a successful import the agent counts of the office rows add
    up to the company row's [total_agents]. *)
Theorem import_counts_add_up (df : dataframe) (bid : Z) (fp : string)
  (c : conn) :
  fst (_process_dataframe df bid fp c) = Return true ->
  exists (ags : list Agent.row) (offs : list Office.row)
         (comp : Company.row),
    appended (view c) (view (snd (_process_dataframe df bid fp c)))
      ags offs [comp]
    /\ sum_agent_count offs = Company.total_agents comp.
Proof.
  intros Hok.
  destruct (import_success_shape df bid fp c Hok)
    as (agent_col & ags & offs & comp & _ & Hw & _ & Hentries & Hn & _).
  exists ags, offs, comp. split; trivial.
  rewrite Hn, <- tally_groups in *.
  pose proof (sum_agents_fold ags []) as Hsum.
  rewrite <- Hentries in Hsum. simpl in Hsum. rewrite <- Hsum.
  clear. induction offs as [ | o offs IH ]; simpl; [ reflexivity | ].
  now rewrite IH.
Qed.

End ImportContents.

(** ** Imports only append *)

Section AppendOnly.

Context `{PyRuntime}.

Lemma appended_refl (t : tables) : appended t t [] [] [].
Proof. constructor; now rewrite ?app_nil_r. Qed.

Lemma appended_trans (t1 t2 t3 : tables) ags offs comps ags' offs' comps' :
  appended t1 t2 ags offs comps ->
  appended t2 t3 ags' offs' comps' ->
  appended t1 t3 (ags ++ ags') (offs ++ offs') (comps ++ comps').
Proof.
  intros [Hb Ha Ho Hc] [Hb' Ha' Ho' Hc'].
  constructor; rewrite ?app_assoc; congruence.
Qed.

Lemma only_appends_ret {A} (a : A) : only_appends (ret a).
Proof. intros c. exists [], [], []. apply appended_refl. Qed.

Lemma only_appends_lift {A} (o : outcome A) : only_appends (lift o).
Proof. intros c. exists [], [], []. apply appended_refl. Qed.

Lemma only_appends_bind {A B} (m : M A) (k : A -> M B) :
  only_appends m -> (forall a, only_appends (k a)) ->
  only_appends (bind m k).
Proof.
  intros Hm Hk c. unfold bind.
  destruct (Hm c) as (ags & offs & comps & Hw).
  destruct (m c) as [ [ a | e ] c1 ]; simpl in Hw.
  - destruct (Hk a c1) as (ags' & offs' & comps' & Hw').
    eauto using appended_trans.
  - eauto.
Qed.

Lemma only_appends_try {A} (body : M A) (handler : exn -> M A) :
  only_appends body -> (forall e, only_appends (handler e)) ->
  only_appends (try_catch body handler).
Proof.
  intros Hb Hh c. unfold try_catch.
  destruct (Hb c) as (ags & offs & comps & Hw).
  destruct (body c) as [ [ a | e ] c1 ]; simpl in Hw.
  - eauto.
  - destruct (Hh e c1) as (ags' & offs' & comps' & Hw').
    eauto using appended_trans.
Qed.

Lemma only_appends_commit : only_appends commit.
Proof.
  intros c. exists [], [], []. unfold commit.
  destruct (oracle c) as [ | [ | ] o ]; apply appended_refl.
Qed.

Lemma only_appends_agent bid name off cur fol tot date :
  only_appends (execute (insert_agent bid name off cur fol tot date)).
Proof.
  intros c. unfold execute.
  destruct (oracle c) as [ | [ | ] o ]; simpl;
    try (exists [], [], []; apply appended_refl);
    eexists [_], [], []; constructor; simpl; now rewrite ?app_nil_r.
Qed.

Lemma only_appends_office bid off cur fol grand n date :
  only_appends (execute (insert_office bid off cur fol grand n date)).
Proof.
  intros c. unfold execute.
  destruct (oracle c) as [ | [ | ] o ]; simpl;
    try (exists [], [], []; apply appended_refl);
    eexists [], [_], []; constructor; simpl; now rewrite ?app_nil_r.
Qed.

Lemma only_appends_company bid cur fol grand n k date :
  only_appends (execute (insert_company bid cur fol grand n k date)).
Proof.
  intros c. unfold execute.
  destruct (oracle c) as [ | [ | ] o ]; simpl;
    try (exists [], [], []; apply appended_refl);
    eexists [], [], [_]; constructor; simpl; now rewrite ?app_nil_r.
Qed.

Lemma only_appends_rows bid date cols agent_col office_col current_col
  following_col (rs : list (list cell)) :
  forall (n : Z) (d : office_dict),
  only_appends (process_rows bid date cols agent_col office_col current_col
                  following_col rs n d).
Proof.
  induction rs as [ | row rest IH ]; intros n d; simpl.
  - apply only_appends_ret.
  - apply only_appends_bind; [ apply only_appends_lift | ].
    intros [ a | ]; [ | apply IH ].
    apply only_appends_bind; [ apply only_appends_agent | ].
    intros _. apply IH.
Qed.

Lemma only_appends_offices bid date (d : office_dict) :
  only_appends (insert_office_totals bid date d).
Proof.
  unfold insert_office_totals.
  induction d as [ | [office totals] rest IH ]; simpl.
  - apply only_appends_ret.
  - apply only_appends_bind; [ apply only_appends_office | ].
    intros _. apply IH.
Qed.

Lemma only_appends_import (df : dataframe) (bid : Z) (fp : string) :
  only_appends (_process_dataframe df bid fp).
Proof.
  unfold _process_dataframe. cbv zeta.
  apply only_appends_try; [ | intros e; apply only_appends_ret ].
  destruct (_find_column df agent_keywords) as [ [ | ch s ] | ];
    try apply only_appends_ret.
  apply only_appends_bind; [ apply only_appends_rows | ].
  intros [n d].
  apply only_appends_bind; [ apply only_appends_offices | ].
  intros _.
  apply only_appends_bind; [ apply only_appends_company | ].
  intros _.
  apply only_appends_bind; [ apply only_appends_commit | ].
  intros _. apply only_appends_ret.
Qed.

(** X8.  Whether it succeeds, fails on the agent column or is cut short
    by a database fault, an import never alters or removes a row that was
    there and never touches the baselines: what the connection shows
    afterwards is what it showed before, with rows added at the end of the
    agent, office and company tables. *)
Theorem import_only_appends (df : dataframe) (bid : Z) (fp : string)
  (c : conn) :
  exists (ags : list Agent.row) (offs : list Office.row)
         (comps : list Company.row),
    appended (view c) (view (snd (_process_dataframe df bid fp c)))
      ags offs comps.
Proof. apply only_appends_import. Qed.

Lemma find_app_some {A} (f : A -> bool) (l l' : list A) (x : A) :
  find f l = Some x -> find f (l ++ l') = Some x.
Proof.
  induction l as [ | y l IH ]; simpl; [ discriminate | ].
  now destruct (f y).
Qed.

(** The comparison reads four rows and nothing else. *)
Lemma compare_reads_four_rows (id1 id2 : Z) (c c' : conn) :
  select_baseline id1 (view c') = select_baseline id1 (view c) ->
  select_baseline id2 (view c') = select_baseline id2 (view c) ->
  select_company id1 (view c') = select_company id1 (view c) ->
  select_company id2 (view c') = select_company id2 (view c) ->
  fst (compare_baselines id1 id2 c') = fst (compare_baselines id1 id2 c).
Proof.
  intros Hb1 Hb2 Ht1 Ht2.
  unfold compare_baselines, bind, query, lift, ret.
  rewrite Hb1, Hb2.
  destruct (select_baseline id1 (view c)) as [ b1 | ]; trivial.
  destruct (select_baseline id2 (view c)) as [ b2 | ]; trivial.
  rewrite Ht1, Ht2.
  destruct (select_company id1 (view c)) as [ t1 | ]; trivial.
  destruct (select_company id2 (view c)) as [ t2 | ]; trivial.
Qed.

(** X9.  A comparison that has succeeded keeps its result through any
    later import, also one into the compared baselines: the import appends
    its company row, and the comparison goes on reading the first one. *)
Theorem comparison_survives_import (id1 id2 : Z) (c : conn)
  (b1 b2 : Cmp.baseline_info) (imp : Cmp.improvements)
  (df : dataframe) (bid : Z) (fp : string) :
  fst (compare_baselines id1 id2 c) = Return (Cmp.Comparison b1 b2 imp) ->
  fst (compare_baselines id1 id2 (snd (_process_dataframe df bid fp c)))
  = Return (Cmp.Comparison b1 b2 imp).
Proof.
  intros Hcmp.
  destruct (only_appends_import df bid fp c)
    as (ags & offs & comps & [Hb Ha Ho Hc]).
  assert (Hrows : exists r1 r2,
             select_company id1 (view c) = Some r1
             /\ select_company id2 (view c) = Some r2).
  { unfold compare_baselines, bind, query, lift, ret in Hcmp.
    destruct (select_baseline id1 (view c)); [ | discriminate ].
    destruct (select_baseline id2 (view c)); [ | discriminate ].
    destruct (select_company id1 (view c)); [ | discriminate ].
    destruct (select_company id2 (view c)); [ | discriminate ].
    eauto. }
  destruct Hrows as (r1 & r2 & Hr1 & Hr2).
  rewrite <- Hcmp. apply compare_reads_four_rows.
  - unfold select_baseline. now rewrite Hb.
  - unfold select_baseline. now rewrite Hb.
  - unfold select_company in *. rewrite Hc, Hr1. now apply find_app_some.
  - unfold select_company in *. rewrite Hc, Hr2. now apply find_app_some.
Qed.

End AppendOnly.

(** ** Creating baselines *)

Section Baselines.

Context `{PyRuntime}.

(** The run of [create_baseline] on an engine that lets its two
    statements through. *)
Lemma create_baseline_run (name descr : string) (c : conn) :
  nth 0 (oracle c) false = false ->
  nth 1 (oracle c) false = false ->
  create_baseline name descr c =
  (Return (next_id (baselines (view c))),
   {| view := insert_baseline date_today name descr (view c);
      durable := insert_baseline date_today name descr (view c);
      oracle := tl (tl (oracle c)) |}).
Proof.
  intros Ho0 Ho1. unfold create_baseline. cbv zeta.
  unfold bind at 1. rewrite (execute_no_fault _ c Ho0).
  unfold bind at 1. unfold query at 1. cbn [view].
  unfold bind at 1. rewrite commit_no_fault.
  - unfold ret, next_id. simpl. rewrite length_app. simpl.
    now rewrite Nat2Z.inj_add.
  - simpl. destruct (oracle c) as [ | b [ | b' o ] ]; simpl in *; trivial.
Qed.

Lemma numbered_snoc (t : tables) (date name descr : string) :
  numbered t -> numbered (insert_baseline date name descr t).
Proof.
  unfold numbered. cbn [baselines insert_baseline]. intros Hn.
  rewrite map_app, length_app, Hn. cbn [map List.length Baseline.id].
  rewrite Nat.add_1_r, seq_S, map_app. cbn [map].
  unfold next_id. do 2 f_equal. lia.
Qed.

Lemma numbered_ids_below (t : tables) :
  numbered t ->
  Forall (fun b => Baseline.id b <> next_id (baselines t)) (baselines t).
Proof.
  unfold numbered, next_id. intros Hn.
  apply Forall_forall. intros b Hin Hid.
  assert (Hmem : In (Baseline.id b) (map Baseline.id (baselines t)))
    by now apply in_map.
  rewrite Hn in Hmem. apply in_map_iff in Hmem as (k & Hk & Hseq).
  apply in_seq in Hseq. lia.
Qed.

Lemma find_snoc_new {A} (f : A -> bool) (l : list A) (x : A) :
  Forall (fun y => f y = false) l -> f x = true ->
  find f (l ++ [x]) = Some x.
Proof.
  induction 1 as [ | y l Hy _ IH ]; simpl; intros Hx.
  - now rewrite Hx.
  - rewrite Hy. auto.
Qed.

(** X10.  In a database whose baselines are numbered 1, 2, ..., n, on an
    engine that lets the INSERT and the COMMIT through, [create_baseline]
    returns n + 1, the new baseline can be read back under that id with
    the given name and description, today's date and the engine's time
    stamp, every earlier baseline is still read under its id, and the
    change is committed. *)
Theorem create_baseline_reads_back (name descr : string) (c : conn) :
  numbered (view c) ->
  nth 0 (oracle c) false = false ->
  nth 1 (oracle c) false = false ->
  let n := Z.of_nat (List.length (baselines (view c))) in
  let c' := snd (create_baseline name descr c) in
  fst (create_baseline name descr c) = Return (n + 1)%Z
  /\ select_baseline (n + 1) (view c')
     = Some {| Baseline.id := (n + 1)%Z;
               Baseline.baseline_date := date_today;
               Baseline.baseline_name := name;
               Baseline.description := descr;
               Baseline.created_at := current_timestamp |}
  /\ (forall (i : Z) (b : Baseline.row),
        select_baseline i (view c) = Some b ->
        select_baseline i (view c') = Some b)
  /\ durable c' = view c'
  /\ numbered (view c').
Proof.
  intros Hnum Ho0 Ho1. cbv zeta.
  rewrite (create_baseline_run name descr c Ho0 Ho1). simpl.
  split; [ reflexivity | ].
  split; [ | split; [ | split; [ reflexivity | now apply numbered_snoc ] ] ].
  - unfold select_baseline. cbn [baselines insert_baseline].
    apply find_snoc_new.
    + eapply Forall_impl; [ | apply (numbered_ids_below _ Hnum) ].
      intros b Hb. simpl. now apply Z.eqb_neq.
    + simpl. apply Z.eqb_refl.
  - intros i b Hsel. unfold select_baseline in *.
    cbn [baselines insert_baseline]. now apply find_app_some.
Qed.

(** X11.  [create_baseline] has no handler: a fault of the INSERT is
    raised to the caller with the connection's view unchanged, and a fault
    of the COMMIT is raised with the new baseline left pending in the view
    and not committed. *)
Theorem create_baseline_faults (name descr : string) (c : conn) :
  (nth 0 (oracle c) false = true ->
   fst (create_baseline name descr c) = Raise OperationalError
   /\ view (snd (create_baseline name descr c)) = view c
   /\ durable (snd (create_baseline name descr c)) = durable c)
  /\ (nth 0 (oracle c) false = false -> nth 1 (oracle c) false = true ->
      fst (create_baseline name descr c) = Raise OperationalError
      /\ view (snd (create_baseline name descr c))
         = insert_baseline date_today name descr (view c)
      /\ durable (snd (create_baseline name descr c)) = durable c).
Proof.
  unfold create_baseline, bind, execute, query, commit, ret. cbv zeta.
  split.
  - destruct (oracle c) as [ | [ | ] o ]; simpl; intros E;
      try discriminate; auto.
  - destruct (oracle c) as [ | [ | ] [ | [ | ] o ] ]; simpl;
      intros E0 E1; try discriminate; auto.
Qed.

(** The baselines keep their numbering through every operation that
    writes. *)
Lemma create_baseline_numbered (name descr : string) (c : conn) :
  numbered (view c) -> numbered (view (snd (create_baseline name descr c))).
Proof.
  intros Hn.
  unfold create_baseline, bind, execute, query, commit, ret. cbv zeta.
  destruct (oracle c) as [ | [ | ] [ | [ | ] o ] ]; simpl;
    trivial; now apply numbered_snoc.
Qed.

End Baselines.

(** ** The public import *)

Section PublicImport.

Context `{PyRuntime}.

(** [_process_dataframe] returns a boolean on every run. *)
Lemma process_dataframe_returns (df : dataframe) (bid : Z) (fp : string)
  (c : conn) :
  exists ok : bool, fst (_process_dataframe df bid fp c) = Return ok.
Proof.
  destruct (import_outcome df bid fp c) as [ Hok | [ Hno _ ] ]; eauto.
Qed.

(** X12.  [import_excel_report] never raises.  When no sheet of the
    workbook can be read it returns False and leaves the connection as it
    was; given a baseline id it does exactly what [_process_dataframe]
    does on the sheet it read. *)
Theorem import_excel_report_wraps (sheet : option dataframe) (fp : string)
  (baseline_id : option Z) (c : conn) :
  (exists ok : bool,
     fst (import_excel_report sheet fp baseline_id c) = Return ok)
  /\ match sheet, baseline_id with
     | None, _ => import_excel_report sheet fp baseline_id c = (Return false, c)
     | Some df, Some i =>
         import_excel_report sheet fp baseline_id c
         = _process_dataframe df i fp c
     | Some _, None => True
     end.
Proof.
  unfold import_excel_report, try_catch.
  destruct sheet as [ df | ]; [ | split; [ exists false | ]; reflexivity ].
  destruct baseline_id as [ i | ].
  - cbv beta iota delta [bind ret].
    destruct (process_dataframe_returns df i fp c) as [ok Hok].
    destruct (_process_dataframe df i fp c) as [ [ b | e ] c' ];
      simpl in Hok; [ | discriminate ].
    split; [ eauto | reflexivity ].
  - split; trivial.
    unfold bind.
    destruct (create_baseline _ _ c) as [ [ i | e ] c1 ].
    + destruct (process_dataframe_returns df i fp c1) as [ok Hok].
      destruct (_process_dataframe df i fp c1) as [ [ b | e ] c' ];
        simpl in Hok; [ | discriminate ].
      eauto.
    + exists false. reflexivity.
Qed.

(** X13.  Called without a baseline id on a sheet in which no column
    names an agent, on an engine that lets two statements through,
    [import_excel_report] returns False and yet has created and committed
    a new baseline, named after the time of the import and described by
    the file's name; no agent, office or company row is written. *)
Theorem failed_auto_import_keeps_baseline (df : dataframe) (fp : string)
  (c : conn) :
  _find_column df agent_keywords = None ->
  nth 0 (oracle c) false = false ->
  nth 1 (oracle c) false = false ->
  import_excel_report (Some df) fp None c =
  (Return false,
   {| view :=
        insert_baseline date_today ("Import_" ++ now_stamp)
          ("Auto-imported from " ++ basename fp) (view c);
      durable :=
        insert_baseline date_today ("Import_" ++ now_stamp)
          ("Auto-imported from " ++ basename fp) (view c);
      oracle := tl (tl (oracle c)) |}).
Proof.
  intros Hcol Ho0 Ho1.
  unfold import_excel_report, try_catch.
  unfold bind at 1. rewrite (create_baseline_run _ _ c Ho0 Ho1).
  unfold _process_dataframe, try_catch. cbv zeta. rewrite Hcol.
  reflexivity.
Qed.

(** The numbering of the baselines survives both imports. *)
Lemma process_dataframe_numbered (df : dataframe) (bid : Z) (fp : string)
  (c : conn) :
  numbered (view c) ->
  numbered (view (snd (_process_dataframe df bid fp c))).
Proof.
  destruct (only_appends_import df bid fp c)
    as (ags & offs & comps & [Hb _ _ _]).
  unfold numbered. now rewrite Hb.
Qed.

(** X14.  Baseline ids stay 1, 2, ..., n: a new database has this
    numbering, and every operation that writes - [create_baseline],
    [_process_dataframe], [import_excel_report] - keeps it, whatever the
    outcome of the operation. *)
Theorem baselines_stay_numbered :
  (forall o : list bool, numbered (view (connect o)))
  /\ (forall name descr c,
        numbered (view c) ->
        numbered (view (snd (create_baseline name descr c))))
  /\ (forall df bid fp c,
        numbered (view c) ->
        numbered (view (snd (_process_dataframe df bid fp c))))
  /\ (forall sheet fp baseline_id c,
        numbered (view c) ->
        numbered (view (snd (import_excel_report sheet fp baseline_id c)))).
Proof.
  split; [ reflexivity | ].
  split; [ apply create_baseline_numbered | ].
  split; [ apply process_dataframe_numbered | ].
  intros sheet fp baseline_id c Hn.
  unfold import_excel_report, try_catch.
  destruct sheet as [ df | ]; [ | exact Hn ].
  destruct baseline_id as [ i | ].
  - cbv beta iota delta [bind ret].
    pose proof (process_dataframe_numbered df i fp c Hn) as Hn'.
    destruct (_process_dataframe df i fp c) as [ [ b | e ] c' ]; exact Hn'.
  - unfold bind.
    pose proof (create_baseline_numbered ("Import_" ++ now_stamp)
                  ("Auto-imported from " ++ basename fp) c Hn) as Hn1.
    destruct (create_baseline _ _ c) as [ [ i | e ] c1 ]; simpl in Hn1.
    + pose proof (process_dataframe_numbered df i fp c1 Hn1) as Hn'.
      destruct (_process_dataframe df i fp c1) as [ [ b | e ] c' ];
        exact Hn'.
    + exact Hn1.
Qed.

End PublicImport.

(** ** Reading *)

Section Reading.

Context `{PyRuntime}.
Local Open Scope float_scope.

(** X15.  On a database whose company rows hold their amounts,
    [compare_baselines] returns a dictionary for every pair of ids - no
    division in it can fault, whatever the totals - and leaves the
    connection as it was. *)
Theorem compare_baselines_total (id1 id2 : Z) (c : conn) :
  Forall company_stored (company_totals (view c)) ->
  exists r : Cmp.result, compare_baselines id1 id2 c = (Return r, c).
Proof.
  intros Hstored. rewrite Forall_forall in Hstored.
  destruct (select_baseline id1 (view c)) as [ b1 | ] eqn:Hb1;
    [ | eapply ex_intro, compare_missing_row; auto ].
  destruct (select_baseline id2 (view c)) as [ b2 | ] eqn:Hb2;
    [ | eapply ex_intro, compare_missing_row; auto ].
  destruct (select_company id1 (view c)) as [ t1 | ] eqn:Ht1;
    [ | eapply ex_intro, compare_missing_row; auto ].
  destruct (select_company id2 (view c)) as [ t2 | ] eqn:Ht2;
    [ | eapply ex_intro, compare_missing_row; auto ].
  eexists. apply (compare_run id1 id2 c b1 b2 t1 t2); trivial.
  - apply Hstored. unfold select_company in Ht1.
    now apply find_some in Ht1.
  - apply Hstored. unfold select_company in Ht2.
    now apply find_some in Ht2.
Qed.

(** X16.  Asked for a given id, [generate_progress_report] never writes;
    it raises [TypeError] whenever the baseline row or the company row of
    that id is missing; and it ends in one of three ways: [TypeError],
    [ZeroDivisionError], or the report returned as text. *)
Theorem report_faults (bid : Z) (c : conn) :
  snd (generate_progress_report (Some bid) c) = c
  /\ (select_baseline bid (view c) = None
      \/ select_company bid (view c) = None ->
      fst (generate_progress_report (Some bid) c) = Raise TypeError)
  /\ (fst (generate_progress_report (Some bid) c) = Raise TypeError
      \/ fst (generate_progress_report (Some bid) c) = Raise ZeroDivisionError
      \/ exists text : string,
           fst (generate_progress_report (Some bid) c) = Return text).
Proof.
  unfold generate_progress_report, report_for, bind, query, lift, ret.
  unfold report_head, subscript, truediv, format_fetched, fetched.
  destruct (select_baseline bid (view c)) as [ b | ]; [ | simpl; auto ].
  destruct (select_company bid (view c)) as [ t | ]; [ | simpl; auto ].
  assert (Hpresent :
    (Some b = None \/ Some t = None -> False)) by
    (intros [ E | E ]; discriminate).
  destruct (is_nan (Company.total_current_month t));
    [ simpl; split; [ | split ]; auto | ].
  destruct (is_nan (Company.total_following_month t));
    [ simpl; split; [ | split ]; auto | ].
  destruct (is_nan (Company.grand_total t));
    [ simpl; split; [ | split ]; auto | ].
  destruct (float_of_Z (Company.total_agents t) =? 0).
  - simpl. split; [ | split ]; auto. intros E. now apply Hpresent in E.
  - destruct (select_offices bid (view c)); simpl;
      (split; [ | split ]); eauto;
      intros E; now apply Hpresent in E.
Qed.

End Reading.

(** ** More on currency cells *)

Section MoreCurrencyCells.

Import Text PyFloat.
Context `{PyRuntime}.
Local Open Scope float_scope.

Lemma remove_char_app (c : ascii) (s t : string) :
  remove_char c (s ++ t) = remove_char c s ++ remove_char c t.
Proof.
  induction s as [ | d s IH ]; simpl; trivial.
  destruct (Ascii.eqb c d); simpl; now rewrite IH.
Qed.

Lemma strip_currency_app (s t : string) :
  strip_currency (s ++ t) = strip_currency s ++ strip_currency t.
Proof. unfold strip_currency. now rewrite !remove_char_app. Qed.

(** X17.  Dollar signs and commas are dropped wherever they stand in a
    text cell, not only in front or between groups of three digits: a
    cell reads the same with one more of them anywhere.  (So "1,5" reads
    as 15.) *)
Theorem safe_float_ignores_signs (before after : string) :
  _safe_float (CStr (before ++ "$" ++ after))
  = _safe_float (CStr (before ++ after))
  /\ _safe_float (CStr (before ++ "," ++ after))
     = _safe_float (CStr (before ++ after)).
Proof.
  unfold _safe_float. simpl isna. cbn [str py_str].
  now rewrite !strip_currency_app.
Qed.

(** *** Integer cells *)

Lemma uint_string_rtrim (d : Decimal.uint) :
  rtrim (NilEmpty.string_of_uint d) = NilEmpty.string_of_uint d.
Proof.
  induction d; simpl; trivial; rewrite IHd;
    now destruct (NilEmpty.string_of_uint d).
Qed.

Lemma uint_string_trim (d : Decimal.uint) :
  trim (NilEmpty.string_of_uint d) = NilEmpty.string_of_uint d.
Proof.
  unfold trim.
  replace (ltrim (NilEmpty.string_of_uint d))
    with (NilEmpty.string_of_uint d) by (now destruct d).
  apply uint_string_rtrim.
Qed.

(** Reading a numeral's digits continues the number read so far. *)
Lemma read_digits_uint_acc (d : Decimal.uint) :
  forall (acc : positive) (len : Z) (b : bool),
  read_digits (NilEmpty.string_of_uint d)
    {| dval := Zpos acc; dlen := len |} b
  = ({| dval := Zpos (Pos.of_uint_acc d acc);
        dlen := len + Z.of_nat (Decimal.nb_digits d) |}, "").
Proof.
  induction d; intros acc len b; cbn [NilEmpty.string_of_uint read_digits].
  - simpl. now rewrite Z.add_0_r.
  - change (is_digit "0") with true. cbv iota.
    change (digit_val "0") with 0%Z. cbn [dval dlen].
    replace (10 * Z.pos acc + 0)%Z with (Z.pos (10 * acc)) by lia.
    rewrite IHd. cbn [Decimal.nb_digits]. do 2 f_equal. lia.
  - change (is_digit "1") with true. cbv iota.
    change (digit_val "1") with 1%Z. cbn [dval dlen].
    replace (10 * Z.pos acc + 1)%Z with (Z.pos (1 + 10 * acc)) by lia.
    rewrite IHd. cbn [Decimal.nb_digits]. do 2 f_equal. lia.
  - change (is_digit "2") with true. cbv iota.
    change (digit_val "2") with 2%Z. cbn [dval dlen].
    replace (10 * Z.pos acc + 2)%Z with (Z.pos (2 + 10 * acc)) by lia.
    rewrite IHd. cbn [Decimal.nb_digits]. do 2 f_equal. lia.
  - change (is_digit "3") with true. cbv iota.
    change (digit_val "3") with 3%Z. cbn [dval dlen].
    replace (10 * Z.pos acc + 3)%Z with (Z.pos (3 + 10 * acc)) by lia.
    rewrite IHd. cbn [Decimal.nb_digits]. do 2 f_equal. lia.
  - change (is_digit "4") with true. cbv iota.
    change (digit_val "4") with 4%Z. cbn [dval dlen].
    replace (10 * Z.pos acc + 4)%Z with (Z.pos (4 + 10 * acc)) by lia.
    rewrite IHd. cbn [Decimal.nb_digits]. do 2 f_equal. lia.
  - change (is_digit "5") with true. cbv iota.
    change (digit_val "5") with 5%Z. cbn [dval dlen].
    replace (10 * Z.pos acc + 5)%Z with (Z.pos (5 + 10 * acc)) by lia.
    rewrite IHd. cbn [Decimal.nb_digits]. do 2 f_equal. lia.
  - change (is_digit "6") with true. cbv iota.
    change (digit_val "6") with 6%Z. cbn [dval dlen].
    replace (10 * Z.pos acc + 6)%Z with (Z.pos (6 + 10 * acc)) by lia.
    rewrite IHd. cbn [Decimal.nb_digits]. do 2 f_equal. lia.
  - change (is_digit "7") with true. cbv iota.
    change (digit_val "7") with 7%Z. cbn [dval dlen].
    replace (10 * Z.pos acc + 7)%Z with (Z.pos (7 + 10 * acc)) by lia.
    rewrite IHd. cbn [Decimal.nb_digits]. do 2 f_equal. lia.
  - change (is_digit "8") with true. cbv iota.
    change (digit_val "8") with 8%Z. cbn [dval dlen].
    replace (10 * Z.pos acc + 8)%Z with (Z.pos (8 + 10 * acc)) by lia.
    rewrite IHd. cbn [Decimal.nb_digits]. do 2 f_equal. lia.
  - change (is_digit "9") with true. cbv iota.
    change (digit_val "9") with 9%Z. cbn [dval dlen].
    replace (10 * Z.pos acc + 9)%Z with (Z.pos (9 + 10 * acc)) by lia.
    rewrite IHd. cbn [Decimal.nb_digits]. do 2 f_equal. lia.
Qed.

Lemma read_digits_uint (d : Decimal.uint) :
  forall (len : Z) (b : bool),
  read_digits (NilEmpty.string_of_uint d) {| dval := 0; dlen := len |} b
  = ({| dval := Z.of_N (Pos.of_uint d);
        dlen := len + Z.of_nat (Decimal.nb_digits d) |}, "").
Proof.
  induction d; intros len b;
    cbn [NilEmpty.string_of_uint read_digits Pos.of_uint];
    try (match goal with
         | |- context [ is_digit ?ch ] => change (is_digit ch) with true
         end; cbv iota; cbn [dval dlen];
         match goal with
         | |- context [ digit_val ?ch ] =>
             let v := eval vm_compute in (digit_val ch) in
             change (digit_val ch) with v
         end).
  - simpl. now rewrite Z.add_0_r.
  - change (10 * 0 + 0)%Z with 0%Z.
    rewrite IHd. cbn [Decimal.nb_digits]. do 2 f_equal. lia.
  - change (10 * 0 + 1)%Z with (Z.pos 1). rewrite read_digits_uint_acc.
    cbn [Decimal.nb_digits Z.of_N]. do 2 f_equal. lia.
  - change (10 * 0 + 2)%Z with (Z.pos 2). rewrite read_digits_uint_acc.
    cbn [Decimal.nb_digits Z.of_N]. do 2 f_equal. lia.
  - change (10 * 0 + 3)%Z with (Z.pos 3). rewrite read_digits_uint_acc.
    cbn [Decimal.nb_digits Z.of_N]. do 2 f_equal. lia.
  - change (10 * 0 + 4)%Z with (Z.pos 4). rewrite read_digits_uint_acc.
    cbn [Decimal.nb_digits Z.of_N]. do 2 f_equal. lia.
  - change (10 * 0 + 5)%Z with (Z.pos 5). rewrite read_digits_uint_acc.
    cbn [Decimal.nb_digits Z.of_N]. do 2 f_equal. lia.
  - change (10 * 0 + 6)%Z with (Z.pos 6). rewrite read_digits_uint_acc.
    cbn [Decimal.nb_digits Z.of_N]. do 2 f_equal. lia.
  - change (10 * 0 + 7)%Z with (Z.pos 7). rewrite read_digits_uint_acc.
    cbn [Decimal.nb_digits Z.of_N]. do 2 f_equal. lia.
  - change (10 * 0 + 8)%Z with (Z.pos 8). rewrite read_digits_uint_acc.
    cbn [Decimal.nb_digits Z.of_N]. do 2 f_equal. lia.
  - change (10 * 0 + 9)%Z with (Z.pos 9). rewrite read_digits_uint_acc.
    cbn [Decimal.nb_digits Z.of_N]. do 2 f_equal. lia.
Qed.

Lemma read_floatnumber_uint (d : Decimal.uint) :
  d <> Decimal.Nil ->
  read_floatnumber (NilEmpty.string_of_uint d)
  = Some (Z.of_N (Pos.of_uint d), 0%Z).
Proof.
  intros Hd. unfold read_floatnumber, no_digits.
  rewrite read_digits_uint. cbn [dval dlen read_exponent].
  assert (Hlen : (0 + Z.of_nat (Decimal.nb_digits d) =? 0)%Z = false).
  { apply Z.eqb_neq. destruct d; simpl; try lia. contradiction. }
  rewrite Hlen. cbn [andb]. cbv iota.
  now rewrite Z.pow_0_r, Z.mul_1_r, Z.add_0_r.
Qed.

(** [float] of a numeral without sign. *)
Lemma float_of_uint_string (d : Decimal.uint) :
  d <> Decimal.Nil ->
  float_of_str (NilEmpty.string_of_uint d)
  = Return (of_decimal false (Z.of_N (Pos.of_uint d)) 0).
Proof.
  intros Hd. unfold float_of_str.
  rewrite uint_string_trim.
  pose proof (read_floatnumber_uint d Hd) as Hread.
  pose proof (uint_string_lower d) as Hlow.
  destruct d; try contradiction;
    cbn [NilEmpty.string_of_uint read_sign] in *;
    rewrite Hlow, Hread; reflexivity.
Qed.

(** [float] of a numeral after a minus sign. *)
Lemma float_of_negative_uint_string (d : Decimal.uint) :
  d <> Decimal.Nil ->
  float_of_str (String "-" (NilEmpty.string_of_uint d))
  = Return (of_decimal true (Z.of_N (Pos.of_uint d)) 0).
Proof.
  intros Hd. unfold float_of_str.
  assert (Hstrip : trim (String "-" (NilEmpty.string_of_uint d))
                   = String "-" (NilEmpty.string_of_uint d)).
  { unfold trim. cbn [ltrim]. change (isspace "-") with false.
    cbv iota. cbn [rtrim]. rewrite uint_string_rtrim.
    destruct d; try contradiction; reflexivity. }
  rewrite Hstrip. cbn [read_sign].
  pose proof (read_floatnumber_uint d Hd) as Hread.
  pose proof (uint_string_lower d) as Hlow.
  destruct d; try contradiction;
    cbn [NilEmpty.string_of_uint] in *;
    rewrite Hlow, Hread; reflexivity.
Qed.

Lemma binary_round_aux_opp (m e : Z) (l : location) :
  binary_round_aux prec emax true m e l
  = SFopp (binary_round_aux prec emax false m e l).
Proof.
  unfold binary_round_aux.
  destruct (shr_fexp prec emax m e l) as [mrs1 e1].
  destruct (shr_fexp prec emax _ e1 loc_Exact) as [mrs2 e2].
  destruct (shr_m mrs2); trivial.
  now destruct (e2 <=? _)%Z.
Qed.

Lemma opp_opp (f : float) : - - f = f.
Proof.
  apply Prim2SF_inj. rewrite !opp_spec.
  now destruct (Prim2SF f) as [ [ | ] | [ | ] | | [ | ] m e ].
Qed.

Lemma SF2Prim_opp (x : spec_float) : SF2Prim (SFopp x) = - SF2Prim x.
Proof.
  destruct x as [ [ | ] | [ | ] | | [ | ] m e ]; try reflexivity.
  cbn [SFopp SF2Prim negb]. now rewrite opp_opp.
Qed.

(** X18.  A cell holding an integer of at most 4300 decimal digits reads
    as the binary64 value nearest to that integer, which is what
    [float(n)] gives for an integer within the binary64 range: printing
    the integer and parsing the text back loses nothing.  A longer integer
    cannot be printed and reads as 0.0. *)
Theorem safe_float_of_integer (z : Z) :
  ((int_digits z <= int_max_str_digits)%Z ->
   _safe_float (CInt z) = Return (float_of_Z z))
  /\ ((int_max_str_digits < int_digits z)%Z ->
      _safe_float (CInt z) = Return 0).
Proof.
  rewrite safe_float_value. cbn [isna str]. split; intros Hsize.
  2: { apply Z.ltb_lt in Hsize. now rewrite Hsize. }
  apply Z.leb_le in Hsize. rewrite Z.leb_antisym in Hsize.
  apply negb_true_iff in Hsize. rewrite Hsize. clear Hsize.
  cbn [py_str]. f_equal.
  unfold str_of_Z, strip_currency.
  destruct z as [ | p | p ]; cbn [Z.to_int NilZero.string_of_int].
  - reflexivity.
  - pose proof (Unsigned.to_uint_nonnil p) as Hd.
    assert (Hs : NilZero.string_of_uint (Pos.to_uint p)
                 = NilEmpty.string_of_uint (Pos.to_uint p)).
    { unfold NilZero.string_of_uint.
      destruct (Pos.to_uint p); trivial. contradiction. }
    rewrite Hs, !uint_string_remove by reflexivity.
    rewrite (float_of_uint_string _ Hd), Unsigned.of_to.
    unfold of_decimal, round_decimal, float_of_Z. cbn [Z.of_N Z.leb].
    cbn [Z.compare]. now rewrite Z.pow_0_r, Z.mul_1_r.
  - pose proof (Unsigned.to_uint_nonnil p) as Hd.
    assert (Hs : NilZero.string_of_uint (Pos.to_uint p)
                 = NilEmpty.string_of_uint (Pos.to_uint p)).
    { unfold NilZero.string_of_uint.
      destruct (Pos.to_uint p); trivial. contradiction. }
    rewrite Hs. cbn [remove_char].
    change (Ascii.eqb "$" "-") with false.
    change (Ascii.eqb "," "-") with false. cbv iota.
    rewrite uint_string_remove by reflexivity. cbn [remove_char].
    change (Ascii.eqb "," "-") with false. cbv iota.
    rewrite uint_string_remove by reflexivity.
    rewrite (float_of_negative_uint_string _ Hd), Unsigned.of_to.
    unfold of_decimal, round_decimal, float_of_Z. cbn [Z.of_N Z.leb].
    cbn [Z.compare]. rewrite Z.pow_0_r, Z.mul_1_r.
    cbn [binary_normalize]. unfold binary_round.
    destruct (shl_align p 0 _) as [mz ez].
    now rewrite binary_round_aux_opp, SF2Prim_opp.
Qed.

End MoreCurrencyCells.

(** ** Integers as floats *)

Section IntegersAsFloats.

Local Open Scope Z_scope.

Lemma shr_1_div2 (mrs : shr_record) :
  0 <= shr_m mrs -> shr_m (shr_1 mrs) = Z.div2 (shr_m mrs).
Proof.
  destruct mrs as [m r s]. simpl.
  destruct m as [ | [ p | p | ] | p ]; simpl; trivial; lia.
Qed.

Lemma iter_shr_1_shiftr (p : positive) :
  forall mrs : shr_record,
  0 <= shr_m mrs ->
  shr_m (iter_pos shr_1 p mrs) = Z.shiftr (shr_m mrs) (Z.pos p).
Proof.
  induction p as [ p IH | p IH | ]; intros mrs Hm; simpl iter_pos.
  - rewrite IH by (apply iter_shr_1_nonneg, shr_1_nonneg, Hm).
    rewrite IH by (apply shr_1_nonneg, Hm).
    rewrite shr_1_div2, Z.div2_spec, !Z.shiftr_shiftr by lia.
    f_equal. lia.
  - rewrite IH by (apply iter_shr_1_nonneg, Hm).
    rewrite IH, Z.shiftr_shiftr by lia.
    f_equal. lia.
  - now rewrite shr_1_div2, Z.div2_spec.
Qed.

Lemma digits2_lower_bound (p : positive) :
  2 ^ (Z.pos (digits2_pos p) - 1) <= Z.pos p.
Proof.
  induction p as [ p IH | p IH | ]; simpl digits2_pos.
  - rewrite Pos2Z.inj_succ.
    replace (Z.succ (Z.pos (digits2_pos p)) - 1)
      with (Z.succ (Z.pos (digits2_pos p) - 1)) by lia.
    rewrite Z.pow_succ_r by lia. lia.
  - rewrite Pos2Z.inj_succ.
    replace (Z.succ (Z.pos (digits2_pos p)) - 1)
      with (Z.succ (Z.pos (digits2_pos p) - 1)) by lia.
    rewrite Z.pow_succ_r by lia. lia.
  - simpl. lia.
Qed.

(** Rounding to the format keeps a positive mantissa positive unless the
    number is below the format's range. *)
Lemma shr_fexp_positive (m : positive) (e : Z) (l : location) :
  SpecFloat.emin prec emax < Z.pos (digits2_pos m) + e ->
  0 < shr_m (fst (shr_fexp prec emax (Z.pos m) e l)).
Proof.
  intros Hrange. unfold shr_fexp, shr.
  assert (Hrec : shr_m (shr_record_of_loc (Z.pos m) l) = Z.pos m)
    by (now destruct l as [ | [ | | ] ]).
  cbn [Zdigits2].
  destruct (fexp prec emax (Z.pos (digits2_pos m) + e) - e) as [ | k | k ]
    eqn:Hk; cbn [fst]; rewrite ?Hrec; try lia.
  rewrite iter_shr_1_shiftr, Hrec by (rewrite Hrec; lia).
  rewrite Z.shiftr_div_pow2 by lia.
  apply Z.div_str_pos. split; [ apply Z.pow_pos_nonneg; lia | ].
  transitivity (2 ^ (Z.pos (digits2_pos m) - 1));
    [ | apply digits2_lower_bound ].
  apply Z.pow_le_mono_r; [ lia | ].
  unfold fexp, SpecFloat.emin, prec, emax in *. lia.
Qed.

Lemma shr_fexp_exponent (m e : Z) (l : location) :
  snd (shr_fexp prec emax m e l) = e
  /\ fst (shr_fexp prec emax m e l) = shr_record_of_loc m l
  \/ SpecFloat.emin prec emax <= snd (shr_fexp prec emax m e l).
Proof.
  unfold shr_fexp, shr.
  destruct (fexp prec emax (Zdigits2 m + e) - e) as [ | k | k ] eqn:Hk;
    cbn [fst snd]; auto.
  right. unfold fexp, SpecFloat.emin, prec, emax in *. lia.
Qed.

Lemma round_nearest_even_ge (m : Z) (l : location) :
  m <= round_nearest_even m l.
Proof.
  destruct l as [ | [ | | ] ]; simpl; try lia.
  destruct (Z.even m); lia.
Qed.

(** A positive integer does not round to zero. *)
Lemma binary_round_not_zero (p : positive) :
  SFeqb (binary_round prec emax false p 0) (S754_zero false) = false.
Proof.
  unfold binary_round.
  assert (Halign : exists mz ez,
             shl_align p 0 (fexp prec emax (Z.pos (digits2_pos p) + 0))
             = (mz, ez)
             /\ SpecFloat.emin prec emax < Z.pos (digits2_pos mz) + ez).
  { unfold shl_align.
    destruct (fexp prec emax (Z.pos (digits2_pos p) + 0) - 0)
      as [ | k | k ] eqn:Hk.
    - exists p, 0. split; trivial.
      unfold SpecFloat.emin, prec, emax. lia.
    - exists p, 0. split; trivial.
      unfold SpecFloat.emin, prec, emax. lia.
    - eexists _, _. split; [ reflexivity | ].
      pose proof (Pos2Z.is_pos (digits2_pos (Pos.iter xO p k))).
      unfold fexp, SpecFloat.emin, prec, emax in *. lia. }
  destruct Halign as (mz & ez & -> & Hrange).
  unfold binary_round_aux.
  pose proof (shr_fexp_positive mz ez loc_Exact Hrange) as Hpos1.
  pose proof (shr_fexp_exponent (Z.pos mz) ez loc_Exact) as Hexp1.
  destruct (shr_fexp prec emax (Z.pos mz) ez loc_Exact) as [mrs1 e1].
  cbn [fst snd] in Hpos1, Hexp1.
  pose proof (round_nearest_even_ge (shr_m mrs1) (loc_of_shr_record mrs1))
    as Hge.
  destruct (round_nearest_even (shr_m mrs1) (loc_of_shr_record mrs1))
    as [ | m2 | m2 ] eqn:Hround; try lia.
  assert (Hrange2 : SpecFloat.emin prec emax < Z.pos (digits2_pos m2) + e1).
  { destruct Hexp1 as [ [ -> -> ] | Hmin ].
    - simpl in Hround. injection Hround as <-. exact Hrange.
    - pose proof (Pos2Z.is_pos (digits2_pos m2)).
      unfold SpecFloat.emin, prec, emax in *. lia. }
  pose proof (shr_fexp_positive m2 e1 loc_Exact Hrange2) as Hpos2.
  destruct (shr_fexp prec emax (Z.pos m2) e1 loc_Exact) as [mrs2 e2].
  cbn [fst] in Hpos2.
  destruct (shr_m mrs2) as [ | q | q ]; try lia.
  now destruct (e2 <=? _).
Qed.

(** The number of agents of a company row, as the divisor of the
    average, is not zero unless the count is. *)
Lemma float_of_Z_not_zero (n : Z) :
  0 < n < 2 ^ 63 -> (float_of_Z n =? 0)%float = false.
Proof.
  intros Hn.
  assert (Hfloat : float_of_Z n = of_uint63 (Uint63.of_Z n)).
  { unfold float_of_Z.
    rewrite <- (SF2Prim_Prim2SF (of_uint63 (Uint63.of_Z n))).
    rewrite of_uint63_spec, Uint63.of_Z_spec.
    rewrite Z.mod_small; trivial.
    change Uint63.wB with (2 ^ 63). lia. }
  rewrite Hfloat, eqb_spec, of_uint63_spec, Uint63.of_Z_spec.
  rewrite Z.mod_small by (change Uint63.wB with (2 ^ 63); lia).
  change (Prim2SF 0) with (S754_zero false).
  destruct n as [ | p | p ]; try lia.
  apply binary_round_not_zero.
Qed.

End IntegersAsFloats.

(** ** Reports and comparisons after imports *)

Section AfterImport.

Context `{PyRuntime}.
Local Open Scope float_scope.

Lemma find_app_none {A} (f : A -> bool) (l l' : list A) :
  find f l = None -> find f (l ++ l') = find f l'.
Proof.
  induction l as [ | y l IH ]; simpl; trivial.
  destruct (f y); [ discriminate | exact IH ].
Qed.

(** The report on a company row that holds its totals and counts at
    least one agent. *)
Lemma report_outcome (bid : Z) (c : conn) (b : Baseline.row)
  (t : Company.row) :
  select_baseline bid (view c) = Some b ->
  select_company bid (view c) = Some t ->
  company_stored t ->
  (0 < Company.total_agents t < 2 ^ 63)%Z ->
  exists text : string,
    generate_progress_report (Some bid) c = (Return text, c).
Proof.
  intros Hb Ht (Hc & Hf & Hg) Hn.
  unfold generate_progress_report, report_for, bind, query, lift, ret.
  rewrite Hb, Ht. unfold report_head, subscript, truediv.
  rewrite !format_fetched_stored by assumption.
  rewrite (float_of_Z_not_zero _ Hn).
  destruct (select_offices bid (view c)); eauto.
Qed.

(** X19.  Asked for an id whose baseline row and company row exist, the
    company row holding its amounts and a count of agents between 1 and
    the largest INTEGER, the report is returned as text: nothing is raised
    and nothing is written. *)
Theorem report_returns (bid : Z) (c : conn) (b : Baseline.row)
  (t : Company.row) :
  select_baseline bid (view c) = Some b ->
  select_company bid (view c) = Some t ->
  company_stored t ->
  (0 < Company.total_agents t < 2 ^ 63)%Z ->
  exists text : string,
    generate_progress_report (Some bid) c = (Return text, c).
Proof. exact (report_outcome bid c b t). Qed.

(** The company row a first successful import gives its baseline. *)
Lemma first_import_company_row (df : dataframe) (bid : Z) (fp : string)
  (c : conn) :
  select_company bid (view c) = None ->
  fst (_process_dataframe df bid fp c) = Return true ->
  exists t : Company.row,
    select_company bid (view (snd (_process_dataframe df bid fp c)))
    = Some t
    /\ Company.total_agents t
       = (Z.of_nat (List.length
            (agent_performance
               (view (snd (_process_dataframe df bid fp c)))))
          - Z.of_nat (List.length (agent_performance (view c))))%Z
    /\ baselines (view (snd (_process_dataframe df bid fp c)))
       = baselines (view c)
    /\ (forall i : Z, i <> bid ->
          select_company i (view (snd (_process_dataframe df bid fp c)))
          = select_company i (view c)).
Proof.
  intros Hnone Hok.
  destruct (import_success_shape df bid fp c Hok)
    as (agent_col & ags & offs & comp & _ & [Hb Ha Ho Hc] & _ & _
        & Hn & _ & Hbid).
  exists comp. unfold select_company in *. rewrite Hc, Ha, Hb.
  split; [ | split; [ | split; [ reflexivity | ] ] ].
  - rewrite find_app_none by trivial. simpl.
    now rewrite Hbid, Z.eqb_refl.
  - rewrite Hn, length_app. lia.
  - intros i Hi.
    destruct (find (fun r => Company.baseline_id r =? i)%Z
                (company_totals (view c))) as [ r | ] eqn:Hfind.
    + now apply find_app_some.
    + rewrite find_app_none by trivial. simpl.
      rewrite Hbid. apply Z.eqb_neq in Hi.
      now rewrite Z.eqb_sym, Hi.
Qed.

(** X20.  Import, then report: after the first successful import into an
    existing baseline, if the import kept at least one row of a sheet of
    fewer than 2^63 rows and no total it wrote is a NaN, the report of
    that baseline is returned as text. *)
Theorem report_after_import (df : dataframe) (bid : Z) (fp : string)
  (c : conn) (b : Baseline.row) :
  select_baseline bid (view c) = Some b ->
  select_company bid (view c) = None ->
  fst (_process_dataframe df bid fp c) = Return true ->
  (List.length (agent_performance (view c))
   < List.length (agent_performance
                    (view (snd (_process_dataframe df bid fp c)))))%nat ->
  (Z.of_nat (List.length (rows df)) < 2 ^ 63)%Z ->
  (forall t : Company.row,
     select_company bid (view (snd (_process_dataframe df bid fp c)))
     = Some t ->
     company_stored t) ->
  exists text : string,
    fst (generate_progress_report (Some bid)
           (snd (_process_dataframe df bid fp c)))
    = Return text.
Proof.
  intros Hb Hnone Hok Hkept Hsize Hstored.
  destruct (first_import_company_row df bid fp c Hnone Hok)
    as (t & Ht & Hn & Hbs & _).
  destruct (import_success_shape df bid fp c Hok)
    as (agent_col & ags & offs & comp & _ & [_ Ha _ _] & Hnames & _).
  assert (Hlen : (List.length ags <= List.length (rows df))%nat).
  { rewrite <- (length_map Agent.agent_name), Hnames.
    unfold kept_names.
    etransitivity; [ apply filter_length_le | ].
    now rewrite length_map. }
  rewrite Ha, length_app in Hn, Hkept.
  assert (Hsel : select_baseline bid
                   (view (snd (_process_dataframe df bid fp c))) = Some b)
    by (unfold select_baseline in *; now rewrite Hbs).
  destruct (report_outcome bid _ b t Hsel Ht (Hstored t Ht))
    as [text Htext]; [ lia | ].
  exists text. now rewrite Htext.
Qed.

(** X21.  Import twice, then compare: after first successful imports
    into two different existing baselines, neither of which wrote a NaN
    total, the comparison succeeds and its [agent_change] is the number of
    agent rows the second import wrote minus the number the first one
    wrote. *)
Theorem agent_change_after_imports (df1 df2 : dataframe) (id1 id2 : Z)
  (fp1 fp2 : string) (c : conn) (b1 b2 : Baseline.row) :
  id1 <> id2 ->
  select_baseline id1 (view c) = Some b1 ->
  select_baseline id2 (view c) = Some b2 ->
  select_company id1 (view c) = None ->
  select_company id2 (view c) = None ->
  fst (_process_dataframe df1 id1 fp1 c) = Return true ->
  let c1 := snd (_process_dataframe df1 id1 fp1 c) in
  fst (_process_dataframe df2 id2 fp2 c1) = Return true ->
  let c2 := snd (_process_dataframe df2 id2 fp2 c1) in
  Forall company_stored (company_totals (view c2)) ->
  let rows_of x := Z.of_nat (List.length (agent_performance (view x))) in
  exists (i1 i2 : Cmp.baseline_info) (imp : Cmp.improvements),
    fst (compare_baselines id1 id2 c2) = Return (Cmp.Comparison i1 i2 imp)
    /\ Cmp.agent_change imp
       = ((rows_of c2 - rows_of c1) - (rows_of c1 - rows_of c))%Z.
Proof.
  intros Hne Hb1 Hb2 Hn1 Hn2 Hok1 c1 Hok2 c2 Hstored rows_of.
  destruct (first_import_company_row df1 id1 fp1 c Hn1 Hok1)
    as (t1 & Ht1 & Hcount1 & Hbs1 & Hother1).
  fold c1 in Ht1, Hcount1, Hbs1, Hother1.
  assert (Hn2' : select_company id2 (view c1) = None)
    by (rewrite Hother1; auto).
  destruct (first_import_company_row df2 id2 fp2 c1 Hn2' Hok2)
    as (t2 & Ht2 & Hcount2 & Hbs2 & Hother2).
  fold c2 in Ht2, Hcount2, Hbs2, Hother2.
  assert (Hsel1 : select_baseline id1 (view c2) = Some b1)
    by (unfold select_baseline in *; now rewrite Hbs2, Hbs1).
  assert (Hsel2 : select_baseline id2 (view c2) = Some b2)
    by (unfold select_baseline in *; now rewrite Hbs2, Hbs1).
  assert (Ht1' : select_company id1 (view c2) = Some t1)
    by (rewrite Hother2; auto).
  rewrite Forall_forall in Hstored.
  rewrite (compare_run id1 id2 c2 b1 b2 t1 t2 Hsel1 Hsel2 Ht1' Ht2).
  - eexists _, _, _. split; [ reflexivity | ].
    simpl. unfold rows_of. lia.
  - apply Hstored. unfold select_company in Ht1'.
    now apply find_some in Ht1'.
  - apply Hstored. unfold select_company in Ht2.
    now apply find_some in Ht2.
Qed.

End AfterImport.

(** ** The report without an id *)

Section LatestBaseline.

Context `{PyRuntime}.

Lemma string_compare_trans (a b c : string) :
  String.compare a b = Lt -> String.compare b c = Lt ->
  String.compare a c = Lt.
Proof.
  revert b c.
  induction a as [ | x a IH ]; intros [ | y b ] [ | z c ]; simpl;
    try discriminate; trivial.
  unfold Ascii.compare.
  destruct (N.compare_spec (N_of_ascii x) (N_of_ascii y))
    as [ Exy | Lxy | Gxy ];
    try discriminate;
    destruct (N.compare_spec (N_of_ascii y) (N_of_ascii z))
      as [ Eyz | Lyz | Gyz ];
    try discriminate; intros Hab Hbc.
  - rewrite Exy, Eyz, N.compare_refl. eauto.
  - rewrite Exy. now apply N.compare_lt_iff in Lyz as ->.
  - rewrite <- Eyz. now apply N.compare_lt_iff in Lxy as ->.
  - assert (Lxz : (N_of_ascii x < N_of_ascii z)%N) by lia.
    now apply N.compare_lt_iff in Lxz as ->.
Qed.

Lemma string_compare_irrefl (a : string) : String.compare a a <> Lt.
Proof.
  intros Hlt. pose proof (String.compare_antisym a a) as Hanti.
  rewrite Hlt in Hanti. discriminate.
Qed.

(** Not being earlier is transitive. *)
Lemma string_not_earlier_trans (a b c : string) :
  String.ltb a b = false -> String.ltb b c = false ->
  String.ltb a c = false.
Proof.
  unfold String.ltb.
  destruct (String.compare a c) eqn:Hac; trivial.
  destruct (String.compare a b) eqn:Hab; try discriminate;
    destruct (String.compare b c) eqn:Hbc; try discriminate; intros _ _.
  - apply String.compare_eq_iff in Hab. apply String.compare_eq_iff in Hbc.
    subst. now apply string_compare_irrefl in Hac.
  - apply String.compare_eq_iff in Hab. subst. congruence.
  - apply String.compare_eq_iff in Hbc. subst. congruence.
  - rewrite String.compare_antisym in Hab, Hbc.
    destruct (String.compare b a) eqn:Hba; try discriminate.
    destruct (String.compare c b) eqn:Hcb; try discriminate.
    pose proof (string_compare_trans c b a Hcb Hba) as Hca.
    rewrite String.compare_antisym, Hca in Hac. discriminate.
Qed.

(** The baseline the query picks is in the table and none is later. *)
Lemma latest_baseline_greatest (bs : list Baseline.row) (b : Baseline.row) :
  latest_baseline bs = Some b ->
  In b bs
  /\ Forall (fun other =>
               String.ltb (Baseline.created_at b)
                 (Baseline.created_at other) = false) bs.
Proof.
  revert b. induction bs as [ | x bs IH ]; intros b; simpl;
    [ discriminate | ].
  destruct (latest_baseline bs) as [ best | ] eqn:Hbest.
  - destruct (IH best eq_refl) as [Hin Hall].
    destruct (String.ltb (Baseline.created_at x)
                (Baseline.created_at best)) eqn:Hlt;
      intros E; injection E as <-.
    + split; [ now right | ].
      constructor; trivial.
      unfold String.ltb in *. rewrite String.compare_antisym.
      now destruct (String.compare (Baseline.created_at x)
                      (Baseline.created_at best)).
    + split; [ now left | ].
      constructor.
      * unfold String.ltb.
        destruct (String.compare _ _) eqn:Hc; trivial.
        now apply string_compare_irrefl in Hc.
      * eapply Forall_impl; [ | exact Hall ].
        intros other Hother. simpl in *.
        eapply string_not_earlier_trans; eauto.
  - intros E. injection E as <-.
    destruct bs as [ | y bs ]; [ | simpl in Hbest;
      destruct (latest_baseline bs); [ destruct (String.ltb _ _) | ];
      discriminate ].
    split; [ now left | ].
    constructor; trivial.
    unfold String.ltb.
    destruct (String.compare _ _) eqn:Hc; trivial.
    now apply string_compare_irrefl in Hc.
Qed.

(** X22.  Called without an id, [generate_progress_report] returns a
    message when there is no baseline at all, and otherwise does what it
    does for the id of a baseline whose creation time stamp no other
    baseline exceeds. *)
Theorem report_without_id (c : conn) :
  match baselines (view c) with
  | [] =>
      generate_progress_report None c
      = (Return "❌ No baselines found. Please import data first.", c)
  | _ :: _ =>
      exists b : Baseline.row,
        In b (baselines (view c))
        /\ Forall (fun other =>
                     String.ltb (Baseline.created_at b)
                       (Baseline.created_at other) = false)
             (baselines (view c))
        /\ generate_progress_report None c
           = generate_progress_report (Some (Baseline.id b)) c
  end.
Proof.
  destruct (baselines (view c)) as [ | x bs ] eqn:Hbs.
  - unfold generate_progress_report, bind, query. now rewrite Hbs.
  - destruct (latest_baseline (x :: bs)) as [ b | ] eqn:Hbest.
    + destruct (latest_baseline_greatest _ _ Hbest) as [Hin Hall].
      exists b. split; [ trivial | split; [ trivial | ] ].
      unfold generate_progress_report, bind, query.
      now rewrite Hbs, Hbest.
    + simpl in Hbest.
      destruct (latest_baseline bs); [ destruct (String.ltb _ _) | ];
        discriminate.
Qed.

End LatestBaseline.

(** ** Instances of the further properties *)

Lemma collector_column_witness :
  exists pre post : list string,
    columns Sample.no_office_column = (pre ++ "Collector" :: post)%list
    /\ names_column agent_keywords "Collector"
    /\ Forall (fun earlier => ~ names_column agent_keywords earlier) pre.
Proof.
  apply (find_column_first_match Sample.no_office_column agent_keywords
           "Collector").
  reflexivity.
Defined.

Lemma reversed_keywords_witness :
  _find_column Sample.tenths agent_keywords
  = _find_column Sample.tenths (rev agent_keywords).
Proof.
  apply (find_column_keyword_order Sample.tenths agent_keywords
           (rev agent_keywords)).
  intros name. apply in_rev.
Defined.

Lemma tenths_rows_witness :
  exists (agent_col : string) (ags : list Agent.row)
         (offs : list Office.row) (comp : Company.row),
    _find_column Sample.tenths agent_keywords = Some agent_col
    /\ appended (view Sample.march)
         (view (snd (_process_dataframe Sample.tenths 1 "march.xlsx"
                       Sample.march)))
         ags offs [comp]
    /\ map Agent.agent_name ags
       = kept_names (columns Sample.tenths) agent_col (rows Sample.tenths)
    /\ Company.total_agents comp = Z.of_nat (List.length ags).
Proof.
  apply (import_keeps_sheet_rows Sample.tenths 1 "march.xlsx" Sample.march).
  vm_compute. reflexivity.
Defined.

Lemma tenths_offices_witness :
  exists (ags : list Agent.row) (offs : list Office.row)
         (comp : Company.row),
    appended (view Sample.march)
      (view (snd (_process_dataframe Sample.tenths 1 "march.xlsx"
                    Sample.march)))
      ags offs [comp]
    /\ map Office.office offs = first_seen (map Agent.office ags)
    /\ NoDup (map Office.office offs)
    /\ (forall name, In name (map Office.office offs)
                     <-> In name (map Agent.office ags))
    /\ Company.total_offices comp = Z.of_nat (List.length offs).
Proof.
  apply (import_groups_by_office Sample.tenths 1 "march.xlsx" Sample.march).
  vm_compute. reflexivity.
Defined.

Lemma tenths_figures_witness :
  exists (ags : list Agent.row) (offs : list Office.row)
         (comp : Company.row),
    appended (view Sample.march)
      (view (snd (_process_dataframe Sample.tenths 1 "march.xlsx"
                    Sample.march)))
      ags offs [comp]
    /\ Forall
         (fun o =>
            let mine := of_office (Office.office o) ags in
            Office.agent_count o = Z.of_nat (List.length mine)
            /\ Office.current_month_total o
               = py_sum (map Agent.current_month_promised mine)
            /\ Office.following_month_total o
               = py_sum (map Agent.following_month_promised mine))
         offs.
Proof.
  apply (import_office_figures Sample.tenths 1 "march.xlsx" Sample.march).
  vm_compute. reflexivity.
Defined.

Lemma tenths_counts_witness :
  exists (ags : list Agent.row) (offs : list Office.row)
         (comp : Company.row),
    appended (view Sample.march)
      (view (snd (_process_dataframe Sample.tenths 1 "march.xlsx"
                    Sample.march)))
      ags offs [comp]
    /\ sum_agent_count offs = Company.total_agents comp.
Proof.
  apply (import_counts_add_up Sample.tenths 1 "march.xlsx" Sample.march).
  vm_compute. reflexivity.
Defined.

(** The comparison of March and April is the same after the sheet
    [Sample.tenths] is imported into March, which already has its company
    row. *)
Lemma april_comparison_witness :
  exists (b1 b2 : Cmp.baseline_info) (imp : Cmp.improvements),
    fst (compare_baselines 1 2 Sample.april)
    = Return (Cmp.Comparison b1 b2 imp)
    /\ fst (compare_baselines 1 2
              (snd (_process_dataframe Sample.tenths 1 "again.xlsx"
                      Sample.april)))
       = Return (Cmp.Comparison b1 b2 imp).
Proof.
  do 3 eexists.
  split; [ vm_compute; reflexivity | ].
  apply (comparison_survives_import 1 2 Sample.april).
  vm_compute. reflexivity.
Defined.

Lemma first_baseline_witness :
  fst (create_baseline "March" "first import" (connect [])) = Return 1%Z
  /\ select_baseline 1 (view Sample.march)
     = Some {| Baseline.id := 1;
               Baseline.baseline_date := "2024-03-01";
               Baseline.baseline_name := "March";
               Baseline.description := "first import";
               Baseline.created_at := "2024-03-01 09:00:00" |}
  /\ durable Sample.march = view Sample.march.
Proof.
  destruct (create_baseline_reads_back "March" "first import" (connect []))
    as (Hid & Hread & _ & Hdurable & _);
    [ reflexivity | reflexivity | reflexivity | ].
  auto.
Defined.

Lemma insert_fault_witness :
  fst (create_baseline "March" "first import" (connect [true]))
  = Raise OperationalError
  /\ view (snd (create_baseline "March" "first import" (connect [true])))
     = view (connect [true])
  /\ durable (snd (create_baseline "March" "first import" (connect [true])))
     = durable (connect [true]).
Proof.
  apply (proj1 (create_baseline_faults "March" "first import"
                  (connect [true]))).
  reflexivity.
Defined.

Lemma no_agent_column_witness :
  let run := import_excel_report (Some Sample.no_agent_column) "april.xlsx"
               None (connect []) in
  fst run = Return false
  /\ map Baseline.baseline_name (baselines (durable (snd run)))
     = ["Import_20240301_090000"%string]
  /\ map Baseline.description (baselines (durable (snd run)))
     = ["Auto-imported from april.xlsx"%string]
  /\ agent_performance (view (snd run)) = []
  /\ company_totals (view (snd run)) = [].
Proof.
  cbv zeta.
  rewrite (failed_auto_import_keeps_baseline Sample.no_agent_column
             "april.xlsx" (connect []))
    by reflexivity.
  repeat split; reflexivity.
Defined.

Lemma april_numbering_witness : numbered (view Sample.april).
Proof.
  destruct baselines_stay_numbered as (Hnew & Hcreate & Hprocess & _).
  unfold Sample.april, Sample.march_empty, Sample.march.
  apply Hprocess, Hcreate, Hprocess, Hcreate, Hnew.
Defined.

Lemma april_report_witness :
  exists text : string,
    generate_progress_report (Some 2%Z) Sample.april
    = (Return text, Sample.april).
Proof.
  eapply (report_returns 2 Sample.april).
  - reflexivity.
  - reflexivity.
  - vm_compute. repeat split; reflexivity.
  - vm_compute. split; reflexivity.
Defined.

Lemma tenths_report_witness :
  exists text : string,
    fst (generate_progress_report (Some 1%Z)
           (snd (_process_dataframe Sample.tenths 1 "march.xlsx"
                   Sample.march)))
    = Return text.
Proof.
  eapply (report_after_import Sample.tenths 1 "march.xlsx" Sample.march).
  - reflexivity.
  - reflexivity.
  - vm_compute. reflexivity.
  - vm_compute. lia.
  - vm_compute. reflexivity.
  - intros t Ht. vm_compute in Ht. injection Ht as <-.
    vm_compute. repeat split; reflexivity.
Defined.

(** Two agents imported into March and one into April: one agent less. *)
Lemma two_imports_witness :
  let c := snd (create_baseline "April" "second import" Sample.march) in
  let c1 := snd (_process_dataframe Sample.tenths 1 "march.xlsx" c) in
  let c2 := snd (_process_dataframe Sample.five_hundred 2 "april.xlsx" c1) in
  exists (i1 i2 : Cmp.baseline_info) (imp : Cmp.improvements),
    fst (compare_baselines 1 2 c2) = Return (Cmp.Comparison i1 i2 imp)
    /\ Cmp.agent_change imp = (-1)%Z.
Proof.
  cbv zeta.
  edestruct (agent_change_after_imports Sample.tenths Sample.five_hundred
               1 2 "march.xlsx" "april.xlsx"
               (snd (create_baseline "April" "second import" Sample.march)))
    as (i1 & i2 & imp & Hrun & Hchange).
  - discriminate.
  - reflexivity.
  - reflexivity.
  - reflexivity.
  - reflexivity.
  - vm_compute. reflexivity.
  - vm_compute. reflexivity.
  - vm_compute. repeat constructor.
  - exists i1, i2, imp. split; [ exact Hrun | ].
    rewrite Hchange. vm_compute. reflexivity.
Defined.

Lemma april_unknown_id_witness :
  exists r : Cmp.result,
    compare_baselines 1 7 Sample.april = (Return r, Sample.april).
Proof.
  apply (compare_baselines_total 1 7 Sample.april).
  vm_compute. repeat constructor.
Defined.

Lemma march_unknown_id_witness :
  fst (generate_progress_report (Some 7%Z) Sample.march) = Raise TypeError.
Proof.
  apply (proj1 (proj2 (report_faults 7 Sample.march))).
  left. reflexivity.
Defined.

Lemma integer_cell_witness : _safe_float (CInt 1234) = Return 1234.
Proof.
  apply (proj1 (safe_float_of_integer 1234)).
  vm_compute. discriminate.
Defined.
